(** * DashOrg: the persisted-state engine

    A shallow embedding of the storage service (src/core/storage.js), the
    crypto service, the migration service, the state manager and the
    services built on it, with the properties of the design specification
    stated over it.

    Conventions of the embedding.
    - A timestamp (the value of [Date.now()], or what an ISO-8601 string
      written by [toISOString()] denotes) is the number of milliseconds
      since the epoch, a [Z].
    - [new Date(x).toISOString().split('T')[0]] is the UTC calendar date;
      it is represented by the number of days since 1970-01-01, which the
      text YYYY-MM-DD denotes one to one.
    - Every read of the wall clock by a storage or migration operation is
      an explicit argument of it, in the order of the reads in the source;
      the site filter, which reads the clock once per credential it looks
      at, takes one instant for the whole call.
    - Identifiers drawn from [Math.random] and the device string are
      arguments as well.
    - The content of localStorage under the storage key is an
      [option State.t]: [None] when the key is absent or does not parse.
    - Counters are JavaScript numbers used as integers; they are [Z].
    - A text is the UTF-8 encoding of a string of the language. Equality of
      texts is equality of strings; the order of strings, which is the
      order of their UTF-16 code units, is [JS.stringLeb].
    - Module [Storage] gives the operations on documents of the data model,
      in which every site has its list of credentials; module [Stored]
      gives the check-in on whatever may be found under the storage key,
      with the TypeError of a missing list. *)

From Stdlib Require Import ZArith NArith List String Ascii Bool Lia.
From Stdlib.Strings Require Import Byte.
From Stdlib Require Import DecimalString Sorted Permutation.
Import ListNotations.

Local Open Scope string_scope.
Local Open Scope list_scope.
Local Open Scope Z_scope.

(** ** Calendar *)

Module Clock.

Definition msPerDay : Z := 86400000.

(** [new Date(t).toISOString().split('T')[0]] *)
Definition isoDate (t : Z) : Z := t / msPerDay.

(** Days since 1970-01-01 of a proleptic Gregorian date. *)
Definition daysFromCivil (y m d : Z) : Z :=
  let y' := if m <=? 2 then y - 1 else y in
  let era := y' / 400 in
  let yoe := y' - era * 400 in
  let mp := (m + 9) mod 12 in
  let doy := (153 * mp + 2) / 5 + d - 1 in
  let doe := yoe * 365 + yoe / 4 - yoe / 100 + doy in
  era * 146097 + doe - 719468.

(** The instant written [y-mo-dThh:mi:ssZ]. *)
Definition utc (y mo d hh mi ss : Z) : Z :=
  daysFromCivil y mo d * msPerDay + ((hh * 60 + mi) * 60 + ss) * 1000.

End Clock.

(** ** Configuration (src/config.js) *)

Module CONFIG.

Definition app_version : string := "2.1.0".
Definition reset_autoReset : bool := true.
Definition security_keyDerivationIterations : Z := 100000.
Definition features_checkInHistory : bool := true.
Definition limits_maxHistoryEntries : nat := 100.

(** name, color and icon of the default categories; the icons are
    pictographs and are written here by their names *)
Definition defaultCategories : list (string * string * string) :=
  [ ("Finance", "#10b981", "money-bag");
    ("Work", "#3b82f6", "briefcase");
    ("Personal", "#8b5cf6", "bust");
    ("Social Media", "#ec4899", "phone");
    ("Entertainment", "#f59e0b", "clapper");
    ("Utilities", "#6366f1", "bolt") ].

End CONFIG.

(** ** Data model *)

Module HistoryEntry.
Record t := mk { timestamp : Z; device : string }.
End HistoryEntry.

Module Credential.
Record t := mk {
  id : string;
  label : string;
  email : string;
  password : string;
  notes : string;
  checkedInOn : option Z;
  (** [None]: the property is missing, which the check-in guards *)
  checkInHistory : option (list HistoryEntry.t);
  strength : string;
  breached : bool
}.

Definition set_checkedInOn (v : option Z) (c : t) : t :=
  mk (id c) (label c) (email c) (password c) (notes c) v
     (checkInHistory c) (strength c) (breached c).

Definition set_checkInHistory (v : option (list HistoryEntry.t)) (c : t) : t :=
  mk (id c) (label c) (email c) (password c) (notes c) (checkedInOn c)
     v (strength c) (breached c).
End Credential.

Module Site.
Record t := mk {
  id : string;
  name : string;
  url : string;
  favicon : string;
  category : option string;
  (** [None]: no [tags] property, which the readers guard *)
  tags : option (list string);
  priority : Z;
  color : string;
  notes : string;
  credentials : list Credential.t;
  createdAt : Z;
  updatedAt : Z
}.

Definition set_credentials (v : list Credential.t) (s : t) : t :=
  mk (id s) (name s) (url s) (favicon s) (category s) (tags s)
     (priority s) (color s) (notes s) v (createdAt s) (updatedAt s).
End Site.

Module Category.
Record t := mk {
  id : string;
  name : string;
  color : string;
  icon : string;
  order : Z
}.
End Category.

Module Settings.
Record t := mk {
  theme : string;
  viewMode : string;
  autoReset : bool;
  resetTime : string
}.
End Settings.

Module Analytics.
Record t := mk {
  totalCheckIns : Z;
  currentStreak : Z;
  longestStreak : Z;
  averageDaily : Z;
  sitesAdded : Z;
  sitesArchived : Z;
  lastCheckIn : option Z
}.

Definition set_totalCheckIns (v : Z) (a : t) : t :=
  mk v (currentStreak a) (longestStreak a) (averageDaily a)
     (sitesAdded a) (sitesArchived a) (lastCheckIn a).
Definition set_currentStreak (v : Z) (a : t) : t :=
  mk (totalCheckIns a) v (longestStreak a) (averageDaily a)
     (sitesAdded a) (sitesArchived a) (lastCheckIn a).
Definition set_longestStreak (v : Z) (a : t) : t :=
  mk (totalCheckIns a) (currentStreak a) v (averageDaily a)
     (sitesAdded a) (sitesArchived a) (lastCheckIn a).
Definition set_sitesAdded (v : Z) (a : t) : t :=
  mk (totalCheckIns a) (currentStreak a) (longestStreak a) (averageDaily a)
     v (sitesArchived a) (lastCheckIn a).
Definition set_sitesArchived (v : Z) (a : t) : t :=
  mk (totalCheckIns a) (currentStreak a) (longestStreak a) (averageDaily a)
     (sitesAdded a) v (lastCheckIn a).
Definition set_lastCheckIn (v : option Z) (a : t) : t :=
  mk (totalCheckIns a) (currentStreak a) (longestStreak a) (averageDaily a)
     (sitesAdded a) (sitesArchived a) v.
End Analytics.

Module State.
Record t := mk {
  version : string;
  (** a calendar date *)
  lastReset : Z;
  settings : Settings.t;
  categories : list Category.t;
  sites : list Site.t;
  analytics : Analytics.t
}.

Definition set_lastReset (v : Z) (s : t) : t :=
  mk (version s) v (settings s) (categories s) (sites s) (analytics s).
Definition set_settings (v : Settings.t) (s : t) : t :=
  mk (version s) (lastReset s) v (categories s) (sites s) (analytics s).
Definition set_categories (v : list Category.t) (s : t) : t :=
  mk (version s) (lastReset s) (settings s) v (sites s) (analytics s).
Definition set_sites (v : list Site.t) (s : t) : t :=
  mk (version s) (lastReset s) (settings s) (categories s) v (analytics s).
Definition set_analytics (v : Analytics.t) (s : t) : t :=
  mk (version s) (lastReset s) (settings s) (categories s) (sites s) v.
End State.

(** The argument of [addSite]: an object spread after the generated
    [id], [createdAt] and [updatedAt], so each of the three may or may not be
    an own property of it. *)
Module SiteData.
Record t := mk {
  id : option string;
  name : string;
  url : string;
  favicon : string;
  category : option string;
  tags : option (list string);
  priority : Z;
  color : string;
  notes : string;
  credentials : list Credential.t;
  createdAt : option Z;
  updatedAt : option Z
}.
End SiteData.

(** The argument of [updateSite]: any subset of a site's properties. An
    [updatedAt] among them is overwritten by the stamp and is left out. *)
Module SiteUpdates.
Record t := mk {
  id : option string;
  name : option string;
  url : option string;
  favicon : option string;
  category : option (option string);
  tags : option (option (list string));
  priority : option Z;
  color : option string;
  notes : option string;
  credentials : option (list Credential.t);
  createdAt : option Z
}.
End SiteUpdates.

(** The argument of [addCategory], spread after the generated [id] and
    [order]. *)
Module CategoryData.
Record t := mk {
  id : option string;
  name : string;
  color : string;
  icon : string;
  order : option Z
}.
End CategoryData.

(** The object [importData] works on once the text is parsed (and, for an
    envelope with a password, decrypted). [sites = None]: no array under
    [sites]. [categories = None]: nothing truthy under [categories]. *)
Module ImportDoc.
Record t := mk {
  sites : option (list Site.t);
  categories : option (list Category.t)
}.
End ImportDoc.

(** [a || b] where [a] may be missing *)
Definition orElse {A : Type} (a : option A) (b : A) : A :=
  match a with Some x => x | None => b end.

(** ** Array helpers *)

(** The object that [Array.prototype.find] returns is mutated in place by
    the callers: the array afterwards holds the changed object at the place
    of the first match. *)
Fixpoint modifyFirst {A : Type} (p : A -> bool) (f : A -> A) (l : list A) : list A :=
  match l with
  | [] => []
  | x :: r => if p x then f x :: r else x :: modifyFirst p f r
  end.

(** [findIndex] followed by [splice(index, 1)]. *)
Fixpoint removeFirst {A : Type} (p : A -> bool) (l : list A) : list A :=
  match l with
  | [] => []
  | x :: r => if p x then r else x :: removeFirst p r
  end.

(** ** Completion of a call that may throw *)

Inductive Completion (A : Type) : Type :=
| Return (a : A)
| Throw (message : string).

Arguments Return {A} a.
Arguments Throw {A} message.

(** ** Crypto service (src/core/crypto.js) *)

Module Envelope.
Record t := mk {
  salt : string;
  iv : string;
  data : string;
  algorithm : string;
  iterations : Z
}.
End Envelope.

Module Crypto.

(** [JSON.stringify] and [JSON.parse] at the values of a type; [None]
    when [JSON.parse] throws. *)
Class JSON (A : Type) := {
  JSON_stringify : A -> string;
  JSON_parse : string -> option A
}.

(** The values of [A] are JSON-serializable. *)
Class JSONLaws (A : Type) `{JSON A} : Prop := {
  parse_stringify : forall a : A, JSON_parse (JSON_stringify a) = Some a
}.

(** The browser interfaces the service is written against. A binary
    string is the list of its code units. [None] stands for a thrown
    exception. *)
Class WebCrypto := {
  CryptoKey : Type;
  TextEncoder_encode : string -> list byte;
  TextDecoder_decode : list byte -> string;
  (** [importKey] of the password bytes, then [deriveKey] with PBKDF2 and
      SHA-256 from the salt and the iteration count *)
  subtle_deriveKey : list byte -> list byte -> Z -> CryptoKey;
  (** AES-GCM with the given initialization vector *)
  subtle_encrypt : list byte -> CryptoKey -> list byte -> list byte;
  subtle_decrypt : list byte -> CryptoKey -> list byte -> option (list byte);
  btoa : list N -> option string;
  atob : string -> option (list N)
}.

Class WebCryptoLaws `{WebCrypto} : Prop := {
  decode_encode : forall s, TextDecoder_decode (TextEncoder_encode s) = s;
  decrypt_encrypt :
    forall iv key data, subtle_decrypt iv key (subtle_encrypt iv key data) = Some data;
  btoa_latin1 :
    forall l, Forall (fun c => (c < 256)%N) l -> exists s, btoa l = Some s;
  atob_btoa : forall l s, btoa l = Some s -> atob s = Some l
}.

Section Service.
Context `{WebCrypto}.

Definition algorithm : string := "AES-GCM".
Definition keyLength : Z := 256.
Definition iterations : Z := CONFIG.security_keyDerivationIterations.

(** [deriveKey(password, salt)] *)
Definition deriveKey (password : string) (salt : list byte) : CryptoKey :=
  let passwordBuffer := TextEncoder_encode password in
  subtle_deriveKey passwordBuffer salt iterations.

(** [String.fromCharCode(bytes[i])] *)
Definition fromCharCode (b : byte) : N := Byte.to_N b.

(** [arrayBufferToBase64(buffer)] *)
Definition arrayBufferToBase64 (buffer : list byte) : option string :=
  let binary :=
    fold_left (fun binary b => binary ++ [fromCharCode b]) buffer [] in
  btoa binary.

(** The store of a code unit into a [Uint8Array] element. *)
Definition toUint8 (c : N) : byte :=
  match Byte.of_N (c mod 256) with
  | Some b => b
  | None => x00
  end.

(** [base64ToArrayBuffer(base64)] *)
Definition base64ToArrayBuffer (base64 : string) : option (list byte) :=
  match atob base64 with
  | None => None
  | Some binary => Some (map toUint8 binary)
  end.

(** [encrypt(data, password)]; [salt] and [iv] are the values drawn by
    [generateSalt()] and [generateIV()]. *)
Definition encrypt {A : Type} `{JSON A} (salt iv : list byte)
           (data : A) (password : string) : Completion Envelope.t :=
  let dataBuffer := TextEncoder_encode (JSON_stringify data) in
  let key := deriveKey password salt in
  let encryptedData := subtle_encrypt iv key dataBuffer in
  match arrayBufferToBase64 salt,
        arrayBufferToBase64 iv,
        arrayBufferToBase64 encryptedData with
  | Some salt64, Some iv64, Some data64 =>
      Return (Envelope.mk salt64 iv64 data64 algorithm iterations)
  | _, _, _ => Throw "Failed to encrypt data"
  end.

(** [decrypt(encryptedObject, password)] *)
Definition decrypt {A : Type} `{JSON A}
           (encryptedObject : Envelope.t) (password : string) : Completion A :=
  let failed :=
    Throw "Failed to decrypt data - incorrect password or corrupted data" in
  match base64ToArrayBuffer (Envelope.salt encryptedObject),
        base64ToArrayBuffer (Envelope.iv encryptedObject),
        base64ToArrayBuffer (Envelope.data encryptedObject) with
  | Some salt, Some iv, Some encryptedData =>
      let key := deriveKey password salt in
      match subtle_decrypt iv key encryptedData with
      | None => failed
      | Some decryptedData =>
          let jsonString := TextDecoder_decode decryptedData in
          match JSON_parse jsonString with
          | Some value => Return value
          | None => failed
          end
      end
  | _, _, _ => failed
  end.

End Service.

(** *** Field helpers *)

(** the object [{ value }] that [encryptField] encrypts *)
Module FieldPayload.
Record t := mk { value : string }.
End FieldPayload.

Section Fields.
Context `{WebCrypto} `{JSON FieldPayload.t}.

(** [encryptField(value, password)]; the result [None] is the empty
    string returned for an empty value. *)
Definition encryptField (salt iv : list byte) (value : string) (password : string)
  : Completion (option Envelope.t) :=
  match value with
  | EmptyString => Return None
  | _ =>
      match encrypt salt iv (FieldPayload.mk value) password with
      | Return envelope => Return (Some envelope)
      | Throw message => Throw message
      end
  end.

(** [decryptField(encryptedObject, password)] *)
Definition decryptField (encryptedObject : option Envelope.t) (password : string)
  : string :=
  match encryptedObject with
  | None => ""
  | Some envelope =>
      match decrypt envelope password with
      | Return decrypted => FieldPayload.value decrypted
      | Throw _ => ""
      end
  end.

End Fields.

(** *** Password generation *)

(** the [options] of [generatePassword]; [None]: the property is missing
    and its default, true, applies *)
Module PasswordOptions.
Record t := mk {
  lowercase : option bool;
  uppercase : option bool;
  numbers : option bool;
  symbols : option bool
}.
End PasswordOptions.

Definition charsetFor (options : PasswordOptions.t) : string :=
  let charset := "" in
  let charset :=
    if orElse (PasswordOptions.lowercase options) true
    then (charset ++ "abcdefghijklmnopqrstuvwxyz")%string else charset in
  let charset :=
    if orElse (PasswordOptions.uppercase options) true
    then (charset ++ "ABCDEFGHIJKLMNOPQRSTUVWXYZ")%string else charset in
  let charset :=
    if orElse (PasswordOptions.numbers options) true
    then (charset ++ "0123456789")%string else charset in
  let charset :=
    if orElse (PasswordOptions.symbols options) true
    then (charset ++ "!@#$%^&*()_+-=[]{}|;:,.<>?")%string else charset in
  match charset with
  | EmptyString => "abcdefghijklmnopqrstuvwxyz"
  | _ => charset
  end.

(** [charset[index]] appended to a string *)
Definition charAt (index : nat) (charset : string) : string :=
  match String.get index charset with
  | Some c => String c EmptyString
  | None => "undefined"
  end.

(** [crypto.getRandomValues] fills at most 65536 bytes, 16384 elements
    of a Uint32Array; on a longer array it throws a QuotaExceededError. *)
Definition getRandomValuesQuota : N := 16384.

(** [generatePassword(length, options)]; [randomValues i] is the element
    of index [i] of the array filled by [crypto.getRandomValues]. For a
    length over the quota no password is produced: the call throws (the
    QuotaExceededError, where the allocation of the array has not thrown
    before). *)
Definition generatePassword (length : nat) (options : PasswordOptions.t)
           (randomValues : nat -> N) : Completion string :=
  let charset := charsetFor options in
  if (getRandomValuesQuota <? N.of_nat length)%N then Throw "QuotaExceededError"
  else
    Return
      (fold_left
         (fun password i =>
            (password
               ++ charAt (N.to_nat (randomValues i
                                    mod N.of_nat (String.length charset)))
                         charset)%string)
         (seq 0 length)
         "").

End Crypto.

(** ** Built-in operations of the language *)

Module JS.

(** the digit of a value below 16 in [toString(16)] *)
Definition hexDigit (v : N) : ascii :=
  ascii_of_N (if (v <? 10)%N then 48 + v else 87 + v).

Fixpoint hexDigits (fuel : nat) (n : N) (acc : string) : string :=
  match fuel with
  | O => acc
  | S fuel' =>
      if (n =? 0)%N then acc
      else hexDigits fuel' (n / 16) (String (hexDigit (n mod 16)) acc)
  end.

(** [n.toString(16)] of a non-negative integer *)
Definition toString16 (n : N) : string :=
  if (n =? 0)%N then "0" else hexDigits (N.to_nat (N.size n)) n "".

(** the number of places of [s] that hold the character [c] *)
Fixpoint count (c : ascii) (s : string) : nat :=
  match s with
  | EmptyString => 0
  | String d rest => if Ascii.eqb d c then S (count c rest) else count c rest
  end.

(** *** The order of strings *)

(** A text of the model is the UTF-8 encoding of a string of the
    language, which is a sequence of UTF-16 code units and is compared
    as such by [<] and by [sort()]. [codePoints] reads the UTF-8
    sequences of a text; a byte that starts no sequence of the encoding
    is read as U+FFFD. *)
Definition isContinuation (b : N) : bool := ((128 <=? b) && (b <? 192))%N.

Fixpoint codePoints (bytes : list N) : list N :=
  match bytes with
  | [] => []
  | b :: rest =>
      if (b <? 128)%N then b :: codePoints rest
      else if ((192 <=? b) && (b <? 224))%N then
        match rest with
        | c1 :: rest1 =>
            if isContinuation c1
            then ((b mod 32) * 64 + c1 mod 64)%N :: codePoints rest1
            else 65533%N :: codePoints rest
        | [] => [65533%N]
        end
      else if ((224 <=? b) && (b <? 240))%N then
        match rest with
        | c1 :: (c2 :: rest2) as rest1 =>
            if isContinuation c1 && isContinuation c2
            then ((b mod 16) * 4096 + (c1 mod 64) * 64 + c2 mod 64)%N
                   :: codePoints rest2
            else 65533%N :: codePoints rest
        | _ => 65533%N :: codePoints rest
        end
      else if ((240 <=? b) && (b <? 248))%N then
        match rest with
        | c1 :: (c2 :: (c3 :: rest3)) =>
            if isContinuation c1 && isContinuation c2 && isContinuation c3
            then ((b mod 8) * 262144 + (c1 mod 64) * 4096
                  + (c2 mod 64) * 64 + c3 mod 64)%N
                   :: codePoints rest3
            else 65533%N :: codePoints rest
        | _ => 65533%N :: codePoints rest
        end
      else 65533%N :: codePoints rest
  end.

(** the UTF-16 code units of a code point: itself below U+10000, a
    surrogate pair from there on *)
Definition utf16 (codePoint : N) : list N :=
  if (codePoint <? 65536)%N then [codePoint]
  else [ (55296 + (codePoint - 65536) / 1024)%N;
         (56320 + (codePoint - 65536) mod 1024)%N ].

(** the code units of the string that a text denotes *)
Definition codeUnits (s : string) : list N :=
  flat_map utf16 (codePoints (map N_of_ascii (list_ascii_of_string s))).

(** [a <= b] on sequences of code units: the first place where they
    differ decides, and a prefix comes first *)
Fixpoint leUnits (a b : list N) : bool :=
  match a, b with
  | [], _ => true
  | _ :: _, [] => false
  | x :: a', y :: b' =>
      if (x <? y)%N then true
      else if (y <? x)%N then false
      else leUnits a' b'
  end.

(** [a <= b] on strings *)
Definition stringLeb (a b : string) : bool := leUnits (codeUnits a) (codeUnits b).

End JS.

(** ** Shared helpers (src/shared/constants.js) *)

Module Shared.

(** ['xxxxxxxx-xxxx-4xxx-yxxx-xxxxxxxxxxxx'.replace(/[xy]/g, callback)]:
    [draws k] is the value of [Math.random() * 16 | 0] in the call of the
    callback of index [k]. *)
Fixpoint replaceXY (template : string) (k : nat) (draws : nat -> N) : string :=
  match template with
  | EmptyString => EmptyString
  | String c rest =>
      if Ascii.eqb c "x" || Ascii.eqb c "y"
      then
        let r := draws k in
        let v := if Ascii.eqb c "x" then r else N.lor (N.land r 3) 8 in
        (JS.toString16 v ++ replaceXY rest (S k) draws)%string
      else String c (replaceXY rest k draws)
  end.

(** [generateUUID()] *)
Definition generateUUID (draws : nat -> N) : string :=
  replaceXY "xxxxxxxx-xxxx-4xxx-yxxx-xxxxxxxxxxxx" 0 draws.

(** the letters a to z, the letters A to Z and the digits *)
Definition isLower (c : ascii) : bool :=
  let n := nat_of_ascii c in ((97 <=? n) && (n <=? 122))%nat.
Definition isUpper (c : ascii) : bool :=
  let n := nat_of_ascii c in ((65 <=? n) && (n <=? 90))%nat.
Definition isDigit (c : ascii) : bool :=
  let n := nat_of_ascii c in ((48 <=? n) && (n <=? 57))%nat.

End Shared.

(** ** Storage service (src/core/storage.js) *)

Module Storage.

Definition Store := option State.t.

Definition getState (st : Store) : option State.t := st.

(** [setState] writes the whole document; a failing write is not
    modelled. *)
Definition setState (state : State.t) (st : Store) : Store := Some state.

Definition hasSiteId (siteId : string) (s : Site.t) : bool :=
  String.eqb (Site.id s) siteId.

Definition hasCredentialId (credentialId : string) (c : Credential.t) : bool :=
  String.eqb (Credential.id c) credentialId.

(** [updateStreak(state)]; [tToday] is the clock read of line 290 and
    [tNow] the [Date.now()] of line 299. *)
Definition updateStreak (tToday tNow : Z) (state : State.t) : State.t :=
  let today := Clock.isoDate tToday in
  let a := State.analytics state in
  match Analytics.lastCheckIn a with
  | None => State.set_analytics (Analytics.set_currentStreak 1 a) state
  | Some lastCheckIn =>
      let lastDate := Clock.isoDate lastCheckIn in
      let yesterday := Clock.isoDate (tNow - 86400000) in
      let a1 :=
        if lastDate =? yesterday
        then Analytics.set_currentStreak (Analytics.currentStreak a + 1) a
        else if negb (lastDate =? today)
             then Analytics.set_currentStreak 1 a
             else a in
      let a2 :=
        if Analytics.currentStreak a1 >? Analytics.longestStreak a1
        then Analytics.set_longestStreak (Analytics.currentStreak a1) a1
        else a1 in
      State.set_analytics a2 state
  end.

(** The history part of a check-in: [unshift] the new entry, then keep
    the first [maxHistoryEntries] when there are more. *)
Definition pushHistory (cap : nat) (e : HistoryEntry.t)
           (h : option (list HistoryEntry.t)) : list HistoryEntry.t :=
  let h0 := match h with Some l => l | None => [] end in
  let h1 := e :: h0 in
  if (cap <? List.length h1)%nat then firstn cap h1 else h1.

(** What a check-in does to the credential object. *)
Definition checkInMutation (now : Z) (device : string) (credential : Credential.t)
  : Credential.t :=
  let c1 := Credential.set_checkedInOn (Some now) credential in
  if CONFIG.features_checkInHistory
  then Credential.set_checkInHistory
         (Some (pushHistory CONFIG.limits_maxHistoryEntries
                            (HistoryEntry.mk now device)
                            (Credential.checkInHistory c1))) c1
  else c1.

Definition mutateCredential (siteId credentialId : string)
           (f : Credential.t -> Credential.t) (state : State.t) : State.t :=
  State.set_sites
    (modifyFirst (hasSiteId siteId)
       (fun site =>
          Site.set_credentials
            (modifyFirst (hasCredentialId credentialId) f (Site.credentials site))
            site)
       (State.sites state))
    state.

(** [checkInCredential(siteId, credentialId)]; [now] is the clock read of
    line 206, [tToday] and [tNow] those of [updateStreak]. On a document
    of the data model no step of it throws; [Stored.checkInCredential]
    below is the operation on any stored document, where a missing list
    throws, and returns what this one returns on the data model. *)
Definition checkInCredential (now tToday tNow : Z) (device : string)
           (siteId credentialId : string) (st : Store) : bool * Store :=
  match getState st with
  | None => (false, st)
  | Some state =>
      match find (hasSiteId siteId) (State.sites state) with
      | None => (false, st)
      | Some site =>
          match find (hasCredentialId credentialId) (Site.credentials site) with
          | None => (false, st)
          | Some _ =>
              let state1 :=
                mutateCredential siteId credentialId (checkInMutation now device) state in
              let a := State.analytics state1 in
              let a1 := Analytics.set_totalCheckIns (Analytics.totalCheckIns a + 1) a in
              let a2 := Analytics.set_lastCheckIn (Some now) a1 in
              let state2 := State.set_analytics a2 state1 in
              let state3 := updateStreak tToday tNow state2 in
              (true, setState state3 st)
          end
      end
  end.

(** [resetCredential(siteId, credentialId)] *)
Definition resetCredential (siteId credentialId : string) (st : Store) : bool * Store :=
  match getState st with
  | None => (false, st)
  | Some state =>
      match find (hasSiteId siteId) (State.sites state) with
      | None => (false, st)
      | Some site =>
          match find (hasCredentialId credentialId) (Site.credentials site) with
          | None => (false, st)
          | Some _ =>
              (true,
               setState (mutateCredential siteId credentialId
                           (Credential.set_checkedInOn None) state) st)
          end
      end
  end.

(** [resetAllCredentials()] *)
Definition resetAllCredentials (now : Z) (st : Store) : bool * Store :=
  match getState st with
  | None => (false, st)
  | Some state =>
      let sites' :=
        map (fun site =>
               Site.set_credentials
                 (map (Credential.set_checkedInOn None) (Site.credentials site))
                 site)
            (State.sites state) in
      let state1 := State.set_sites sites' state in
      let state2 := State.set_lastReset (Clock.isoDate now) state1 in
      (true, setState state2 st)
  end.

(** [checkDailyReset()]; [tCheck] is its own clock read and [tReset] the
    one of [resetAllCredentials]. *)
Definition checkDailyReset (tCheck tReset : Z) (st : Store) : Store :=
  match getState st with
  | None => st
  | Some state =>
      if negb (Settings.autoReset (State.settings state)) then st
      else
        let today := Clock.isoDate tCheck in
        if negb (State.lastReset state =? today)
        then snd (resetAllCredentials tReset st)
        else st
  end.

(** [initializeDefaultState()]; [ids i] is the identifier generated for
    the category of index [i]. *)
Definition initializeDefaultState (now : Z) (ids : nat -> string) (st : Store)
  : State.t * Store :=
  let defaultState :=
    State.mk
      CONFIG.app_version
      (Clock.isoDate now)
      (Settings.mk "auto" "grid" CONFIG.reset_autoReset "00:00")
      (map (fun ic : nat * (string * string * string) =>
              let '(index, (name, color, icon)) := ic in
              Category.mk (ids index) name color icon (Z.of_nat index))
           (combine (seq 0 (List.length CONFIG.defaultCategories))
                    CONFIG.defaultCategories))
      []
      (Analytics.mk 0 0 0 0 0 0 None) in
  (defaultState, setState defaultState st).

(** [addSite(siteData)]; [newId] is the generated identifier, [tCreated]
    and [tUpdated] the two clock reads. *)
Definition addSite (newId : string) (tCreated tUpdated : Z) (siteData : SiteData.t)
           (st : Store) : option Site.t * Store :=
  match getState st with
  | None => (None, st)
  | Some state =>
      let newSite :=
        Site.mk
          (orElse (SiteData.id siteData) newId)
          (SiteData.name siteData)
          (SiteData.url siteData)
          (SiteData.favicon siteData)
          (SiteData.category siteData)
          (SiteData.tags siteData)
          (SiteData.priority siteData)
          (SiteData.color siteData)
          (SiteData.notes siteData)
          (SiteData.credentials siteData)
          (orElse (SiteData.createdAt siteData) tCreated)
          (orElse (SiteData.updatedAt siteData) tUpdated) in
      let state1 := State.set_sites (State.sites state ++ [newSite]) state in
      let a := State.analytics state1 in
      let state2 :=
        State.set_analytics
          (Analytics.set_sitesAdded (Analytics.sitesAdded a + 1) a) state1 in
      (Some newSite, setState state2 st)
  end.

(** [{...site, ...updates, updatedAt: now}] *)
Definition applyUpdates (now : Z) (updates : SiteUpdates.t) (site : Site.t) : Site.t :=
  Site.mk
    (orElse (SiteUpdates.id updates) (Site.id site))
    (orElse (SiteUpdates.name updates) (Site.name site))
    (orElse (SiteUpdates.url updates) (Site.url site))
    (orElse (SiteUpdates.favicon updates) (Site.favicon site))
    (orElse (SiteUpdates.category updates) (Site.category site))
    (orElse (SiteUpdates.tags updates) (Site.tags site))
    (orElse (SiteUpdates.priority updates) (Site.priority site))
    (orElse (SiteUpdates.color updates) (Site.color site))
    (orElse (SiteUpdates.notes updates) (Site.notes site))
    (orElse (SiteUpdates.credentials updates) (Site.credentials site))
    (orElse (SiteUpdates.createdAt updates) (Site.createdAt site))
    now.

(** [updateSite(id, updates)] *)
Definition updateSite (now : Z) (id : string) (updates : SiteUpdates.t) (st : Store)
  : bool * Store :=
  match getState st with
  | None => (false, st)
  | Some state =>
      match find (hasSiteId id) (State.sites state) with
      | None => (false, st)
      | Some _ =>
          (true,
           setState
             (State.set_sites
                (modifyFirst (hasSiteId id) (applyUpdates now updates)
                             (State.sites state))
                state)
             st)
      end
  end.

(** [deleteSite(id)] *)
Definition deleteSite (id : string) (st : Store) : bool * Store :=
  match getState st with
  | None => (false, st)
  | Some state =>
      match find (hasSiteId id) (State.sites state) with
      | None => (false, st)
      | Some _ =>
          let state1 :=
            State.set_sites (removeFirst (hasSiteId id) (State.sites state)) state in
          let a := State.analytics state1 in
          let state2 :=
            State.set_analytics
              (Analytics.set_sitesArchived (Analytics.sitesArchived a + 1) a) state1 in
          (true, setState state2 st)
      end
  end.

(** [addCategory(categoryData)] *)
Definition addCategory (newId : string) (categoryData : CategoryData.t) (st : Store)
  : option Category.t * Store :=
  match getState st with
  | None => (None, st)
  | Some state =>
      let newCategory :=
        Category.mk
          (orElse (CategoryData.id categoryData) newId)
          (CategoryData.name categoryData)
          (CategoryData.color categoryData)
          (CategoryData.icon categoryData)
          (orElse (CategoryData.order categoryData)
                  (Z.of_nat (List.length (State.categories state)))) in
      (Some newCategory,
       setState (State.set_categories (State.categories state ++ [newCategory]) state) st)
  end.

(** [importData(dataString, password)] from the parsed (and decrypted)
    object on: [data = None] when parsing or decryption throws. Every
    exception is caught and turned into [false]. *)
Definition importData (data : option ImportDoc.t) (st : Store) : bool * Store :=
  match data with
  | None => (false, st)
  | Some data =>
      match ImportDoc.sites data with
      | None => (false, st)
      | Some importedSites =>
          match getState st with
          | None => (false, st)
          | Some state =>
              let merged :=
                State.set_categories
                  (orElse (ImportDoc.categories data) (State.categories state))
                  (State.set_sites (State.sites state ++ importedSites) state) in
              (true, setState merged st)
          end
      end
  end.

(** The object [exportData] serializes: the document with [version] set
    to the current one, and [exportedAt]. *)
Record ExportDoc := mkExportDoc {
  exportState : State.t;
  exportedAt : Z
}.

(** The text [exportData] resolves to: [JsonText d] is
    [JSON.stringify(d, null, 2)] of the document, [EnvelopeText e] the same
    of an envelope, [CsvText s] the text [s] of [convertToCSV]. *)
Inductive ExportText : Type :=
| JsonText (data : ExportDoc)
| EnvelopeText (envelope : Envelope.t)
| CsvText (text : string).

Definition dquote : string := String (ascii_of_nat 34) EmptyString.
Definition newline : string := String (ascii_of_nat 10) EmptyString.

(** [convertToCSV(data)] *)
Definition convertToCSV (data : ExportDoc) : string :=
  let header := ["Site Name"; "URL"; "Category"; "Email"; "Label"; "Tags"] in
  let rows :=
    header ::
    flat_map
      (fun site =>
         map (fun cred =>
                [ Site.name site;
                  Site.url site;
                  orElse (Site.category site) "";
                  Credential.email cred;
                  Credential.label cred;
                  String.concat ";" (orElse (Site.tags site) []) ])
             (Site.credentials site))
      (State.sites (exportState data)) in
  String.concat newline
    (map (fun row =>
            String.concat "," (map (fun cell => dquote ++ cell ++ dquote)%string row))
         rows).

(** a password that is neither missing nor empty *)
Definition truthy (password : option string) : bool :=
  match password with
  | Some EmptyString => false
  | Some _ => true
  | None => false
  end.

Definition stripHistory (state : State.t) : State.t :=
  State.set_sites
    (map (fun site =>
            Site.set_credentials
              (map (Credential.set_checkInHistory (Some [])) (Site.credentials site))
              site)
         (State.sites state))
    state.

(** The object built by [exportData] before it is serialized. *)
Definition exportObject (now : Z) (includeHistory : bool) (state : State.t)
  : ExportDoc :=
  let data :=
    mkExportDoc
      (State.mk CONFIG.app_version (State.lastReset state)
                (State.settings state) (State.categories state)
                (State.sites state) (State.analytics state))
      now in
  if negb includeHistory
  then mkExportDoc (stripHistory (exportState data)) (exportedAt data)
  else data.

Section ExportData.
Context `{Crypto.WebCrypto} `{Crypto.JSON ExportDoc}.

(** [exportData(format, includeHistory, encrypt, password)]; [now] is
    the clock read, [salt] and [iv] what the crypto service draws when
    it is called. *)
Definition exportData (now : Z) (salt iv : list byte)
           (format : string) (includeHistory encrypt : bool)
           (password : option string) (st : Store)
  : Completion (option ExportText) :=
  match getState st with
  | None => Return None
  | Some state =>
      let data := exportObject now includeHistory state in
      if encrypt && truthy password
      then
        match Crypto.encrypt salt iv data (orElse password "") with
        | Return envelope => Return (Some (EnvelopeText envelope))
        | Throw message => Throw message
        end
      else if String.eqb format "json" then Return (Some (JsonText data))
      else if String.eqb format "csv" then Return (Some (CsvText (convertToCSV data)))
      else Return None
  end.

End ExportData.

(** The first credential with [credentialId] of the first site with
    [siteId]: the object the check-in works on. *)
Definition getCredential (siteId credentialId : string) (st : Store)
  : option Credential.t :=
  match getState st with
  | None => None
  | Some state =>
      match find (hasSiteId siteId) (State.sites state) with
      | None => None
      | Some site => find (hasCredentialId credentialId) (Site.credentials site)
      end
  end.

(** *** Sequences of operations *)

Inductive Operation : Type :=
| CheckIn (now tToday tNow : Z) (device siteId credentialId : string)
| ResetCredential (siteId credentialId : string)
| ResetAll (now : Z)
| DailyReset (tCheck tReset : Z)
| AddSite (newId : string) (tCreated tUpdated : Z) (siteData : SiteData.t)
| UpdateSite (now : Z) (id : string) (updates : SiteUpdates.t)
| DeleteSite (id : string)
| AddCategory (newId : string) (categoryData : CategoryData.t)
| ImportData (data : option ImportDoc.t).

(** The store after one operation. *)
Definition run (op : Operation) (st : Store) : Store :=
  match op with
  | CheckIn now tToday tNow device siteId credentialId =>
      snd (checkInCredential now tToday tNow device siteId credentialId st)
  | ResetCredential siteId credentialId =>
      snd (resetCredential siteId credentialId st)
  | ResetAll now => snd (resetAllCredentials now st)
  | DailyReset tCheck tReset => checkDailyReset tCheck tReset st
  | AddSite newId tCreated tUpdated siteData =>
      snd (addSite newId tCreated tUpdated siteData st)
  | UpdateSite now id updates => snd (updateSite now id updates st)
  | DeleteSite id => snd (deleteSite id st)
  | AddCategory newId categoryData => snd (addCategory newId categoryData st)
  | ImportData data => snd (importData data st)
  end.

Definition runAll (ops : list Operation) (st : Store) : Store :=
  fold_left (fun st op => run op st) ops st.

(** The store of a first run: nothing under the key, then
    [initializeDefaultState()]. *)
Definition bootstrap (now : Z) (ids : nat -> string) : Store :=
  snd (initializeDefaultState now ids None).

(** One check-in of a fixed credential per element of [reads]: the three
    clock reads and the device string of the call. *)
Definition checkInAll (siteId credentialId : string)
           (reads : list (Z * Z * Z * string)) (st : Store) : Store :=
  runAll
    (map (fun r : Z * Z * Z * string =>
            let '(now, tToday, tNow, device) := r in
            CheckIn now tToday tNow device siteId credentialId)
         reads)
    st.

Definition entryOf (r : Z * Z * Z * string) : HistoryEntry.t :=
  let '(now, _, _, device) := r in HistoryEntry.mk now device.

(** *** The streak invariant *)

(** [currentStreak] does not exceed [longestStreak]. *)
Definition streakOk (state : State.t) : Prop :=
  Analytics.currentStreak (State.analytics state)
  <= Analytics.longestStreak (State.analytics state).

(** The two streak counters of [state'] are those of [state]. *)
Definition sameStreak (state state' : State.t) : Prop :=
  Analytics.currentStreak (State.analytics state') =
  Analytics.currentStreak (State.analytics state) /\
  Analytics.longestStreak (State.analytics state') =
  Analytics.longestStreak (State.analytics state).

(** *** Reads *)

(** [getSites()] *)
Definition getSites (st : Store) : list Site.t :=
  match getState st with
  | Some state => State.sites state
  | None => []
  end.

(** [getSite(id)] *)
Definition getSite (id : string) (st : Store) : option Site.t :=
  find (hasSiteId id) (getSites st).

(** [generateId()]; [draws] as for [generateUUID()] *)
Definition generateId (draws : nat -> N) : string :=
  Shared.replaceXY "xxxxxxxx-xxxx-4xxx-yxxx-xxxxxxxxxxxx" 0 draws.

(** a row of [convertToCSV] as a line: the cells between double quotes,
    joined by commas *)
Definition csvLine (row : list string) : string :=
  String.concat "," (map (fun cell => dquote ++ cell ++ dquote)%string row).

(** *** The bound on the histories *)

(** The history of a credential has at most [maxHistoryEntries] entries. *)
Definition historyWithinCap (c : Credential.t) : Prop :=
  (List.length (orElse (Credential.checkInHistory c) [])
   <= CONFIG.limits_maxHistoryEntries)%nat.

Definition sitesWithinCap (sites : list Site.t) : Prop :=
  forall site c, In site sites -> In c (Site.credentials site) -> historyWithinCap c.

Definition storeWithinCap (st : Store) : Prop :=
  forall state, st = Some state -> sitesWithinCap (State.sites state).

(** The credentials that an operation hands to the store have histories
    within the bound. *)
Definition suppliesWithinCap (op : Operation) : Prop :=
  match op with
  | AddSite _ _ _ siteData =>
      forall c, In c (SiteData.credentials siteData) -> historyWithinCap c
  | UpdateSite _ _ updates =>
      forall credentials c,
        SiteUpdates.credentials updates = Some credentials ->
        In c credentials -> historyWithinCap c
  | ImportData data =>
      forall imported sites,
        data = Some imported -> ImportDoc.sites imported = Some sites ->
        sitesWithinCap sites
  | _ => True
  end.

End Storage.

(** ** State manager (src/core/state.js): the site filter *)

Module StateManager.

Record Filters := mkFilters {
  search : string;
  status : string;
  (** [None]: null *)
  category : option string;
  tags : list string
}.

(** [isToday(dateString)] *)
Definition isToday (now : Z) (dateString : Z) : bool :=
  let today := Clock.isoDate now in
  let checkDate := Clock.isoDate dateString in
  today =? checkDate.

(** [getSites()] on the cached document *)
Definition getSites (state : option State.t) : list Site.t :=
  match state with
  | Some state => State.sites state
  | None => []
  end.

(** [toLowerCase()] as it acts on ASCII text: the letters A to Z are
    folded. The cased letters outside ASCII, which the method folds as
    well, are left as they are: the search below is the search of the
    code on texts whose cased letters are ASCII. *)
Definition lowerChar (c : ascii) : ascii :=
  let n := nat_of_ascii c in
  if ((65 <=? n) && (n <=? 90))%nat then ascii_of_nat (n + 32) else c.

Fixpoint toLowerCase (s : string) : string :=
  match s with
  | EmptyString => EmptyString
  | String c r => String (lowerChar c) (toLowerCase r)
  end.

(** [text.includes(query)] *)
Fixpoint includes (text query : string) : bool :=
  String.prefix query text ||
  match text with
  | EmptyString => false
  | String _ rest => includes rest query
  end.

Definition nonEmpty (s : string) : bool :=
  match s with EmptyString => false | String _ _ => true end.

Definition checkedToday (now : Z) (c : Credential.t) : bool :=
  match Credential.checkedInOn c with
  | Some checkedInOn => isToday now checkedInOn
  | None => false
  end.

(** [getFilteredSites()]; the calls of [isToday] made by one call of the
    filter read the clock at [now]. *)
Definition getFilteredSites (now : Z) (filters : Filters) (state : option State.t)
  : list Site.t :=
  let sites := getSites state in
  let sites :=
    if nonEmpty (search filters)
    then
      let query := toLowerCase (search filters) in
      filter
        (fun site =>
           let searchText :=
             toLowerCase
               (String.concat " "
                  ([Site.name site; Site.url site]
                     ++ orElse (Site.tags site) []
                     ++ map (fun c => (Credential.email c ++ " " ++ Credential.label c)%string)
                            (Site.credentials site))) in
           includes searchText query)
        sites
    else sites in
  let sites :=
    if negb (String.eqb (status filters) "all")
    then
      filter
        (fun site =>
           let hasCheckedIn := existsb (checkedToday now) (Site.credentials site) in
           if String.eqb (status filters) "done" then hasCheckedIn else negb hasCheckedIn)
        sites
    else sites in
  let sites :=
    match category filters with
    | Some wanted =>
        if nonEmpty wanted
        then
          filter
            (fun site =>
               match Site.category site with
               | Some c => String.eqb c wanted
               | None => false
               end)
            sites
        else sites
    | None => sites
    end in
  let sites :=
    if (0 <? List.length (tags filters))%nat
    then
      filter
        (fun site =>
           existsb
             (fun tag =>
                match Site.tags site with
                | Some siteTags => existsb (String.eqb tag) siteTags
                | None => false
                end)
             (tags filters))
        sites
    else sites in
  sites.


(** *** Filter state, tags and bulk check-in *)

(** the filters of a new manager, and the ones [clearFilters()] sets *)
Definition clearFilters : Filters := mkFilters "" "all" None [].

(** the argument of [setFilters]: any subset of the filter properties *)
Record FilterUpdates := mkFilterUpdates {
  newSearch : option string;
  newStatus : option string;
  newCategory : option (option string);
  newTags : option (list string)
}.

(** [setFilters(filters)]: the filters it stores; a property present in
    the argument replaces the stored one. *)
Definition setFilters (updates : FilterUpdates) (filters : Filters) : Filters :=
  mkFilters (orElse (newSearch updates) (search filters))
            (orElse (newStatus updates) (status filters))
            (orElse (newCategory updates) (category filters))
            (orElse (newTags updates) (tags filters)).

(** [tagsSet.add(tag)] on a set kept in insertion order *)
Definition addTag (tagsSet : list string) (tag : string) : list string :=
  if existsb (String.eqb tag) tagsSet then tagsSet else tagsSet ++ [tag].

(** [array.sort()] on strings: the ascending order of the UTF-16 code
    units. The result is the sorted arrangement of the elements, whatever
    the algorithm; it is computed here by insertion. *)
Fixpoint insertSorted (x : string) (sorted : list string) : list string :=
  match sorted with
  | [] => [x]
  | y :: rest => if JS.stringLeb x y then x :: sorted else y :: insertSorted x rest
  end.

Definition sort (items : list string) : list string :=
  fold_left (fun sorted x => insertSorted x sorted) items [].

(** [getAllTags()] *)
Definition getAllTags (state : option State.t) : list string :=
  let tagsSet :=
    fold_left
      (fun tagsSet site =>
         match Site.tags site with
         | Some siteTags => fold_left addTag siteTags tagsSet
         | None => tagsSet
         end)
      (getSites state) [] in
  sort tagsSet.

(** [checkInCredential(siteId, credentialId)] of the manager: the cached
    document is read again from the store when the store reports
    success. The clock reads of the call are taken at one instant; the
    events the manager emits are left out. *)
Definition checkInCredential (now : Z) (device siteId credentialId : string)
           (manager : option State.t * Storage.Store)
  : bool * (option State.t * Storage.Store) :=
  let '(cache, st) := manager in
  let '(success, st') :=
    Storage.checkInCredential now now now device siteId credentialId st in
  if success then (true, (Storage.getState st', st')) else (false, (cache, st')).

(** [markAllDone()]: the loops run over the sites cached when the call
    starts. *)
Definition markAllDone (now : Z) (device : string)
           (manager : option State.t * Storage.Store)
  : option State.t * Storage.Store :=
  fold_left
    (fun manager site =>
       fold_left
         (fun manager credential =>
            if negb (checkedToday now credential)
            then snd (checkInCredential now device (Site.id site)
                                        (Credential.id credential) manager)
            else manager)
         (Site.credentials site) manager)
    (getSites (fst manager)) manager.

End StateManager.

(** ** Sites service (src/features/sites/sites.service.js): site status *)

Module SitesService.

Definition isToday (now : Z) (dateString : Z) : bool :=
  Clock.isoDate now =? Clock.isoDate dateString.

Definition checkedToday (now : Z) (cred : Credential.t) : bool :=
  match Credential.checkedInOn cred with
  | Some checkedInOn => isToday now checkedInOn
  | None => false
  end.

(** [isSiteCompleteToday(site)] *)
Definition isSiteCompleteToday (now : Z) (site : Site.t) : bool :=
  match Site.credentials site with
  | [] => false
  | credentials => forallb (checkedToday now) credentials
  end.

(** [getSiteStatus(site)] *)
Definition getSiteStatus (now : Z) (site : Site.t) : string :=
  match Site.credentials site with
  | [] => "empty"
  | credentials =>
      let checkedCount := List.length (filter (checkedToday now) credentials) in
      if (checkedCount =? 0)%nat then "pending"
      else if (checkedCount =? List.length credentials)%nat then "done"
      else "partial"
  end.


(** [getCompletedSites()] on the sites of the manager *)
Definition getCompletedSites (now : Z) (sites : list Site.t) : list Site.t :=
  filter (isSiteCompleteToday now) sites.

(** [duplicateSite(id)]: [newId] and [credentialIds i] are the generated
    identifiers of the copy and of its credential of index [i],
    [tCreated] and [tUpdated] the clock reads of the copy; the identifier
    and the clock reads of [addSite] are [addId], [tAdd1] and [tAdd2].
    The operation is given on the store the manager writes to. *)
Definition duplicateSite (newId : string) (credentialIds : nat -> string)
           (tCreated tUpdated : Z) (addId : string) (tAdd1 tAdd2 : Z)
           (id : string) (st : Storage.Store) : option Site.t * Storage.Store :=
  match Storage.getSite id st with
  | None => (None, st)
  | Some original =>
      let duplicate :=
        SiteData.mk
          (Some newId)
          (Site.name original ++ " (Copy)")%string
          (Site.url original)
          (Site.favicon original)
          (Site.category original)
          (Site.tags original)
          (Site.priority original)
          (Site.color original)
          (Site.notes original)
          (map (fun ic : nat * Credential.t =>
                  let '(index, cred) := ic in
                  Credential.mk (credentialIds index)
                                (Credential.label cred) (Credential.email cred)
                                (Credential.password cred) (Credential.notes cred)
                                None (Some [])
                                (Credential.strength cred) (Credential.breached cred))
               (combine (seq 0 (List.length (Site.credentials original)))
                        (Site.credentials original)))
          (Some tCreated)
          (Some tUpdated) in
      Storage.addSite addId tAdd1 tAdd2 duplicate st
  end.

End SitesService.

(** ** Migration service (src/core/migrations.js) *)

Module Notifications.
Record t := mk { enabled : bool; reminderTime : string; staleDays : Z }.
End Notifications.

Module Security.
Record t := mk {
  masterPasswordEnabled : bool;
  autoLockMinutes : Z;
  clipboardClearSeconds : Z;
  requireAuthOnStart : bool
}.
End Security.

Module Display.
Record t := mk {
  density : string;
  cardsPerRow : string;
  showFavicons : bool;
  showLastCheckin : bool
}.
End Display.

Module Metadata.
Record t := mk {
  loginFrequency : string;
  importance : string;
  lastIssue : option string;
  averageCheckInTime : string
}.
End Metadata.

(** The documents the migrations receive are read from storage as they
    are: a property may be missing. In the records below [None] is a
    property that is missing or null, and [others] holds the properties
    the migrations do not read, by name and JSON text. *)

Module RawSettings.
Record t := mk {
  theme : option string;
  viewMode : option string;
  autoReset : option bool;
  resetTime : option string;
  notifications : option Notifications.t;
  security : option Security.t;
  display : option Display.t
}.
End RawSettings.

Module RawCredential.
Record t := mk {
  customFields : option (list (string * string));
  checkInHistory : option (list HistoryEntry.t);
  lastPasswordChange : option Z;
  passwordExpiry : option Z;
  strength : option string;
  breached : option bool;
  others : list (string * string)
}.
End RawCredential.

Module RawSite.
Record t := mk {
  url : option string;
  favicon : option string;
  priority : option Z;
  color : option string;
  metadata : option Metadata.t;
  credentials : option (list RawCredential.t);
  createdAt : option Z;
  others : list (string * string)
}.
End RawSite.

Module RawDoc.
Record t := mk {
  version : option string;
  lastReset : option Z;
  settings : option RawSettings.t;
  categories : option (list Category.t);
  sites : option (list RawSite.t);
  analytics : option Analytics.t;
  others : list (string * string)
}.

Definition set_version (v : option string) (d : t) : t :=
  mk v (lastReset d) (settings d) (categories d) (sites d) (analytics d) (others d).
End RawDoc.

(** [a || b] on strings: the empty string is falsy *)
Definition orString (a : option string) (b : string) : string :=
  match a with
  | Some EmptyString => b
  | Some s => s
  | None => b
  end.

(** [s.split(sep)] for a separator of one character *)
Fixpoint split (sep : ascii) (s : string) : list string :=
  match s with
  | EmptyString => [EmptyString]
  | String c rest =>
      if Ascii.eqb c sep then EmptyString :: split sep rest
      else
        match split sep rest with
        | head :: tail => String c head :: tail
        | [] => [String c EmptyString]
        end
  end.

(** [Number(part) || 0] on a component made of decimal digits: the number
    the digits denote. It is the reading used in the examples, where every
    component is made of digits; on the other strings that [Number] reads
    (a sign, an exponent, a hexadecimal or a blank-padded numeral) it gives
    0, which [Number] does not. The theorems about versions take the
    reading as a parameter and hold for every reading. *)
Definition digitValue (c : ascii) : option Z :=
  let n := nat_of_ascii c in
  if ((48 <=? n) && (n <=? 57))%nat then Some (Z.of_nat (n - 48)) else None.

Fixpoint decimalFrom (acc : Z) (s : string) : option Z :=
  match s with
  | EmptyString => Some acc
  | String c rest =>
      match digitValue c with
      | Some d => decimalFrom (acc * 10 + d) rest
      | None => None
      end
  end.

Definition decimalOr0 (s : string) : Z := orElse (decimalFrom 0 s) 0.

(** The documents that validation and repair receive are not trusted to be
    well formed. A property that should hold an array is missing (or holds
    any falsy value), holds an array, or holds some other value; an element
    of an array of objects may be null ([None]); a text property is missing
    or empty, both falsy, or present. *)
Inductive ArrayField (A : Type) : Type :=
| Missing
| NotArray
| IsArray (items : list A).

Arguments Missing {A}.
Arguments NotArray {A}.
Arguments IsArray {A} items.

(** a text property that is neither missing nor empty *)
Definition present (text : option string) : bool :=
  match text with
  | Some (String _ _) => true
  | _ => false
  end.

Module LooseCredential.
Record t := mk {
  id : option string;
  email : option string;
  others : list (string * string)
}.
End LooseCredential.

Module LooseSite.
Record t := mk {
  id : option string;
  name : option string;
  url : option string;
  credentials : ArrayField (option LooseCredential.t);
  others : list (string * string)
}.

Definition set_credentials (v : ArrayField (option LooseCredential.t)) (s : t) : t :=
  mk (id s) (name s) (url s) v (others s).
End LooseSite.

Module LooseDoc.
Record t := mk {
  version : option string;
  sites : ArrayField (option LooseSite.t);
  categories : ArrayField Category.t;
  settings : option RawSettings.t;
  analytics : option Analytics.t;
  others : list (string * string)
}.
End LooseDoc.

Module Backup.
Record t := mk {
  data : RawDoc.t;
  timestamp : Z;
  version : string
}.
End Backup.

(** What localStorage holds under 'accc-backups': nothing, a text that
    [JSON.parse] rejects, or the JSON of a list of backups. *)
Inductive BackupItem : Type :=
| Absent
| Corrupt
| Stored (backups : list Backup.t).

Module Migration.

Section Service.

(** [numberOr0 part] is [Number(part) || 0], read on the integers: the
    number the component denotes, [0] when it denotes none (NaN). *)
Variable numberOr0 : string -> Z.

(** [new URL(url).origin], [None] when the constructor throws *)
Variable urlOrigin : string -> option string.

Definition currentVersion : string := CONFIG.app_version.

(** The loop of [compareVersions] from index [i] on, with [fuel]
    iterations left. [parts[i] || 0] is [nth i parts 0]. *)
Fixpoint compareFrom (fuel i : nat) (parts1 parts2 : list Z) : Z :=
  match fuel with
  | O => 0
  | S fuel' =>
      let part1 := nth i parts1 0 in
      let part2 := nth i parts2 0 in
      if part1 <? part2 then -1
      else if part1 >? part2 then 1
      else compareFrom fuel' (S i) parts1 parts2
  end.

(** [compareVersions(v1, v2)] *)
Definition compareVersions (v1 v2 : string) : Z :=
  let parts1 := map numberOr0 (split "." v1) in
  let parts2 := map numberOr0 (split "." v2) in
  compareFrom (Nat.max (List.length parts1) (List.length parts2)) 0 parts1 parts2.

(** [needsMigration(data)] *)
Definition needsMigration (data : option RawDoc.t) : bool :=
  match data with
  | None => true
  | Some data =>
      match RawDoc.version data with
      | None | Some EmptyString => true
      | Some version => compareVersions version currentVersion <? 0
      end
  end.

(** [migrateTo1_0_0(data)]; [now] is its clock read. *)
Definition migrateTo1_0_0 (now : Z) (data : RawDoc.t) : RawDoc.t :=
  RawDoc.mk
    (Some "1.0.0")
    (Some (Clock.isoDate now))
    (Some (orElse (RawDoc.settings data)
                  (RawSettings.mk None None None None None None None)))
    (Some (orElse (RawDoc.categories data) []))
    (Some (orElse (RawDoc.sites data) []))
    (Some (Analytics.mk 0 0 0 0
             (Z.of_nat (List.length (orElse (RawDoc.sites data) [])))
             0 None))
    [].

(** [getFaviconFromUrl(url)] *)
Definition getFaviconFromUrl (url : option string) : option string :=
  match url with
  | None => None
  | Some url =>
      match urlOrigin url with
      | Some domain => Some (domain ++ "/favicon.ico")%string
      | None => None
      end
  end.

Definition truthyString (a : option string) : option string :=
  match a with
  | Some EmptyString => None
  | other => other
  end.

(** [migrateTo2_0_0(data)] *)
Definition migrateTo2_0_0 (data : RawDoc.t) : RawDoc.t :=
  let settings0 :=
    orElse (RawDoc.settings data)
           (RawSettings.mk None None None None None None None) in
  let settings :=
    RawSettings.mk
      (Some (orString (RawSettings.theme settings0) "auto"))
      (Some (orString (RawSettings.viewMode settings0) "grid"))
      (Some (match RawSettings.autoReset settings0 with
             | Some false => false
             | _ => true
             end))
      (Some (orString (RawSettings.resetTime settings0) "00:00"))
      (Some (orElse (RawSettings.notifications settings0)
                    (Notifications.mk true "09:00" 7)))
      (Some (orElse (RawSettings.security settings0)
                    (Security.mk false 15 30 false)))
      (Some (orElse (RawSettings.display settings0)
                    (Display.mk "comfortable" "auto" true true))) in
  let sites :=
    match RawDoc.sites data with
    | None => None
    | Some sites =>
        Some
          (map
             (fun site =>
                RawSite.mk
                  (RawSite.url site)
                  (match truthyString (RawSite.favicon site) with
                   | Some favicon => Some favicon
                   | None => getFaviconFromUrl (RawSite.url site)
                   end)
                  (Some (orElse (RawSite.priority site) 0))
                  (Some (orString (RawSite.color site) "#3b82f6"))
                  (Some (orElse (RawSite.metadata site)
                                (Metadata.mk "daily" "normal" None "09:00")))
                  (Some
                     (map
                        (fun cred =>
                           RawCredential.mk
                             (Some (orElse (RawCredential.customFields cred) []))
                             (Some (orElse (RawCredential.checkInHistory cred) []))
                             (match RawCredential.lastPasswordChange cred with
                              | Some t => Some t
                              | None => RawSite.createdAt site
                              end)
                             (RawCredential.passwordExpiry cred)
                             (Some (orString (RawCredential.strength cred) "unknown"))
                             (Some (orElse (RawCredential.breached cred) false))
                             (RawCredential.others cred))
                        (orElse (RawSite.credentials site) [])))
                  (RawSite.createdAt site)
                  (RawSite.others site))
             sites)
    end in
  let analytics :=
    match RawDoc.analytics data with
    | Some analytics => analytics
    | None =>
        Analytics.mk 0 0 0 0
          (Z.of_nat (List.length (orElse sites [])))
          0 None
    end in
  RawDoc.mk (RawDoc.version data) (RawDoc.lastReset data)
            (Some settings) (RawDoc.categories data) sites (Some analytics)
            (RawDoc.others data).

(** [this.migrations]; [now] is the clock read of the first step. *)
Definition migrations (now : Z) : list (string * (RawDoc.t -> RawDoc.t)) :=
  [ ("1.0.0", migrateTo1_0_0 now); ("2.0.0", migrateTo2_0_0) ].

(** [migrate(data)] *)
Definition migrate (now : Z) (data : option RawDoc.t) : option RawDoc.t :=
  match data with
  | None => None
  | Some data =>
      let dataVersion := orString (RawDoc.version data) "0.0.0" in
      Some
        (fold_left
           (fun migratedData migration =>
              if compareVersions dataVersion (fst migration) <? 0
              then RawDoc.set_version (Some (fst migration))
                                      (snd migration migratedData)
              else migratedData)
           (migrations now)
           data)
  end.

End Service.


(** *** Backups *)

(** [JSON.parse(localStorage.getItem('accc-backups') || '[]')], [None]
    when it throws *)
Definition parseBackups (item : BackupItem) : option (list Backup.t) :=
  match item with
  | Absent => Some []
  | Corrupt => None
  | Stored backups => Some backups
  end.

(** [createBackup(data)]; a failing write is not modelled. *)
Definition createBackup (now : Z) (data : RawDoc.t) (item : BackupItem)
  : bool * BackupItem :=
  let backup := Backup.mk data now (orString (RawDoc.version data) "unknown") in
  match parseBackups item with
  | None => (false, item)
  | Some backups =>
      let backups := backup :: backups in
      let backups :=
        if (5 <? List.length backups)%nat then firstn 5 backups else backups in
      (true, Stored backups)
  end.

(** [restoreBackup(index)] *)
Definition restoreBackup (index : nat) (item : BackupItem) : option RawDoc.t :=
  match parseBackups item with
  | None => None
  | Some backups =>
      match nth_error backups index with
      | Some backup => Some (Backup.data backup)
      | None => None
      end
  end.

(** [getBackups()] *)
Definition getBackups (item : BackupItem) : list Backup.t :=
  match parseBackups item with
  | Some backups => backups
  | None => []
  end.

(** *** Validation and repair *)

Module Validation.
Record t := mk { valid : bool; errors : list string }.
End Validation.

(** the decimal text of an index in a template literal *)
Definition indexText (index : nat) : string :=
  NilEmpty.string_of_uint (Nat.to_uint index).

(** the errors that the callback of [validateData] pushes for one site *)
Definition siteErrors (index : nat) (site : LooseSite.t) : list string :=
  (if present (LooseSite.id site) then []
   else [("Site " ++ indexText index ++ " missing ID")%string])
  ++ (if present (LooseSite.name site) then []
      else [("Site " ++ indexText index ++ " missing name")%string])
  ++ (if present (LooseSite.url site) then []
      else [("Site " ++ indexText index ++ " missing URL")%string])
  ++ (match LooseSite.credentials site with
      | IsArray _ => []
      | _ => [("Site " ++ indexText index ++ " credentials must be an array")%string]
      end).

(** the [forEach] over the sites from [index] on; [None] when the
    callback throws, which it does on a null element *)
Fixpoint sitesErrors (index : nat) (sites : list (option LooseSite.t))
  : option (list string) :=
  match sites with
  | [] => Some []
  | None :: _ => None
  | Some site :: rest =>
      match sitesErrors (S index) rest with
      | Some errors => Some (siteErrors index site ++ errors)
      | None => None
      end
  end.

(** [validateData(data)]; it throws a TypeError where it calls [forEach]
    on a value that is no array and where it reads a null site. *)
Definition validateData (data : option LooseDoc.t) : Completion Validation.t :=
  match data with
  | None => Return (Validation.mk false ["Data is null or undefined"])
  | Some data =>
      let errors :=
        (match LooseDoc.sites data with
         | IsArray _ => []
         | _ => ["Sites must be an array"]
         end)
        ++ (match LooseDoc.categories data with
            | IsArray _ => []
            | _ => ["Categories must be an array"]
            end) in
      match LooseDoc.sites data with
      | Missing => Return (Validation.mk (Nat.eqb (List.length errors) 0) errors)
      | NotArray => Throw "TypeError"
      | IsArray sites =>
          match sitesErrors 0 sites with
          | None => Throw "TypeError"
          | Some more =>
              let errors := errors ++ more in
              Return (Validation.mk (Nat.eqb (List.length errors) 0) errors)
          end
      end
  end.






(** *** What a migration keeps *)

(** [kept] has every property that [cred] has, with its value: the
    properties the steps do not name ([id], [email], [password] and the
    like, in [others]) and those they name, where [cred] has a truthy
    value for them. *)
Definition keepsCredential (cred kept : RawCredential.t) : Prop :=
  RawCredential.others kept = RawCredential.others cred /\
  RawCredential.passwordExpiry kept = RawCredential.passwordExpiry cred /\
  (forall fields, RawCredential.customFields cred = Some fields ->
                  RawCredential.customFields kept = Some fields) /\
  (forall history, RawCredential.checkInHistory cred = Some history ->
                   RawCredential.checkInHistory kept = Some history) /\
  (forall changed, RawCredential.lastPasswordChange cred = Some changed ->
                   RawCredential.lastPasswordChange kept = Some changed) /\
  (forall strength, RawCredential.strength cred = Some strength -> strength <> "" ->
                    RawCredential.strength kept = Some strength) /\
  (forall breached, RawCredential.breached cred = Some breached ->
                    RawCredential.breached kept = Some breached).

(** [kept] has every property that [site] has, with its value, and its
    credentials are those of [site], one for one and in order. *)
Definition keepsSite (site kept : RawSite.t) : Prop :=
  RawSite.others kept = RawSite.others site /\
  RawSite.url kept = RawSite.url site /\
  RawSite.createdAt kept = RawSite.createdAt site /\
  (forall favicon, RawSite.favicon site = Some favicon -> favicon <> "" ->
                   RawSite.favicon kept = Some favicon) /\
  (forall priority, RawSite.priority site = Some priority ->
                    RawSite.priority kept = Some priority) /\
  (forall color, RawSite.color site = Some color -> color <> "" ->
                 RawSite.color kept = Some color) /\
  (forall metadata, RawSite.metadata site = Some metadata ->
                    RawSite.metadata kept = Some metadata) /\
  Forall2 keepsCredential
          (orElse (RawSite.credentials site) [])
          (orElse (RawSite.credentials kept) []).

End Migration.

(** ** A platform to run the crypto service on

    The cipher of this platform reverses the bytes and its text encoding of
    bytes maps a code unit to the character of that code; it serves to
    evaluate the service and obeys the laws of [Crypto.WebCryptoLaws]. *)

Module ExamplePlatform.

Definition webCrypto : Crypto.WebCrypto :=
  {| Crypto.CryptoKey := (list byte * list byte * Z)%type;
     Crypto.TextEncoder_encode := list_byte_of_string;
     Crypto.TextDecoder_decode := string_of_list_byte;
     Crypto.subtle_deriveKey := fun passwordBuffer salt iterations =>
                                  (passwordBuffer, salt, iterations);
     Crypto.subtle_encrypt := fun _ _ data => rev data;
     Crypto.subtle_decrypt := fun _ _ data => Some (rev data);
     Crypto.btoa := fun binary =>
                      if forallb (fun c => (c <? 256)%N) binary
                      then Some (string_of_list_ascii (map ascii_of_N binary))
                      else None;
     Crypto.atob := fun base64 =>
                      Some (map N_of_ascii (list_ascii_of_string base64)) |}.

(** texts as their own JSON *)
Definition jsonString : Crypto.JSON string :=
  {| Crypto.JSON_stringify := fun s => s;
     Crypto.JSON_parse := fun s => Some s |}.

(** a serializer of export objects that keeps the version text only *)
Definition jsonExport : Crypto.JSON Storage.ExportDoc :=
  {| Crypto.JSON_stringify := fun d => State.version (Storage.exportState d);
     Crypto.JSON_parse := fun _ => None |}.


(** field payloads as their value *)
Definition jsonField : Crypto.JSON Crypto.FieldPayload.t :=
  {| Crypto.JSON_stringify := Crypto.FieldPayload.value;
     Crypto.JSON_parse := fun s => Some (Crypto.FieldPayload.mk s) |}.

(** A platform whose cipher appends the key to the reversed bytes and
    whose decryption rejects a text that does not end with the key. *)
Definition endsWith (key text : list byte) : bool :=
  if list_eq_dec Byte.byte_eq_dec
       (skipn (List.length text - List.length key) text) key
  then (List.length key <=? List.length text)%nat
  else false.

Definition taggedCrypto : Crypto.WebCrypto :=
  {| Crypto.CryptoKey := list byte;
     Crypto.TextEncoder_encode := list_byte_of_string;
     Crypto.TextDecoder_decode := string_of_list_byte;
     Crypto.subtle_deriveKey := fun passwordBuffer salt _ => passwordBuffer ++ salt;
     Crypto.subtle_encrypt := fun _ key data => rev data ++ key;
     Crypto.subtle_decrypt := fun _ key text =>
                                if endsWith key text
                                then Some (rev (firstn (List.length text - List.length key)
                                                       text))
                                else None;
     Crypto.btoa := fun binary =>
                      if forallb (fun c => (c <? 256)%N) binary
                      then Some (string_of_list_ascii (map ascii_of_N binary))
                      else None;
     Crypto.atob := fun base64 =>
                      Some (map N_of_ascii (list_ascii_of_string base64)) |}.

End ExamplePlatform.

(** ** Documents of the scenarios *)

Module Scenario.

Definition credential (id : string) (checkedInOn : option Z) : Credential.t :=
  Credential.mk id "main" "user@example.com" "secret" "" checkedInOn (Some []) "unknown" false.

Definition site (id : string) (credentials : list Credential.t) : Site.t :=
  Site.mk id "Example" "https://example.com" "" None (Some []) 0 "#3b82f6" ""
          credentials 0 0.

Definition document (lastReset : Z) (sites : list Site.t) (analytics : Analytics.t)
  : State.t :=
  State.mk "2.1.0" lastReset (Settings.mk "auto" "grid" true "00:00") [] sites analytics.

(** analytics = {currentStreak: 3, longestStreak: 5,
    lastCheckIn: "2025-06-01T09:00:00Z"} *)
Definition streakDocument : State.t :=
  document (Clock.daysFromCivil 2025 6 1)
           [site "s1" [credential "c1" None]]
           (Analytics.mk 12 3 5 0 1 0 (Some (Clock.utc 2025 6 1 9 0 0))).

(** A day of use: a site is added, its credential is checked in twice (the
    second call straddles midnight), reset and checked in again. *)
Definition dayOfUse : list Storage.Operation :=
  [ Storage.AddSite "s1" 10 10
      (SiteData.mk None "Example" "https://example.com" "" None (Some []) 0 "" ""
                   [credential "c1" None] None None);
    Storage.CheckIn 20 20 20 "laptop" "s1" "c1";
    Storage.CheckIn 86399999 86400000 86400000 "laptop" "s1" "c1";
    Storage.ResetAll 86400001;
    Storage.CheckIn 86400002 86400002 86400002 "laptop" "s1" "c1" ].

(** 150 check-ins, one per minute, of a credential that has no history *)
Definition minuteReads (n : nat) : list (Z * Z * Z * string) :=
  map (fun i => let t := Z.of_nat i * 60000 in (t, t, t, "laptop")) (seq 1 n).

(** A site with two credentials, the first checked in today at 08:00 and
    the second never. *)
Definition partialSite (now : Z) : Site.t :=
  site "s1"
    [ credential "c1" (Some (now - 3600000));
      credential "c2" None ].

(** A document saved before versions were written, with one site. *)
Definition legacyDocument : RawDoc.t :=
  RawDoc.mk None None None None
    (Some [RawSite.mk (Some "https://example.com") None None None None
                      (Some [RawCredential.mk None None None None None None
                                              [("email", "user@example.com")]])
                      (Some 1000) [("name", "Example")]])
    None [("theme", "dark")].

Definition originOf (url : string) : option string :=
  if String.prefix "https://" url then Some url else None.

End Scenario.

(** ** Documents as the store holds them *)

(** The storage service checks nothing of what it stores: [addSite],
    [updateSite] and [importData] write the sites they are given, and
    [getState] returns whatever parses. Module [Storage] gives the
    operations on the documents of the data model. Here a document is what
    may be found under the storage key: the list of sites, the credentials
    of a site and the analytics may be missing or hold a value of another
    kind, an element of a list may be null, and an identifier may be
    missing or no string. On such a document a property read from
    [undefined] or [null] and a call of [find] on a value without it throw
    a TypeError. *)

Module StoredCredential.

Record t := mk {
  (** [None]: no [id], or one that is no string *)
  id : option string;
  label : string;
  email : string;
  password : string;
  notes : string;
  checkedInOn : option Z;
  checkInHistory : option (list HistoryEntry.t);
  strength : string;
  breached : bool
}.

Definition set_checkedInOn (v : option Z) (c : t) : t :=
  mk (id c) (label c) (email c) (password c) (notes c) v
     (checkInHistory c) (strength c) (breached c).

Definition set_checkInHistory (v : option (list HistoryEntry.t)) (c : t) : t :=
  mk (id c) (label c) (email c) (password c) (notes c) (checkedInOn c)
     v (strength c) (breached c).

End StoredCredential.

Module StoredSite.

Record t := mk {
  (** [None]: no [id], or one that is no string *)
  id : option string;
  name : string;
  url : string;
  favicon : string;
  category : option string;
  tags : option (list string);
  priority : Z;
  color : string;
  notes : string;
  (** an element [None] is null *)
  credentials : ArrayField (option StoredCredential.t);
  createdAt : Z;
  updatedAt : Z
}.

Definition set_credentials (v : ArrayField (option StoredCredential.t)) (s : t) : t :=
  mk (id s) (name s) (url s) (favicon s) (category s) (tags s)
     (priority s) (color s) (notes s) v (createdAt s) (updatedAt s).

End StoredSite.

Module StoredDoc.

Record t := mk {
  version : string;
  lastReset : Z;
  settings : Settings.t;
  categories : list Category.t;
  (** an element [None] is null *)
  sites : ArrayField (option StoredSite.t);
  (** [None]: no [analytics] *)
  analytics : option Analytics.t
}.

Definition set_sites (v : ArrayField (option StoredSite.t)) (s : t) : t :=
  mk (version s) (lastReset s) (settings s) (categories s) v (analytics s).

Definition set_analytics (v : option Analytics.t) (s : t) : t :=
  mk (version s) (lastReset s) (settings s) (categories s) (sites s) v.

End StoredDoc.

Module Stored.

(** What [getState()] returns: [None] when nothing is stored, when the
    text does not parse or when it parses to a falsy value. *)
Definition Store := option StoredDoc.t.

(** [elements.find(x => x.id === id)]: the callback reads [id] of every
    element up to the first match, and throws on a null element. *)
Fixpoint find {A : Type} (hasId : A -> bool) (elements : list (option A))
  : Completion (option A) :=
  match elements with
  | [] => Return None
  | None :: _ => Throw "TypeError"
  | Some x :: rest => if hasId x then Return (Some x) else find hasId rest
  end.

(** The array after the object that [find] returned has been mutated. *)
Fixpoint modifyFirst {A : Type} (hasId : A -> bool) (f : A -> A)
         (elements : list (option A)) : list (option A) :=
  match elements with
  | [] => []
  | None :: rest => None :: rest
  | Some x :: rest =>
      if hasId x then Some (f x) :: rest else Some x :: modifyFirst hasId f rest
  end.

Definition hasSiteId (siteId : string) (s : StoredSite.t) : bool :=
  match StoredSite.id s with
  | Some id => String.eqb id siteId
  | None => false
  end.

Definition hasCredentialId (credentialId : string) (c : StoredCredential.t) : bool :=
  match StoredCredential.id c with
  | Some id => String.eqb id credentialId
  | None => false
  end.

(** [updateStreak(state)] on the analytics object *)
Definition updateStreak (tToday tNow : Z) (a : Analytics.t) : Analytics.t :=
  let today := Clock.isoDate tToday in
  match Analytics.lastCheckIn a with
  | None => Analytics.set_currentStreak 1 a
  | Some lastCheckIn =>
      let lastDate := Clock.isoDate lastCheckIn in
      let yesterday := Clock.isoDate (tNow - 86400000) in
      let a1 :=
        if lastDate =? yesterday
        then Analytics.set_currentStreak (Analytics.currentStreak a + 1) a
        else if negb (lastDate =? today)
             then Analytics.set_currentStreak 1 a
             else a in
      if Analytics.currentStreak a1 >? Analytics.longestStreak a1
      then Analytics.set_longestStreak (Analytics.currentStreak a1) a1
      else a1
  end.

(** What a check-in does to the credential object. *)
Definition checkInMutation (now : Z) (device : string) (credential : StoredCredential.t)
  : StoredCredential.t :=
  let c1 := StoredCredential.set_checkedInOn (Some now) credential in
  if CONFIG.features_checkInHistory
  then StoredCredential.set_checkInHistory
         (Some (Storage.pushHistory CONFIG.limits_maxHistoryEntries
                                    (HistoryEntry.mk now device)
                                    (StoredCredential.checkInHistory c1))) c1
  else c1.

(** The site after the credential that [find] returned has been mutated. *)
Definition mutateCredential (credentialId : string)
           (f : StoredCredential.t -> StoredCredential.t) (site : StoredSite.t)
  : StoredSite.t :=
  match StoredSite.credentials site with
  | IsArray credentials =>
      StoredSite.set_credentials
        (IsArray (modifyFirst (hasCredentialId credentialId) f credentials)) site
  | Missing | NotArray => site
  end.

(** [checkInCredential(siteId, credentialId)] on a stored document, with
    the clock reads of [Storage.checkInCredential]. [Throw] is an
    exception that leaves the function before [setState]: the store is
    as it was. *)
Definition checkInCredential (now tToday tNow : Z) (device : string)
           (siteId credentialId : string) (st : Store) : Completion (bool * Store) :=
  match st with
  | None => Return (false, st)
  | Some state =>
      match StoredDoc.sites state with
      | IsArray sites =>
          match find (hasSiteId siteId) sites with
          | Throw message => Throw message
          | Return None => Return (false, st)
          | Return (Some site) =>
              match StoredSite.credentials site with
              | IsArray credentials =>
                  match find (hasCredentialId credentialId) credentials with
                  | Throw message => Throw message
                  | Return None => Return (false, st)
                  | Return (Some _) =>
                      let sites' :=
                        modifyFirst (hasSiteId siteId)
                          (mutateCredential credentialId (checkInMutation now device))
                          sites in
                      match StoredDoc.analytics state with
                      | None => Throw "TypeError"
                      | Some a =>
                          let a1 :=
                            Analytics.set_totalCheckIns
                              (Analytics.totalCheckIns a + 1) a in
                          let a2 := Analytics.set_lastCheckIn (Some now) a1 in
                          let a3 := updateStreak tToday tNow a2 in
                          Return
                            (true,
                             Some (StoredDoc.set_analytics (Some a3)
                                     (StoredDoc.set_sites (IsArray sites') state)))
                      end
                  end
              | Missing | NotArray => Throw "TypeError"
              end
          end
      | Missing | NotArray => Throw "TypeError"
      end
  end.

(** A document of the data model as a stored document. *)
Definition ofCredential (c : Credential.t) : StoredCredential.t :=
  StoredCredential.mk (Some (Credential.id c)) (Credential.label c)
                      (Credential.email c) (Credential.password c)
                      (Credential.notes c) (Credential.checkedInOn c)
                      (Credential.checkInHistory c) (Credential.strength c)
                      (Credential.breached c).

Definition ofSite (s : Site.t) : StoredSite.t :=
  StoredSite.mk (Some (Site.id s)) (Site.name s) (Site.url s) (Site.favicon s)
                (Site.category s) (Site.tags s) (Site.priority s) (Site.color s)
                (Site.notes s)
                (IsArray (map (fun c => Some (ofCredential c)) (Site.credentials s)))
                (Site.createdAt s) (Site.updatedAt s).

Definition ofState (state : State.t) : StoredDoc.t :=
  StoredDoc.mk (State.version state) (State.lastReset state) (State.settings state)
               (State.categories state)
               (IsArray (map (fun s => Some (ofSite s)) (State.sites state)))
               (Some (State.analytics state)).

End Stored.

(** ** Further sample data *)

Module Sample.

(** a site without a name beside a complete one whose second credential
    has no e-mail *)
Definition damagedDocument : LooseDoc.t :=
  LooseDoc.mk None
    (IsArray
       [ Some (LooseSite.mk (Some "s1") None (Some "https://a.example") Missing []);
         None;
         Some (LooseSite.mk (Some "s2") (Some "Bank") (Some "https://b.example")
                 (IsArray [ Some (LooseCredential.mk (Some "c1") (Some "me@b.example") []);
                            Some (LooseCredential.mk (Some "c2") None []) ])
                 []) ])
    Missing None None [].

(** A site in which two credentials carry the identifier "c1". *)
Definition sharedIdDocument : State.t :=
  Scenario.document 0
    [Scenario.site "s1"
       [ Scenario.credential "c1" None;
         Scenario.credential "c2" None;
         Scenario.credential "c1" (Some 5) ]]
    (Analytics.mk 0 0 0 0 1 0 None).

(** Three sites: two with tags, one of them in part checked in at
    08:00 of day 0, and one without a list of tags. *)
Definition taggedDocument : State.t :=
  Scenario.document 0
    [ Site.mk "s1" "Mail" "https://mail.example.com" "" (Some "work")
              (Some ["work"; "mail"]) 0 "#3b82f6" ""
              [ Scenario.credential "c1" (Some 28800000);
                Scenario.credential "c2" None ] 0 0;
      Site.mk "s2" "Bank" "https://bank.example.com" "" None
              (Some ["mail"; "bank"]) 0 "#3b82f6" "" [] 0 0;
      Site.mk "s3" "Forum" "https://forum.example.com" "" None
              None 0 "#3b82f6" "" [Scenario.credential "c1" None] 0 0 ]
    (Analytics.mk 1 1 1 0 3 0 (Some 28800000)).

(** 101 history entries, one per minute, most recent first *)
Definition longHistory : list HistoryEntry.t :=
  rev (map (fun i => HistoryEntry.mk (Z.of_nat i * 60000) "laptop") (seq 0 101)).

(** A site handed to [addSite] with a credential that carries them. *)
Definition siteWithLongHistory : SiteData.t :=
  SiteData.mk None "Example" "https://example.com" "" None (Some []) 0 "" ""
              [Credential.mk "c1" "main" "user@example.com" "secret" "" None
                             (Some longHistory) "unknown" false]
              None None.

(** A stored document whose site has no list of credentials, as
    [addSite] stores one from site data without [credentials]. *)
Definition siteWithoutCredentials : StoredDoc.t :=
  StoredDoc.mk "2.1.0" 0 (Settings.mk "auto" "grid" true "00:00") []
    (IsArray
       [Some (StoredSite.mk (Some "s1") "Example" "https://example.com" "" None
                            (Some []) 0 "" "" Missing 10 10)])
    (Some (Analytics.mk 0 0 0 0 1 0 None)).

(** The tags U+FF5E (bytes EF BD 9E) and U+1F4B0 (bytes F0 9F 92 B0, code
    units D83D DCB0), on one site. *)
Definition wideTag : string := string_of_list_byte [xef; xbd; x9e].
Definition astralTag : string := string_of_list_byte [xf0; x9f; x92; xb0].

Definition unicodeTagsDocument : State.t :=
  Scenario.document 0
    [ Site.mk "s1" "Mail" "https://mail.example.com" "" None
              (Some [wideTag; "work"; astralTag]) 0 "#3b82f6" "" [] 0 0 ]
    (Analytics.mk 0 0 0 0 1 0 None).

End Sample.

(** ** Credentials service (src/features/credentials/credentials.service.js) *)

(** The service calls the state manager, which hands the reads and the
    writes to the storage service; the operations are given on the store,
    without the cache and the events of the manager. *)

Module CredentialsService.

(** [getCredential(siteId, credentialId)] *)
Definition getCredential (siteId credentialId : string) (st : Storage.Store)
  : option Credential.t :=
  match Storage.getSite siteId st with
  | None => None
  | Some site => find (Storage.hasCredentialId credentialId) (Site.credentials site)
  end.

(** [deleteCredential(siteId, credentialId)]; [now] is the clock read of
    [updateSite]. *)
Definition deleteCredential (now : Z) (siteId credentialId : string)
           (st : Storage.Store) : bool * Storage.Store :=
  match Storage.getSite siteId st with
  | None => (false, st)
  | Some site =>
      let updatedCredentials :=
        filter (fun c => negb (String.eqb (Credential.id c) credentialId))
               (Site.credentials site) in
      Storage.updateSite now siteId
        (SiteUpdates.mk None None None None None None None None None
                        (Some updatedCredentials) None)
        st
  end.

(** [isToday(dateString)] *)
Definition isToday (now : Z) (dateString : Z) : bool :=
  Clock.isoDate now =? Clock.isoDate dateString.

(** [getDaysAgo(dateString)] *)
Definition getDaysAgo (now : Z) (dateString : Z) : Z :=
  let diff := now - dateString in
  diff / (1000 * 60 * 60 * 24).

(** [toggleCheckIn(siteId, credentialId)]; [tIs] is the clock read of
    [isToday], the others are those of the check-in. *)
Definition toggleCheckIn (tIs now tToday tNow : Z) (device : string)
           (siteId credentialId : string) (st : Storage.Store)
  : bool * Storage.Store :=
  match getCredential siteId credentialId st with
  | None => (false, st)
  | Some credential =>
      let isCheckedToday :=
        match Credential.checkedInOn credential with
        | Some checkedInOn => isToday tIs checkedInOn
        | None => false
        end in
      if isCheckedToday
      then Storage.resetCredential siteId credentialId st
      else Storage.checkInCredential now tToday tNow device siteId credentialId st
  end.

(** [getCredentialStatus(credential)]; [tIs] is the clock read of
    [isToday] and [tAgo] the one of [getDaysAgo]. *)
Definition getCredentialStatus (tIs tAgo : Z) (credential : Credential.t) : string :=
  match Credential.checkedInOn credential with
  | None => "never"
  | Some checkedInOn =>
      if isToday tIs checkedInOn then "today"
      else
        let daysAgo := getDaysAgo tAgo checkedInOn in
        if daysAgo =? 1 then "yesterday"
        else if daysAgo <=? 7 then "this-week"
        else if daysAgo <=? 30 then "this-month"
        else "stale"
  end.

End CredentialsService.

(** ** Quick filters (src/features/filters/quick-filters.service.js) *)

Module QuickFilters.

(** [checkedDate === today] in the callbacks of [applyFilterType] *)
Definition checkedOn (today : Z) (cred : Credential.t) : bool :=
  match Credential.checkedInOn cred with
  | Some checkedInOn => Clock.isoDate checkedInOn =? today
  | None => false
  end.

Definition tagIncludes (word : string) (site : Site.t) : bool :=
  match Site.tags site with
  | Some siteTags =>
      existsb (fun tag => StateManager.includes (StateManager.toLowerCase tag) word)
              siteTags
  | None => false
  end.

Definition categoryIncludes (word : string) (site : Site.t) : bool :=
  match Site.category site with
  | Some (String c rest) =>
      StateManager.includes (StateManager.toLowerCase (String c rest)) word
  | _ => false
  end.

(** [applyFilterType(sites, filterType)]; [now] is its clock read. *)
Definition applyFilterType (now : Z) (sites : list Site.t) (filterType : string)
  : list Site.t :=
  let today := Clock.isoDate now in
  if String.eqb filterType "pending" then
    filter (fun site => existsb (fun cred => negb (checkedOn today cred))
                                (Site.credentials site))
           sites
  else if String.eqb filterType "completed" then
    filter (fun site =>
              (0 <? List.length (Site.credentials site))%nat
              && forallb (checkedOn today) (Site.credentials site))
           sites
  else if String.eqb filterType "partial" then
    filter (fun site =>
              let checkedCount :=
                List.length (filter (checkedOn today) (Site.credentials site)) in
              (0 <? checkedCount)%nat
              && (checkedCount <? List.length (Site.credentials site))%nat)
           sites
  else if String.eqb filterType "priority" then
    filter (fun site =>
              tagIncludes "priority" site || tagIncludes "urgent" site
              || tagIncludes "important" site)
           sites
  else if String.eqb filterType "work" then
    filter (fun site => tagIncludes "work" site || categoryIncludes "work" site) sites
  else if String.eqb filterType "personal" then
    filter (fun site => tagIncludes "personal" site || categoryIncludes "personal" site)
           sites
  else if String.eqb filterType "multiple" then
    filter (fun site => (1 <? List.length (Site.credentials site))%nat) sites
  else sites.

End QuickFilters.

(** * Properties *)

(** ** Calendar and array lemmas *)

Lemma isoDate_yesterday (t : Z) :
  Clock.isoDate (t - 86400000) = Clock.isoDate t - 1.
Proof.
  unfold Clock.isoDate, Clock.msPerDay.
  replace (t - 86400000) with (t + (-1) * 86400000) by lia.
  rewrite Z.div_add by lia. lia.
Qed.

Lemma find_modifyFirst {A : Type} (p : A -> bool) (f : A -> A) (l : list A) (x : A) :
  find p l = Some x ->
  p (f x) = true ->
  find p (modifyFirst p f l) = Some (f x).
Proof.
  induction l as [|y r IH]; simpl; intros Hfind Hp.
  - discriminate.
  - destruct (p y) eqn:Hy.
    + injection Hfind as ->. simpl. now rewrite Hp.
    + simpl. rewrite Hy. now apply IH.
Qed.

Lemma find_none_iff {A : Type} (p : A -> bool) (l : list A) :
  find p l = None <-> (forall x, In x l -> p x = false).
Proof.
  split.
  - apply find_none.
  - induction l as [|y r IH]; simpl; intros H; [reflexivity|].
    rewrite (H y) by now left. apply IH. intros x Hx. apply H. now right.
Qed.

Lemma firstn_cons_firstn {A : Type} (n : nat) (e : A) (l : list A) :
  firstn n (e :: firstn n l) = firstn n (e :: l).
Proof.
  destruct n as [|n]; [reflexivity|].
  rewrite !firstn_cons. f_equal.
  rewrite firstn_firstn. f_equal. lia.
Qed.

(** ** Check-in *)

Lemma updateStreak_sites (tToday tNow : Z) (state : State.t) :
  State.sites (Storage.updateStreak tToday tNow state) = State.sites state.
Proof.
  unfold Storage.updateStreak.
  now destruct (Analytics.lastCheckIn (State.analytics state)).
Qed.

Section CheckIn.

Variables (now tToday tNow : Z) (device siteId credentialId : string).

Let checkIn := Storage.checkInCredential now tToday tNow device siteId credentialId.

(** The document a successful check-in writes. *)
Lemma checkIn_success (state : State.t) (c : Credential.t) :
  Storage.getCredential siteId credentialId (Some state) = Some c ->
  checkIn (Some state) =
  (true,
   Some (Storage.updateStreak tToday tNow
           (State.set_analytics
              (Analytics.set_lastCheckIn (Some now)
                 (Analytics.set_totalCheckIns
                    (Analytics.totalCheckIns (State.analytics state) + 1)
                    (State.analytics state)))
              (Storage.mutateCredential siteId credentialId
                 (Storage.checkInMutation now device) state)))).
Proof.
  unfold checkIn, Storage.getCredential, Storage.checkInCredential; simpl.
  destruct (find (Storage.hasSiteId siteId) (State.sites state)) as [site|];
    [|discriminate].
  destruct (find (Storage.hasCredentialId credentialId) (Site.credentials site));
    [|discriminate].
  reflexivity.
Qed.

(** A check-in either fails and writes nothing, or finds its credential. *)
Lemma checkIn_cases (st : Storage.Store) :
  checkIn st = (false, st) \/
  exists state c,
    st = Some state /\ Storage.getCredential siteId credentialId st = Some c.
Proof.
  destruct st as [state|]; [|now left].
  destruct (Storage.getCredential siteId credentialId (Some state)) as [c|] eqn:Hc.
  - right. now exists state, c.
  - left. unfold checkIn, Storage.getCredential, Storage.checkInCredential in *.
    simpl in *.
    destruct (find (Storage.hasSiteId siteId) (State.sites state)) as [site|];
      [|reflexivity].
    now rewrite Hc.
Qed.

Lemma checkInMutation_id (c : Credential.t) :
  Credential.id (Storage.checkInMutation now device c) = Credential.id c.
Proof.
  unfold Storage.checkInMutation.
  now destruct CONFIG.features_checkInHistory.
Qed.

(** After a successful check-in the same identifiers find the changed
    credential. *)
Lemma getCredential_checkIn (state : State.t) (c : Credential.t) :
  Storage.getCredential siteId credentialId (Some state) = Some c ->
  Storage.getCredential siteId credentialId (snd (checkIn (Some state))) =
  Some (Storage.checkInMutation now device c).
Proof.
  intros Hc. rewrite (checkIn_success state c Hc). cbn [snd].
  assert (Hsites : forall s,
    State.sites (Storage.updateStreak tToday tNow s) = State.sites s).
  { intros s. unfold Storage.updateStreak.
    now destruct (Analytics.lastCheckIn (State.analytics s)). }
  unfold Storage.getCredential, Storage.getState in *.
  rewrite Hsites.
  unfold Storage.mutateCredential.
  cbn [State.sites State.set_sites State.set_analytics].
  destruct (find (Storage.hasSiteId siteId) (State.sites state)) as [site|] eqn:Hs;
    [|discriminate].
  erewrite find_modifyFirst; [| exact Hs |].
  - cbn [Site.credentials Site.set_credentials].
    apply find_modifyFirst; [exact Hc|].
    unfold Storage.hasCredentialId. rewrite checkInMutation_id.
    apply find_some in Hc. exact (proj2 Hc).
  - apply find_some in Hs. exact (proj2 Hs).
Qed.

End CheckIn.

(** [updateStreak] on a document follows the case analysis of the streak
    algorithm over the [lastCheckIn] it finds in the document. *)
Lemma updateStreak_case_analysis (tToday tNow : Z) (state : State.t) :
  let a := State.analytics state in
  let a' := State.analytics (Storage.updateStreak tToday tNow state) in
  let today := Clock.isoDate tToday in
  let yesterday := Clock.isoDate (tNow - 86400000) in
  (Analytics.lastCheckIn a = None -> Analytics.currentStreak a' = 1) /\
  (forall t, Analytics.lastCheckIn a = Some t ->
             Clock.isoDate t = yesterday ->
             Analytics.currentStreak a' = Analytics.currentStreak a + 1) /\
  (forall t, Analytics.lastCheckIn a = Some t ->
             Clock.isoDate t <> yesterday -> Clock.isoDate t <> today ->
             Analytics.currentStreak a' = 1) /\
  (forall t, Analytics.lastCheckIn a = Some t ->
             Clock.isoDate t <> yesterday -> Clock.isoDate t = today ->
             Analytics.currentStreak a' = Analytics.currentStreak a).
Proof.
  cbv zeta. unfold Storage.updateStreak.
  repeat split.
  - now intros ->.
  - intros t -> Hy. rewrite Hy, Z.eqb_refl. cbn. now destruct (_ >? _).
  - intros t -> Hy Ht.
    apply Z.eqb_neq in Hy, Ht. rewrite Hy, Ht. cbn. now destruct (_ >? _).
  - intros t -> Hy Ht.
    apply Z.eqb_neq in Hy. rewrite Hy, Ht, Z.eqb_refl. cbn. now destruct (_ >? _).
Qed.

(** On the document of the scenario as it is stored, [updateStreak] gives
    the streak the algorithm asks for. *)
Example updateStreak_on_stored_scenario :
  let now := Clock.utc 2025 6 2 10 0 0 in
  let a' := State.analytics (Storage.updateStreak now now Scenario.streakDocument) in
  Analytics.currentStreak a' = 4 /\ Analytics.longestStreak a' = 5.
Proof. split; reflexivity. Qed.

(** With the three clock reads of a check-in on one calendar day, the
    streak counter is left as it was: [updateStreak] reads the
    [lastCheckIn] that the check-in has just overwritten. *)
Lemma checkIn_same_day_keeps_currentStreak
      (now tToday tNow : Z) (device siteId credentialId : string)
      (state state' : State.t) :
  Clock.isoDate tToday = Clock.isoDate now ->
  Clock.isoDate tNow = Clock.isoDate now ->
  Storage.checkInCredential now tToday tNow device siteId credentialId (Some state)
  = (true, Some state') ->
  Analytics.currentStreak (State.analytics state') =
  Analytics.currentStreak (State.analytics state).
Proof.
  intros Htoday Hnow Hrun.
  destruct (checkIn_cases now tToday tNow device siteId credentialId (Some state))
    as [Hfail | (s & c & Hs & Hc)].
  - rewrite Hfail in Hrun. discriminate.
  - injection Hs as <-.
    rewrite (checkIn_success _ _ _ _ _ _ _ _ Hc) in Hrun.
    injection Hrun as <-.
    unfold Storage.updateStreak. simpl.
    rewrite isoDate_yesterday, Htoday, Hnow.
    replace (Clock.isoDate now =? Clock.isoDate now - 1) with false
      by (symmetry; apply Z.eqb_neq; lia).
    rewrite Z.eqb_refl. simpl.
    now destruct (_ >? _).
Qed.

(** C1. The scenario of the specification, run on the code: the document
    has [currentStreak = 3], [longestStreak = 5] and a [lastCheckIn] on
    2025-06-01; the check-in at 2025-06-02T10:00:00Z succeeds and leaves
    [currentStreak] at 3, where the streak algorithm asks for 4. On a
    document that was never checked in, the first check-in leaves
    [currentStreak] at 0, where the algorithm asks for 1. *)
Theorem checkIn_scenario_streak_not_incremented :
  let now := Clock.utc 2025 6 2 10 0 0 in
  (exists state',
      Storage.checkInCredential now now now "laptop" "s1" "c1"
                                (Some Scenario.streakDocument)
      = (true, Some state') /\
      Analytics.lastCheckIn (State.analytics Scenario.streakDocument)
      = Some (Clock.utc 2025 6 1 9 0 0) /\
      Clock.isoDate (Clock.utc 2025 6 1 9 0 0) = Clock.isoDate now - 1 /\
      Analytics.currentStreak (State.analytics state') = 3 /\
      Analytics.longestStreak (State.analytics state') = 5) /\
  (exists state',
      Storage.checkInCredential now now now "laptop" "s1" "c1"
        (Some (Scenario.document (Clock.isoDate now)
                 [Scenario.site "s1" [Scenario.credential "c1" None]]
                 (Analytics.mk 0 0 0 0 1 0 None)))
      = (true, Some state') /\
      Analytics.currentStreak (State.analytics state') = 0).
Proof.
  split; eexists; repeat split.
Qed.

(** *** The check-in on a stored document *)

Lemma stored_find_map {A B : Type} (f : A -> B) (p : A -> bool) (q : B -> bool)
      (l : list A) :
  (forall x, q (f x) = p x) ->
  Stored.find q (map (fun x => Some (f x)) l) =
  Return (option_map f (List.find p l)).
Proof.
  intros Hpq. induction l as [|x r IH]; cbn; [reflexivity|].
  rewrite Hpq. destruct (p x); [reflexivity | exact IH].
Qed.

Lemma stored_modifyFirst_map {A B : Type} (f : A -> B) (p : A -> bool) (q : B -> bool)
      (g : A -> A) (h : B -> B) (l : list A) :
  (forall x, q (f x) = p x) ->
  (forall x, h (f x) = f (g x)) ->
  Stored.modifyFirst q h (map (fun x => Some (f x)) l) =
  map (fun x => Some (f x)) (modifyFirst p g l).
Proof.
  intros Hpq Hhg. induction l as [|x r IH]; cbn; [reflexivity|].
  rewrite Hpq. destruct (p x); cbn; [now rewrite Hhg | now rewrite IH].
Qed.

Lemma stored_updateStreak (tToday tNow : Z) (state : State.t) :
  Stored.ofState (Storage.updateStreak tToday tNow state) =
  StoredDoc.set_analytics
    (Some (Stored.updateStreak tToday tNow (State.analytics state)))
    (Stored.ofState state).
Proof.
  unfold Stored.updateStreak, Storage.updateStreak.
  destruct (Analytics.lastCheckIn (State.analytics state)); reflexivity.
Qed.

(** On a document of the data model the check-in on the stored document
    returns, and returns what [Storage.checkInCredential] returns. *)
Lemma checkInCredential_on_data_model
      (now tToday tNow : Z) (device siteId credentialId : string) (st : Storage.Store) :
  Stored.checkInCredential now tToday tNow device siteId credentialId
                           (option_map Stored.ofState st) =
  Return (fst (Storage.checkInCredential now tToday tNow device siteId credentialId st),
          option_map Stored.ofState
            (snd (Storage.checkInCredential now tToday tNow device siteId credentialId st))).
Proof.
  destruct st as [state|]; [|reflexivity].
  unfold Stored.checkInCredential, Storage.checkInCredential.
  cbn [option_map Storage.getState Stored.ofState StoredDoc.sites StoredDoc.analytics].
  rewrite (stored_find_map Stored.ofSite (Storage.hasSiteId siteId)) by reflexivity.
  destruct (List.find (Storage.hasSiteId siteId) (State.sites state)) as [site|];
    [|reflexivity].
  cbn [option_map Stored.ofSite StoredSite.credentials].
  rewrite (stored_find_map Stored.ofCredential (Storage.hasCredentialId credentialId))
    by reflexivity.
  destruct (List.find (Storage.hasCredentialId credentialId) (Site.credentials site));
    [|reflexivity].
  cbn [option_map fst snd Storage.setState]. do 3 f_equal.
  rewrite stored_updateStreak.
  unfold Stored.ofState, Storage.mutateCredential, StoredDoc.set_analytics,
    StoredDoc.set_sites.
  cbn [State.version State.lastReset State.settings State.categories State.sites
       State.analytics State.set_analytics State.set_sites
       StoredDoc.set_analytics StoredDoc.set_sites StoredDoc.version
       StoredDoc.lastReset StoredDoc.settings StoredDoc.categories StoredDoc.sites
       StoredDoc.analytics].
  f_equal. f_equal.
  apply (stored_modifyFirst_map Stored.ofSite (Storage.hasSiteId siteId)); [reflexivity|].
  intros s. unfold Stored.mutateCredential, Stored.ofSite, StoredSite.set_credentials,
    Site.set_credentials.
  cbn [StoredSite.set_credentials StoredSite.id StoredSite.name StoredSite.url
       StoredSite.favicon StoredSite.category StoredSite.tags StoredSite.priority
       StoredSite.color StoredSite.notes StoredSite.createdAt StoredSite.updatedAt
       StoredSite.credentials
       Site.set_credentials Site.id Site.name Site.url Site.favicon Site.category
       Site.tags Site.priority Site.color Site.notes Site.credentials
       Site.createdAt Site.updatedAt].
  f_equal. f_equal.
  apply (stored_modifyFirst_map Stored.ofCredential
           (Storage.hasCredentialId credentialId)); [reflexivity|].
  intros c. unfold Stored.checkInMutation, Storage.checkInMutation.
  now destruct CONFIG.features_checkInHistory.
Qed.

(** C9, as written, fails: the site exists and holds no credential with the
    identifier, for it has no list of credentials at all, and the check-in
    throws instead of returning [false]. *)
Lemma checkIn_site_without_credentials_throws :
  exists sites site,
    StoredDoc.sites Sample.siteWithoutCredentials = IsArray sites /\
    Stored.find (Stored.hasSiteId "s1") sites = Return (Some site) /\
    StoredSite.credentials site = Missing /\
    Stored.checkInCredential 20 20 20 "laptop" "s1" "c1"
                             (Some Sample.siteWithoutCredentials)
    = Throw "TypeError" /\
    Stored.checkInCredential 20 20 20 "laptop" "s1" "c1"
                             (Some Sample.siteWithoutCredentials)
    <> Return (false, Some Sample.siteWithoutCredentials).
Proof.
  eexists. eexists.
  split; [reflexivity|]. split; [reflexivity|]. split; [reflexivity|].
  split; [reflexivity | discriminate].
Qed.

(** C9, amended. On a stored document whose list of sites is an array, a
    check-in returns [false], does not throw and leaves the store as it
    was when no element of the array is null and none has the site
    identifier, and when the first site with the identifier, with no null
    element before it, has an array of credentials of which no element is
    null and none has the credential identifier; so does a check-in on an
    empty store. On every document of the data model the check-in returns. *)
Theorem checkIn_not_found_returns_false
        (now tToday tNow : Z) (device siteId credentialId : string)
        (doc : StoredDoc.t) (sites : list (option StoredSite.t)) :
  StoredDoc.sites doc = IsArray sites ->
  (Forall (fun element =>
             exists site, element = Some site /\ StoredSite.id site <> Some siteId)
          sites \/
   exists before site after credentials,
     sites = before ++ Some site :: after /\
     Forall (fun element =>
               exists site0, element = Some site0 /\ StoredSite.id site0 <> Some siteId)
            before /\
     StoredSite.id site = Some siteId /\
     StoredSite.credentials site = IsArray credentials /\
     Forall (fun element =>
               exists c, element = Some c /\ StoredCredential.id c <> Some credentialId)
            credentials) ->
  Stored.checkInCredential now tToday tNow device siteId credentialId (Some doc)
  = Return (false, Some doc) /\
  Stored.checkInCredential now tToday tNow device siteId credentialId None
  = Return (false, None) /\
  forall state : State.t,
  exists result,
    Stored.checkInCredential now tToday tNow device siteId credentialId
                             (Some (Stored.ofState state))
    = Return result.
Proof.
  intros Hsites Hcase.
  assert (Hmiss : forall (A : Type) (p : A -> bool) (l : list (option A)),
    Forall (fun element => exists x, element = Some x /\ p x = false) l ->
    Stored.find p l = Return None).
  { intros A p l Hl. induction Hl as [|e r (x & -> & Hx) _ IH]; cbn; [reflexivity|].
    now rewrite Hx. }
  assert (Hsite : forall l : list (option StoredSite.t),
    Forall (fun element =>
              exists site, element = Some site /\ StoredSite.id site <> Some siteId) l ->
    Forall (fun element =>
              exists site, element = Some site /\ Stored.hasSiteId siteId site = false) l).
  { intros l. apply Forall_impl. intros e (site & -> & Hid). exists site.
    split; [reflexivity|]. unfold Stored.hasSiteId.
    destruct (StoredSite.id site) as [id|]; [|reflexivity].
    apply String.eqb_neq. congruence. }
  split; [|split; [reflexivity|]].
  - unfold Stored.checkInCredential. rewrite Hsites.
    destruct Hcase as [Hno | (before & site & after & credentials & -> & Hbefore & Hid
                              & Hcreds & Hno)].
    + now rewrite (Hmiss _ _ _ (Hsite _ Hno)).
    + assert (Hfound : Stored.find (Stored.hasSiteId siteId)
                                   (before ++ Some site :: after) = Return (Some site)).
      { apply Hsite in Hbefore. clear Hmiss Hsite Hsites Hcreds Hno.
        induction before as [|e r IH]; cbn.
        - unfold Stored.hasSiteId. now rewrite Hid, String.eqb_refl.
        - apply Forall_cons_iff in Hbefore. destruct Hbefore as [(x & -> & Hx) Hr].
          rewrite Hx. exact (IH Hr). }
      rewrite Hfound, Hcreds.
      rewrite (Hmiss _ (Stored.hasCredentialId credentialId) credentials);
        [reflexivity|].
      revert Hno. apply Forall_impl. intros e (c & -> & Hc). exists c.
      split; [reflexivity|]. unfold Stored.hasCredentialId.
      destruct (StoredCredential.id c) as [id|]; [|reflexivity].
      apply String.eqb_neq. congruence.
  - intros state. eexists.
    exact (checkInCredential_on_data_model now tToday tNow device siteId credentialId
                                           (Some state)).
Qed.

Lemma checkIn_not_found_witness :
  Stored.checkInCredential 5 5 5 "laptop" "s1" "c2"
                           (Some (Stored.ofState Scenario.streakDocument))
  = Return (false, Some (Stored.ofState Scenario.streakDocument)) /\
  Stored.checkInCredential 5 5 5 "laptop" "s2" "c1"
                           (Some (Stored.ofState Scenario.streakDocument))
  = Return (false, Some (Stored.ofState Scenario.streakDocument)).
Proof.
  split.
  - apply (checkIn_not_found_returns_false 5 5 5 "laptop" "s1" "c2"
             (Stored.ofState Scenario.streakDocument) _ eq_refl).
    right. exists [], (Stored.ofSite (Scenario.site "s1" [Scenario.credential "c1" None])),
             [], [Some (Stored.ofCredential (Scenario.credential "c1" None))].
    split; [reflexivity|]. split; [constructor|]. split; [reflexivity|].
    split; [reflexivity|].
    constructor; [|constructor]. eexists. split; [reflexivity | discriminate].
  - apply (checkIn_not_found_returns_false 5 5 5 "laptop" "s2" "c1"
             (Stored.ofState Scenario.streakDocument) _ eq_refl).
    left. constructor; [|constructor]. eexists. split; [reflexivity | discriminate].
Defined.

(** ** The streak invariant *)


(** When a last check-in is recorded, [updateStreak] ends with the clamp. *)
Lemma updateStreak_clamps (tToday tNow : Z) (state : State.t) :
  Analytics.lastCheckIn (State.analytics state) <> None ->
  Storage.streakOk (Storage.updateStreak tToday tNow state).
Proof.
  unfold Storage.streakOk, Storage.updateStreak. intros Hlast.
  destruct (Analytics.lastCheckIn (State.analytics state)) as [lastCheckIn|];
    [|congruence].
  destruct (_ =? _); [|destruct (negb _)]; cbn;
    match goal with |- context [?a >? ?b] => destruct (Z.gtb_spec a b) end;
    cbn; lia.
Qed.

Lemma updateStreak_raises (tToday tNow : Z) (state : State.t) :
  Analytics.lastCheckIn (State.analytics state) <> None ->
  Analytics.longestStreak (State.analytics state)
  < Analytics.currentStreak (State.analytics (Storage.updateStreak tToday tNow state)) ->
  Analytics.longestStreak (State.analytics (Storage.updateStreak tToday tNow state))
  = Analytics.currentStreak (State.analytics (Storage.updateStreak tToday tNow state)).
Proof.
  unfold Storage.updateStreak. intros Hlast.
  destruct (Analytics.lastCheckIn (State.analytics state)) as [lastCheckIn|];
    [|congruence].
  destruct (_ =? _); [|destruct (negb _)]; cbn;
    match goal with |- context [?a >? ?b] => destruct (Z.gtb_spec a b) end;
    cbn; lia.
Qed.


Ltac keeps_streak := eexists; split; [reflexivity | left; split; reflexivity].

(** An operation leaves the streak counters as they are, unless it is a
    check-in that finds its credential: then the document is the result of
    [updateStreak] on one whose [lastCheckIn] is set. *)
Lemma run_streak (op : Storage.Operation) (state : State.t) :
  exists state',
    Storage.run op (Some state) = Some state' /\
    (Storage.sameStreak state state' \/
     exists tToday tNow s,
       Analytics.lastCheckIn (State.analytics s) <> None /\
       Storage.sameStreak state s /\
       state' = Storage.updateStreak tToday tNow s).
Proof.
  destruct op; cbn [Storage.run].
  - destruct (checkIn_cases now tToday tNow device siteId credentialId (Some state))
      as [Hfail | (s & c & Hs & Hc)].
    + rewrite Hfail. keeps_streak.
    + rewrite (checkIn_success _ _ _ _ _ _ _ _ Hc). eexists. split; [reflexivity|].
      right. do 3 eexists. split; [|split; [|reflexivity]].
      * cbn. discriminate.
      * split; reflexivity.
  - unfold Storage.resetCredential. cbn.
    destruct (find _ _) as [site|]; [|keeps_streak].
    destruct (find _ _); keeps_streak.
  - keeps_streak.
  - unfold Storage.checkDailyReset. cbn.
    destruct (negb _); [keeps_streak|].
    destruct (negb _); keeps_streak.
  - keeps_streak.
  - unfold Storage.updateSite. cbn.
    destruct (find _ _); keeps_streak.
  - unfold Storage.deleteSite. cbn.
    destruct (find _ _); keeps_streak.
  - keeps_streak.
  - unfold Storage.importData. cbn.
    destruct data as [data|]; [|keeps_streak].
    destruct (ImportDoc.sites data); keeps_streak.
Qed.

Lemma run_preserves_streakOk (op : Storage.Operation) (state state' : State.t) :
  Storage.run op (Some state) = Some state' ->
  Storage.streakOk state -> Storage.streakOk state'.
Proof.
  intros Hrun Hok.
  destruct (run_streak op state) as (s & Hs & [[Hc Hl] | (t1 & t2 & s0 & Hlast & _ & ->)]);
    rewrite Hs in Hrun; injection Hrun as <-.
  - unfold Storage.streakOk in *. lia.
  - now apply updateStreak_clamps.
Qed.

Lemma runAll_streakOk (ops : list Storage.Operation) (state state' : State.t) :
  Storage.streakOk state ->
  Storage.runAll ops (Some state) = Some state' ->
  Storage.streakOk state'.
Proof.
  revert state. induction ops as [|op ops IH]; cbn; intros state Hok Hrun.
  - now injection Hrun as <-.
  - destruct (run_streak op state) as (s & Hs & _).
    rewrite Hs in Hrun.
    eapply IH; [|exact Hrun].
    eapply run_preserves_streakOk; eauto.
Qed.

(** C2. In every document reached from the bootstrap default by a sequence
    of check-ins, resets, daily resets, site additions, updates and
    deletions, category additions and imports, [currentStreak] is at most
    [longestStreak]; and an operation that takes [currentStreak] of such a
    document above its [longestStreak] leaves [longestStreak] equal to the
    new [currentStreak]. *)
Theorem streak_never_exceeds_longest
        (now : Z) (ids : nat -> string) (ops : list Storage.Operation)
        (state : State.t) :
  Storage.runAll ops (Storage.bootstrap now ids) = Some state ->
  Analytics.currentStreak (State.analytics state)
  <= Analytics.longestStreak (State.analytics state) /\
  forall op state',
    Storage.run op (Some state) = Some state' ->
    Analytics.longestStreak (State.analytics state)
    < Analytics.currentStreak (State.analytics state') ->
    Analytics.longestStreak (State.analytics state')
    = Analytics.currentStreak (State.analytics state').
Proof.
  intros Hreach.
  assert (Hok : Storage.streakOk state).
  { eapply runAll_streakOk; [|exact Hreach]. unfold Storage.streakOk. cbn. lia. }
  split; [exact Hok|].
  intros op state' Hrun Hraise.
  destruct (run_streak op state)
    as (s & Hs & [[Hc Hl] | (t1 & t2 & s0 & Hlast & [Hc Hl] & ->)]);
    rewrite Hs in Hrun; injection Hrun as <-.
  - unfold Storage.streakOk in Hok. lia.
  - apply updateStreak_raises; [exact Hlast|]. now rewrite Hl.
Qed.


Lemma streak_never_exceeds_longest_witness :
  exists state,
    Storage.runAll Scenario.dayOfUse (Storage.bootstrap 0 (fun _ => "id")) = Some state /\
    Analytics.currentStreak (State.analytics state)
    <= Analytics.longestStreak (State.analytics state).
Proof.
  eexists. split; [vm_compute; reflexivity|].
  apply (streak_never_exceeds_longest 0 (fun _ => "id") Scenario.dayOfUse).
  vm_compute; reflexivity.
Defined.

(** ** Daily reset *)

Lemma resetAll_credentials_null (sites : list Site.t) (site : Site.t) (c : Credential.t) :
  In site
     (map (fun site =>
             Site.set_credentials
               (map (Credential.set_checkedInOn None) (Site.credentials site)) site)
          sites) ->
  In c (Site.credentials site) ->
  Credential.checkedInOn c = None.
Proof.
  intros Hsite Hc.
  apply in_map_iff in Hsite as (site0 & <- & _).
  cbn in Hc. apply in_map_iff in Hc as (c0 & <- & _).
  reflexivity.
Qed.



(** ** History cap *)

Lemma pushHistory_firstn (cap : nat) (e : HistoryEntry.t)
      (h : option (list HistoryEntry.t)) :
  Storage.pushHistory cap e h = firstn cap (e :: orElse h []).
Proof.
  unfold Storage.pushHistory.
  destruct (Nat.ltb_spec cap (List.length (e :: match h with Some l => l | None => [] end))).
  - now destruct h.
  - destruct h; cbn [orElse]; symmetry; now apply firstn_all2.
Qed.

Lemma checkInMutation_history (now : Z) (device : string) (c : Credential.t) :
  Credential.checkInHistory (Storage.checkInMutation now device c) =
  Some (firstn CONFIG.limits_maxHistoryEntries
               (HistoryEntry.mk now device :: orElse (Credential.checkInHistory c) [])).
Proof.
  unfold Storage.checkInMutation.
  change CONFIG.features_checkInHistory with true. cbv iota.
  cbn [Credential.checkInHistory Credential.set_checkInHistory Credential.set_checkedInOn].
  now rewrite pushHistory_firstn.
Qed.

Lemma checkInAll_snoc (siteId credentialId : string)
      (reads : list (Z * Z * Z * string)) (r : Z * Z * Z * string)
      (st : Storage.Store) :
  Storage.checkInAll siteId credentialId (reads ++ [r]) st =
  snd (Storage.checkInCredential (fst (fst (fst r))) (snd (fst (fst r))) (snd (fst r))
                                 (snd r) siteId credentialId
                                 (Storage.checkInAll siteId credentialId reads st)).
Proof.
  unfold Storage.checkInAll, Storage.runAll.
  rewrite map_app, fold_left_app.
  destruct r as [[[now tToday] tNow] device]. reflexivity.
Qed.

(** The history after a run of check-ins of one credential: the entries of
    the run, most recent first, then the former history, cut at the cap. *)
Lemma checkInAll_history (siteId credentialId : string)
      (reads : list (Z * Z * Z * string)) (state : State.t) (c0 : Credential.t) :
  Storage.getCredential siteId credentialId (Some state) = Some c0 ->
  exists state' c,
    Storage.checkInAll siteId credentialId reads (Some state) = Some state' /\
    Storage.getCredential siteId credentialId (Some state') = Some c /\
    (reads = [] -> c = c0) /\
    (reads <> [] ->
     Credential.checkInHistory c =
     Some (firstn CONFIG.limits_maxHistoryEntries
                  (rev (map Storage.entryOf reads)
                       ++ orElse (Credential.checkInHistory c0) []))).
Proof.
  intros Hc0.
  induction reads as [|r reads IH] using rev_ind.
  - exists state, c0. repeat split; auto. congruence.
  - destruct IH as (state1 & c1 & Hrun & Hc1 & Hnil & Hhist).
    rewrite checkInAll_snoc, Hrun.
    destruct r as [[[now tToday] tNow] device]. cbn [fst snd].
    pose proof (getCredential_checkIn now tToday tNow device _ _ _ _ Hc1) as Hget.
    rewrite (checkIn_success now tToday tNow device _ _ _ _ Hc1) in *.
    cbn [snd] in *.
    eexists. eexists. split; [reflexivity|]. split; [exact Hget|].
    split; [intros Hnil'; now destruct reads|].
    intros _. rewrite checkInMutation_history.
    rewrite map_app, rev_app_distr. cbn [map rev app Storage.entryOf].
    destruct reads as [|r0 reads0].
    + now rewrite (Hnil eq_refl).
    + rewrite Hhist by discriminate. cbn [orElse].
      now rewrite firstn_cons_firstn.
Qed.

(** *** Histories within the bound *)

Lemma In_modifyFirst {A : Type} (p : A -> bool) (f : A -> A) (l : list A) (y : A) :
  In y (modifyFirst p f l) -> In y l \/ exists x, In x l /\ y = f x.
Proof.
  induction l as [|x r IH]; cbn; [tauto|].
  destruct (p x); cbn.
  - intros [<-|H]; [right; exists x; auto | auto].
  - intros [<-|H]; [auto|].
    destruct (IH H) as [H'|(x0 & H' & ->)]; [auto|].
    right. exists x0. auto.
Qed.

Lemma In_removeFirst {A : Type} (p : A -> bool) (l : list A) (y : A) :
  In y (removeFirst p l) -> In y l.
Proof.
  induction l as [|x r IH]; cbn; [tauto|].
  destruct (p x); cbn; [auto|]. intros [<-|H]; auto.
Qed.

Lemma mutateCredential_withinCap (siteId credentialId : string)
      (f : Credential.t -> Credential.t) (state : State.t) :
  (forall c, Storage.historyWithinCap c -> Storage.historyWithinCap (f c)) ->
  Storage.sitesWithinCap (State.sites state) ->
  Storage.sitesWithinCap
    (State.sites (Storage.mutateCredential siteId credentialId f state)).
Proof.
  intros Hf Hcap site c Hsite Hc.
  unfold Storage.mutateCredential in Hsite. cbn [State.sites State.set_sites] in Hsite.
  apply In_modifyFirst in Hsite. destruct Hsite as [Hsite|(site0 & Hsite & ->)].
  - exact (Hcap site c Hsite Hc).
  - cbn [Site.credentials Site.set_credentials] in Hc.
    apply In_modifyFirst in Hc. destruct Hc as [Hc|(c0 & Hc & ->)].
    + exact (Hcap site0 c Hsite Hc).
    + apply Hf. exact (Hcap site0 c0 Hsite Hc).
Qed.

Lemma checkInMutation_withinCap (now : Z) (device : string) (c : Credential.t) :
  Storage.historyWithinCap (Storage.checkInMutation now device c).
Proof.
  unfold Storage.historyWithinCap. rewrite checkInMutation_history.
  cbn [orElse]. apply firstn_le_length.
Qed.

(** One operation that supplies histories within the bound keeps every
    history of the store within the bound. *)
Lemma run_keeps_cap (op : Storage.Operation) (st : Storage.Store) :
  Storage.suppliesWithinCap op ->
  Storage.storeWithinCap st ->
  Storage.storeWithinCap (Storage.run op st).
Proof.
  intros Hop Hst.
  destruct st as [state|].
  2:{ assert (Hnone : Storage.run op None = None).
      { destruct op as [| | | | | | | |[data|]]; try reflexivity.
        cbn. now destruct (ImportDoc.sites data). }
      rewrite Hnone. exact Hst. }
  assert (Hcap : Storage.sitesWithinCap (State.sites state)) by now apply Hst.
  assert (Hreset : forall now state',
    Storage.resetAllCredentials now (Some state) = (true, Some state') ->
    Storage.sitesWithinCap (State.sites state')).
  { intros now state' [= <-] site c Hsite Hc.
    cbn [State.sites State.set_sites State.set_lastReset] in Hsite.
    apply in_map_iff in Hsite. destruct Hsite as (site0 & <- & Hsite).
    cbn [Site.credentials Site.set_credentials] in Hc.
    apply in_map_iff in Hc. destruct Hc as (c0 & <- & Hc).
    exact (Hcap site0 c0 Hsite Hc). }
  destruct op as [now tToday tNow device siteId credentialId
                 | siteId credentialId
                 | now
                 | tCheck tReset
                 | newId tCreated tUpdated siteData
                 | now id updates
                 | id
                 | newId categoryData
                 | data]; cbn [Storage.run Storage.suppliesWithinCap] in *.
  - destruct (checkIn_cases now tToday tNow device siteId credentialId (Some state))
      as [Hfail|(state0 & c & [= <-] & Hc)].
    + rewrite Hfail. exact Hst.
    + rewrite (checkIn_success now tToday tNow device siteId credentialId state c Hc).
      cbn [snd]. intros state' [= <-].
      rewrite updateStreak_sites. cbn [State.sites State.set_analytics].
      apply mutateCredential_withinCap; [|exact Hcap].
      intros c0 _. apply checkInMutation_withinCap.
  - unfold Storage.resetCredential. cbn [Storage.getState].
    destruct (find (Storage.hasSiteId siteId) (State.sites state)) as [site|];
      [|exact Hst].
    destruct (find (Storage.hasCredentialId credentialId) (Site.credentials site));
      [|exact Hst].
    cbn [snd Storage.setState]. intros state' [= <-].
    apply mutateCredential_withinCap; [|exact Hcap].
    intros c0 H0. exact H0.
  - intros state' Hrun. apply (Hreset now state').
    cbn in Hrun |- *. now injection Hrun as <-.
  - unfold Storage.checkDailyReset. cbn [Storage.getState].
    destruct (negb (Settings.autoReset (State.settings state))); [exact Hst|].
    destruct (negb (State.lastReset state =? Clock.isoDate tCheck)); [|exact Hst].
    intros state' Hrun. apply (Hreset tReset state').
    cbn in Hrun |- *. now injection Hrun as <-.
  - cbn. intros state' [= <-] site c Hsite Hc.
    cbn [State.sites State.set_sites State.set_analytics] in Hsite.
    apply in_app_or in Hsite. destruct Hsite as [Hsite|[<-|[]]].
    + exact (Hcap site c Hsite Hc).
    + apply Hop. exact Hc.
  - unfold Storage.updateSite. cbn [Storage.getState].
    destruct (find (Storage.hasSiteId id) (State.sites state)); [|exact Hst].
    cbn [snd Storage.setState]. intros state' [= <-] site c Hsite Hc.
    cbn [State.sites State.set_sites] in Hsite.
    apply In_modifyFirst in Hsite. destruct Hsite as [Hsite|(site0 & Hsite & ->)].
    + exact (Hcap site c Hsite Hc).
    + cbn [Storage.applyUpdates Site.credentials] in Hc.
      destruct (SiteUpdates.credentials updates) as [credentials|] eqn:Hu;
        cbn [orElse] in Hc.
      * exact (Hop credentials c eq_refl Hc).
      * exact (Hcap site0 c Hsite Hc).
  - unfold Storage.deleteSite. cbn [Storage.getState].
    destruct (find (Storage.hasSiteId id) (State.sites state)); [|exact Hst].
    cbn [snd Storage.setState]. intros state' [= <-] site c Hsite Hc.
    cbn [State.sites State.set_sites State.set_analytics State.analytics] in Hsite.
    apply In_removeFirst in Hsite. exact (Hcap site c Hsite Hc).
  - cbn. intros state' [= <-]. exact Hcap.
  - destruct data as [imported|]; [|exact Hst].
    cbn. destruct (ImportDoc.sites imported) as [sites|] eqn:Hsites; [|exact Hst].
    cbn. intros state' [= <-] site c Hsite Hc.
    cbn [State.sites State.set_sites State.set_categories] in Hsite.
    apply in_app_or in Hsite. destruct Hsite as [Hsite|Hsite].
    + exact (Hcap site c Hsite Hc).
    + exact (Hop imported sites eq_refl Hsites site c Hsite Hc).
Qed.

Lemma runAll_keeps_cap (ops : list Storage.Operation) (st : Storage.Store) :
  Forall Storage.suppliesWithinCap ops ->
  Storage.storeWithinCap st ->
  Storage.storeWithinCap (Storage.runAll ops st).
Proof.
  unfold Storage.runAll. intros Hops. revert st.
  induction Hops as [|op ops Hop _ IH]; intros st Hst; cbn [fold_left]; [exact Hst|].
  apply IH. now apply run_keeps_cap.
Qed.

(** C6, as written, fails: [addSite] stores the credentials it is given,
    and a history of 101 entries stays 101 entries long in the document. *)
Lemma addSite_stores_history_over_cap :
  exists state site c h,
    Storage.runAll [Storage.AddSite "s1" 10 10 Sample.siteWithLongHistory]
                   (Storage.bootstrap 0 (fun _ => "k")) = Some state /\
    In site (State.sites state) /\
    In c (Site.credentials site) /\
    Credential.checkInHistory c = Some h /\
    List.length h = 101%nat /\
    ~ (List.length h <= 100)%nat.
Proof.
  eexists. eexists. eexists. eexists.
  split; [vm_compute; reflexivity|].
  split; [left; reflexivity|].
  split; [left; reflexivity|].
  split; [reflexivity|].
  split; [vm_compute; reflexivity|].
  vm_compute. intros H. repeat (apply le_S_n in H). inversion H.
Qed.

(** C6, amended. The bound is kept where the store writes a history, at
    check-in: after any non-empty run of check-ins of one credential its
    [checkInHistory] holds the entries of the run, most recent first, ahead
    of the former entries, cut at [maxHistoryEntries = 100], and after more
    than 100 check-ins exactly the 100 most recent of the run. The
    histories that [addSite], [updateSite] and [importData] hand to the
    store are stored as they are: in every document reached from the
    default one, or from a document within the bound, by operations that
    hand over histories of at most 100 entries, every credential of every
    site has at most 100 entries. *)
Theorem checkInHistory_capped (siteId credentialId : string)
        (reads : list (Z * Z * Z * string)) (state : State.t) (c0 : Credential.t) :
  (Storage.getCredential siteId credentialId (Some state) = Some c0 ->
   reads <> [] ->
   exists c h,
     Storage.getCredential siteId credentialId
       (Storage.checkInAll siteId credentialId reads (Some state)) = Some c /\
     Credential.checkInHistory c = Some h /\
     h = firstn 100 (rev (map Storage.entryOf reads)
                         ++ orElse (Credential.checkInHistory c0) []) /\
     (List.length h <= 100)%nat /\
     ((100 < List.length reads)%nat ->
      h = firstn 100 (rev (map Storage.entryOf reads)) /\ List.length h = 100%nat)) /\
  (forall (ops : list Storage.Operation) (st : Storage.Store),
      Forall Storage.suppliesWithinCap ops ->
      Storage.storeWithinCap st ->
      forall state' site c,
        Storage.runAll ops st = Some state' ->
        In site (State.sites state') -> In c (Site.credentials site) ->
        (List.length (orElse (Credential.checkInHistory c) []) <= 100)%nat) /\
  (forall now ids, Storage.storeWithinCap (Storage.bootstrap now ids)).
Proof.
  split; [|split].
  - intros Hc0 Hne.
    destruct (checkInAll_history siteId credentialId reads state c0 Hc0)
      as (state' & c & Hrun & Hc & _ & Hhist).
    rewrite Hrun. exists c. eexists. split; [exact Hc|].
    split; [exact (Hhist Hne)|].
    change CONFIG.limits_maxHistoryEntries with 100%nat.
    split; [reflexivity|].
    split; [apply firstn_le_length|].
    intros Hlen.
    assert (Hrev : (100 <= List.length (rev (map Storage.entryOf reads)))%nat)
      by (rewrite length_rev, length_map; lia).
    rewrite firstn_app.
    replace (100 - List.length (rev (map Storage.entryOf reads)))%nat with 0%nat by lia.
    rewrite firstn_O, app_nil_r.
    split; [reflexivity|].
    rewrite length_firstn. lia.
  - intros ops st Hops Hst state' site c Hrun Hsite Hc.
    exact (runAll_keeps_cap ops st Hops Hst state' Hrun site c Hsite Hc).
  - intros now ids state' [= <-] site c [].
Qed.

Lemma checkInHistory_capped_witness :
  (exists c h,
     Storage.getCredential "s1" "c1"
       (Storage.checkInAll "s1" "c1" (Scenario.minuteReads 150)
                           (Some Scenario.streakDocument))
     = Some c /\
     Credential.checkInHistory c = Some h /\
     List.length h = 100%nat /\
     hd_error h = Some (HistoryEntry.mk 9000000 "laptop") /\
     nth_error h 99 = Some (HistoryEntry.mk 3060000 "laptop")) /\
  (forall state' site c,
      Storage.runAll Scenario.dayOfUse (Storage.bootstrap 0 (fun _ => "k")) = Some state' ->
      In site (State.sites state') -> In c (Site.credentials site) ->
      (List.length (orElse (Credential.checkInHistory c) []) <= 100)%nat).
Proof.
  pose proof (checkInHistory_capped "s1" "c1" (Scenario.minuteReads 150)
                Scenario.streakDocument (Scenario.credential "c1" None))
    as (Hrun & Hkeep & Hboot).
  split.
  - destruct (Hrun eq_refl) as (c & h & Hc & Hh & Heq & _ & Hfull).
    + discriminate.
    + exists c, h. split; [exact Hc|]. split; [exact Hh|].
      split; [apply Hfull; vm_compute; lia|].
      rewrite Heq. split; vm_compute; reflexivity.
  - intros state' site c.
    apply (Hkeep Scenario.dayOfUse (Storage.bootstrap 0 (fun _ => "k"))).
    + apply Forall_cons;
        [intros c' [<-|[]]; unfold Storage.historyWithinCap; cbn; lia|].
      repeat (apply Forall_cons; [exact I|]). apply Forall_nil.
    + apply Hboot.
Defined.

(** ** Adding a site *)

(** C10. [addSite] appends a site that carries the [id], [createdAt] and
    [updatedAt] of [siteData] whenever [siteData] has them, and the
    generated identifier and the clock reads only otherwise; hence, given
    the identifier of a site of the document, it stores a second site with
    that identifier. *)
Theorem addSite_keeps_caller_fields
        (newId : string) (tCreated tUpdated : Z) (siteData : SiteData.t)
        (state : State.t) :
  exists newSite state',
    Storage.addSite newId tCreated tUpdated siteData (Some state)
    = (Some newSite, Some state') /\
    State.sites state' = State.sites state ++ [newSite] /\
    (forall id, SiteData.id siteData = Some id -> Site.id newSite = id) /\
    (forall t, SiteData.createdAt siteData = Some t -> Site.createdAt newSite = t) /\
    (forall t, SiteData.updatedAt siteData = Some t -> Site.updatedAt newSite = t) /\
    (SiteData.id siteData = None -> Site.id newSite = newId) /\
    (forall existing,
        In existing (State.sites state) ->
        SiteData.id siteData = Some (Site.id existing) ->
        ~ NoDup (map Site.id (State.sites state'))).
Proof.
  unfold Storage.addSite. cbn [Storage.getState].
  eexists. eexists. split; [reflexivity|]. cbn.
  split; [reflexivity|].
  repeat split; try (intros x Hx; now rewrite Hx).
  - intros Hx. now rewrite Hx.
  - intros existing Hin Hid Hnodup.
    rewrite Hid, map_app in Hnodup. cbn in Hnodup.
    apply NoDup_remove_2 in Hnodup. apply Hnodup.
    rewrite app_nil_r. now apply in_map.
Qed.

Lemma addSite_keeps_caller_fields_witness :
  exists newSite state',
    Storage.addSite "generated" 100 100
      (SiteData.mk (Some "s1") "Copy" "https://example.org" "" None None 0 "" "" []
                   (Some 7) (Some 8))
      (Some Scenario.streakDocument)
    = (Some newSite, Some state') /\
    Site.id newSite = "s1" /\
    Site.createdAt newSite = 7 /\
    Site.updatedAt newSite = 8 /\
    map Site.id (State.sites state') = ["s1"; "s1"].
Proof.
  destruct (addSite_keeps_caller_fields "generated" 100 100
              (SiteData.mk (Some "s1") "Copy" "https://example.org" "" None None 0 "" "" []
                           (Some 7) (Some 8))
              Scenario.streakDocument)
    as (newSite & state' & Hrun & Hsites & Hid & Hcreated & Hupdated & _).
  exists newSite, state'. split; [exact Hrun|].
  split; [exact (Hid _ eq_refl)|].
  split; [exact (Hcreated _ eq_refl)|].
  split; [exact (Hupdated _ eq_refl)|].
  rewrite Hsites, map_app. cbn. now rewrite (Hid _ eq_refl).
Defined.

(** ** Encryption round trip *)

Section CryptoRoundTrip.

Context {W : Crypto.WebCrypto} {L : Crypto.WebCryptoLaws}.

Lemma binary_of_buffer (buffer : list byte) (acc : list N) :
  fold_left (fun binary b => binary ++ [Crypto.fromCharCode b]) buffer acc
  = acc ++ map Crypto.fromCharCode buffer.
Proof.
  revert acc. induction buffer as [|b buffer IH]; intros acc; cbn.
  - now rewrite app_nil_r.
  - rewrite IH, <- app_assoc. reflexivity.
Qed.

Lemma toUint8_fromCharCode (b : byte) :
  Crypto.toUint8 (Crypto.fromCharCode b) = b.
Proof.
  unfold Crypto.toUint8, Crypto.fromCharCode.
  rewrite N.mod_small by (pose proof (Byte.to_N_bounded b); lia).
  now rewrite Byte.of_to_N.
Qed.

(** The base64 text of a buffer decodes to the buffer. *)
Lemma base64_roundtrip (buffer : list byte) :
  exists base64,
    Crypto.arrayBufferToBase64 buffer = Some base64 /\
    Crypto.base64ToArrayBuffer base64 = Some buffer.
Proof.
  unfold Crypto.arrayBufferToBase64, Crypto.base64ToArrayBuffer.
  rewrite binary_of_buffer. cbn [app].
  destruct (Crypto.btoa_latin1 (map Crypto.fromCharCode buffer)) as (s & Hs).
  - apply Forall_forall. intros c Hc.
    apply in_map_iff in Hc as (b & <- & _).
    unfold Crypto.fromCharCode. pose proof (Byte.to_N_bounded b). lia.
  - exists s. split; [exact Hs|].
    rewrite (Crypto.atob_btoa _ _ Hs), map_map.
    f_equal. rewrite <- (map_id buffer) at 2.
    apply map_ext. exact toUint8_fromCharCode.
Qed.

(** [encrypt] returns: the three buffers it encodes are buffers of
    bytes, on which [btoa] does not throw. *)
Lemma encrypt_returns {A : Type} {J : Crypto.JSON A}
      (salt iv : list byte) (data : A) (password : string) :
  exists salt64 iv64 data64,
    Crypto.encrypt salt iv data password
    = Return (Envelope.mk salt64 iv64 data64 Crypto.algorithm Crypto.iterations) /\
    Crypto.base64ToArrayBuffer salt64 = Some salt /\
    Crypto.base64ToArrayBuffer iv64 = Some iv /\
    Crypto.base64ToArrayBuffer data64
    = Some (Crypto.subtle_encrypt iv (Crypto.deriveKey password salt)
              (Crypto.TextEncoder_encode (Crypto.JSON_stringify data))).
Proof.
  unfold Crypto.encrypt.
  destruct (base64_roundtrip salt) as (salt64 & -> & Hsalt).
  destruct (base64_roundtrip iv) as (iv64 & -> & Hiv).
  destruct (base64_roundtrip
              (Crypto.subtle_encrypt iv (Crypto.deriveKey password salt)
                 (Crypto.TextEncoder_encode (Crypto.JSON_stringify data))))
    as (data64 & -> & Hdata).
  now exists salt64, iv64, data64.
Qed.

Context {A : Type} {J : Crypto.JSON A} {JL : Crypto.JSONLaws A}.

(** C8. On a platform whose primitives keep their contracts (AES-GCM
    decryption inverts encryption under the same key and vector, [atob]
    inverts [btoa], the text decoder inverts the encoder) and for a
    payload that JSON represents, [encrypt] returns an envelope for every
    password, salt and vector, and [decrypt] of that envelope with the
    same password returns the payload. *)
Theorem decrypt_encrypt_roundtrip (salt iv : list byte) (data : A) (password : string) :
  exists envelope,
    Crypto.encrypt salt iv data password = Return envelope /\
    Crypto.decrypt envelope password = Return data.
Proof.
  destruct (encrypt_returns salt iv data password)
    as (salt64 & iv64 & data64 & Henc & Hsalt & Hiv & Hdata).
  eexists. split; [exact Henc|].
  unfold Crypto.decrypt.
  cbn [Envelope.salt Envelope.iv Envelope.data].
  rewrite Hsalt, Hiv, Hdata.
  rewrite Crypto.decrypt_encrypt, Crypto.decode_encode, Crypto.parse_stringify.
  reflexivity.
Qed.

End CryptoRoundTrip.

(** The example platform keeps the contracts. *)
Lemma examplePlatform_laws : @Crypto.WebCryptoLaws ExamplePlatform.webCrypto.
Proof.
  constructor; cbn.
  - exact string_of_list_byte_of_string.
  - intros _ _ data. now rewrite rev_involutive.
  - intros l Hl.
    replace (forallb (fun c => (c <? 256)%N) l) with true; [eauto|].
    symmetry. apply forallb_forall. intros c Hc. apply N.ltb_lt.
    revert c Hc. now apply Forall_forall.
  - intros l s. destruct (forallb _ l) eqn:Hl; [|discriminate].
    intros [= <-]. rewrite list_ascii_of_string_of_list_ascii, map_map.
    f_equal. rewrite <- (map_id l) at 2. apply map_ext_in.
    intros c Hc. apply N_ascii_embedding.
    apply N.ltb_lt. revert c Hc. now apply forallb_forall.
Qed.

Lemma jsonString_laws : @Crypto.JSONLaws string ExamplePlatform.jsonString.
Proof. constructor. reflexivity. Qed.

Lemma decrypt_encrypt_roundtrip_witness :
  exists envelope,
    @Crypto.encrypt ExamplePlatform.webCrypto string ExamplePlatform.jsonString
                    [x01; x02; x03] [x0a; x0b] "{}" "correct horse"
    = Return envelope /\
    @Crypto.decrypt ExamplePlatform.webCrypto string ExamplePlatform.jsonString
                    envelope "correct horse"
    = Return "{}".
Proof.
  apply (@decrypt_encrypt_roundtrip ExamplePlatform.webCrypto examplePlatform_laws
           string ExamplePlatform.jsonString jsonString_laws).
Defined.

(** ** Export *)

(** A call with format 'csv' does not return the plain CSV text whatever
    the encrypt flag and the password: with [encrypt] set and a password,
    it returns the text of an envelope and no CSV. *)
Lemma exportData_csv_with_password_not_csv :
  let now := Clock.utc 2025 6 2 10 0 0 in
  let call :=
    @Storage.exportData ExamplePlatform.webCrypto ExamplePlatform.jsonExport
                        now [x01] [x02] "csv" true true (Some "pw")
                        (Some Scenario.streakDocument) in
  (exists envelope, call = Return (Some (Storage.EnvelopeText envelope))) /\
  call <> Return (Some (Storage.CsvText
                          (Storage.convertToCSV
                             (Storage.exportObject now true Scenario.streakDocument)))).
Proof.
  cbv zeta. split.
  - eexists. vm_compute. reflexivity.
  - vm_compute. discriminate.
Qed.

Section ExportAmended.

Context {W : Crypto.WebCrypto} {L : Crypto.WebCryptoLaws}.
Context {J : Crypto.JSON Storage.ExportDoc}.

(** C7, amended. With [encrypt] set and a password that is neither
    missing nor empty, [exportData] returns the text of the envelope of
    the export object, whatever the format, 'csv' included; with
    [encrypt] not set, or no such password, format 'json' returns the
    plain JSON text and format 'csv' the plain CSV text. *)
Theorem exportData_encrypts_before_format
        (now : Z) (salt iv : list byte) (format : string)
        (includeHistory encrypt : bool) (password : option string)
        (state : State.t) :
  let data := Storage.exportObject now includeHistory state in
  let call :=
    Storage.exportData now salt iv format includeHistory encrypt password
                       (Some state) in
  (encrypt = true -> Storage.truthy password = true ->
   exists envelope,
     Crypto.encrypt salt iv data (orElse password "") = Return envelope /\
     call = Return (Some (Storage.EnvelopeText envelope))) /\
  (encrypt = false \/ Storage.truthy password = false ->
   (format = "json" -> call = Return (Some (Storage.JsonText data))) /\
   (format = "csv" ->
    call = Return (Some (Storage.CsvText (Storage.convertToCSV data))))).
Proof.
  cbv zeta. unfold Storage.exportData. cbn [Storage.getState]. split.
  - intros -> ->. cbn [andb].
    destruct (encrypt_returns salt iv
                (Storage.exportObject now includeHistory state)
                (orElse password ""))
      as (salt64 & iv64 & data64 & Henc & _).
    eexists. split; [exact Henc|]. now rewrite Henc.
  - intros Hplain.
    replace (encrypt && Storage.truthy password) with false
      by (destruct Hplain as [-> | ->]; [reflexivity | now destruct encrypt]).
    split; intros ->; reflexivity.
Qed.

End ExportAmended.

Lemma exportData_encrypts_before_format_witness :
  let now := Clock.utc 2025 6 2 10 0 0 in
  let export :=
    @Storage.exportData ExamplePlatform.webCrypto ExamplePlatform.jsonExport
                        now [x01] [x02] in
  let data := Storage.exportObject now true Scenario.streakDocument in
  (exists envelope,
      export "csv" true true (Some "pw") (Some Scenario.streakDocument)
      = Return (Some (Storage.EnvelopeText envelope))) /\
  export "csv" true true None (Some Scenario.streakDocument)
  = Return (Some (Storage.CsvText (Storage.convertToCSV data))) /\
  export "json" true true (Some "") (Some Scenario.streakDocument)
  = Return (Some (Storage.JsonText data)).
Proof.
  intros now export data.
  pose proof (@exportData_encrypts_before_format
                ExamplePlatform.webCrypto examplePlatform_laws ExamplePlatform.jsonExport
                now [x01] [x02]) as H.
  split; [|split].
  - destruct (proj1 (H "csv" true true (Some "pw") Scenario.streakDocument)
                    eq_refl eq_refl) as (envelope & _ & Hcall).
    exists envelope. exact Hcall.
  - apply (proj2 (H "csv" true true None Scenario.streakDocument)
                 (or_intror eq_refl)).
    reflexivity.
  - apply (proj1 (proj2 (H "json" true true (Some "") Scenario.streakDocument)
                        (or_intror eq_refl))).
    reflexivity.
Defined.

(** ** The status filter *)

(** Under the status filter alone, a site is listed as done exactly when
    some credential of it is checked in today. *)
Lemma status_done_iff_some_checked (now : Z) (state : State.t) (site : Site.t) :
  In site (StateManager.getFilteredSites now
             (StateManager.mkFilters "" "done" None []) (Some state))
  <-> In site (State.sites state) /\
      existsb (StateManager.checkedToday now) (Site.credentials site) = true.
Proof.
  unfold StateManager.getFilteredSites. cbn.
  apply filter_In.
Qed.


(** C3. The status filter on a site of which one credential is checked in
    today and one is not: not every credential is checked in today, yet
    the filter lists the site under 'done' and not under 'pending'; the
    sites service gives the same site the status 'partial' and does not
    count it complete. *)
Theorem status_filter_done_on_partial_site :
  let now := Clock.utc 2025 6 2 9 0 0 in
  let site := Scenario.partialSite now in
  let state := Scenario.document (Clock.isoDate now) [site] (Analytics.mk 1 0 0 0 1 0 None) in
  forallb (StateManager.checkedToday now) (Site.credentials site) = false /\
  StateManager.getFilteredSites now (StateManager.mkFilters "" "done" None [])
                                (Some state) = [site] /\
  StateManager.getFilteredSites now (StateManager.mkFilters "" "pending" None [])
                                (Some state) = [] /\
  SitesService.getSiteStatus now site = "partial" /\
  SitesService.isSiteCompleteToday now site = false.
Proof.
  repeat split.
Qed.

(** The search, category and tag stages on small inputs. *)
Example search_is_case_insensitive :
  let state :=
    Scenario.document 0
      [ Site.mk "a" "GitHub" "https://github.com" "" (Some "work") (Some ["code"]) 0 "" ""
                [Scenario.credential "c" None] 0 0;
        Site.mk "b" "Bank" "https://bank.example" "" (Some "finance") None 0 "" "" [] 0 0 ]
      (Analytics.mk 0 0 0 0 2 0 None) in
  map Site.id (StateManager.getFilteredSites 0
                 (StateManager.mkFilters "GITHUB" "all" None []) (Some state)) = ["a"] /\
  map Site.id (StateManager.getFilteredSites 0
                 (StateManager.mkFilters "USER@example" "all" None []) (Some state)) = ["a"] /\
  map Site.id (StateManager.getFilteredSites 0
                 (StateManager.mkFilters "" "all" (Some "finance") []) (Some state)) = ["b"] /\
  map Site.id (StateManager.getFilteredSites 0
                 (StateManager.mkFilters "" "all" None ["code"; "x"]) (Some state)) = ["a"] /\
  map Site.id (StateManager.getFilteredSites 0
                 (StateManager.mkFilters "" "pending" None []) (Some state)) = ["a"; "b"].
Proof.
  repeat split.
Qed.

(** ** Migration *)

Section MigrationProperties.

Variable numberOr0 : string -> Z.
Variable urlOrigin : string -> option string.

Hypothesis number_0 : numberOr0 "0" = 0.
Hypothesis number_1 : numberOr0 "1" = 1.
Hypothesis number_2 : numberOr0 "2" = 2.

Let compareVersions := Migration.compareVersions numberOr0.
Let migrate := Migration.migrate numberOr0 urlOrigin.

Lemma split_nonempty (sep : ascii) (s : string) : split sep s <> [].
Proof.
  destruct s as [|c rest]; cbn; [discriminate|].
  destruct (Ascii.eqb c sep); [discriminate|].
  destruct (split sep rest); discriminate.
Qed.

(** Against a version of three components the loop of [compareVersions]
    runs at least once, and its first round settles the comparison unless
    the leading components are equal. *)
Lemma compare_first (v : string) (major : Z) (target : string) :
  map numberOr0 (split "." target) = [major; 0; 0] ->
  let first := nth 0 (map numberOr0 (split "." v)) 0 in
  (first < major -> compareVersions v target = -1) /\
  (first > major -> compareVersions v target = 1) /\
  (compareVersions v target < 0 -> first <= major).
Proof.
  intros Htarget first. unfold compareVersions, Migration.compareVersions.
  rewrite Htarget. fold first.
  destruct (Nat.max (List.length (map numberOr0 (split "." v))) (List.length [major; 0; 0]))
    as [|fuel] eqn:Hfuel; [cbn in Hfuel; lia|].
  cbn [Migration.compareFrom]. fold first. cbn [nth].
  destruct (Z.ltb_spec first major); [repeat split; lia|].
  destruct (Z.gtb_spec first major); repeat split; lia.
Qed.

Lemma targets :
  map numberOr0 (split "." "1.0.0") = [1; 0; 0] /\
  map numberOr0 (split "." "2.0.0") = [2; 0; 0].
Proof. cbn. now rewrite number_0, number_1, number_2. Qed.

(** A version below 1.0.0 is below 2.0.0. *)
Lemma below_1_below_2 (v : string) :
  compareVersions v "1.0.0" < 0 -> compareVersions v "2.0.0" < 0.
Proof.
  intros H1.
  destruct (compare_first v 1 "1.0.0" (proj1 targets)) as (_ & _ & Hle).
  destruct (compare_first v 2 "2.0.0" (proj2 targets)) as (Hlt & _ & _).
  rewrite Hlt; [lia|]. specialize (Hle H1). lia.
Qed.

Lemma compare_2_0_0 :
  compareVersions "2.0.0" "1.0.0" = 1 /\ compareVersions "2.0.0" "2.0.0" = 0.
Proof.
  unfold compareVersions, Migration.compareVersions.
  destruct targets as [-> ->]. split; reflexivity.
Qed.

Lemma compare_current :
  compareVersions Migration.currentVersion "1.0.0" = 1 /\
  compareVersions Migration.currentVersion "2.0.0" = 1.
Proof.
  unfold compareVersions, Migration.compareVersions.
  destruct targets as [-> ->]. cbn.
  rewrite number_0, number_1, number_2. split; reflexivity.
Qed.

(** The run of [migrate] by the two comparisons it makes. *)
Lemma migrate_unfold (now : Z) (data : RawDoc.t) :
  let dataVersion := orString (RawDoc.version data) "0.0.0" in
  migrate now (Some data) =
  Some
    (let d1 :=
       if compareVersions dataVersion "1.0.0" <? 0
       then RawDoc.set_version (Some "1.0.0") (Migration.migrateTo1_0_0 now data)
       else data in
     if compareVersions dataVersion "2.0.0" <? 0
     then RawDoc.set_version (Some "2.0.0")
                             (Migration.migrateTo2_0_0 urlOrigin d1)
     else d1).
Proof. reflexivity. Qed.

(** A document at or above 2.0.0 is returned as it is. *)
Lemma migrate_noop (now : Z) (data : RawDoc.t) :
  0 <= compareVersions (orString (RawDoc.version data) "0.0.0") "2.0.0" ->
  migrate now (Some data) = Some data.
Proof.
  intros H2. rewrite migrate_unfold. cbv zeta.
  destruct (Z.ltb_spec (compareVersions (orString (RawDoc.version data) "0.0.0") "1.0.0") 0)
    as [H1|H1].
  - apply below_1_below_2 in H1. lia.
  - destruct (Z.ltb_spec (compareVersions (orString (RawDoc.version data) "0.0.0") "2.0.0") 0);
      [lia | reflexivity].
Qed.

(** C4. [migrate] is idempotent, whatever the clock reads of the two
    runs: a second run returns the result of the first. A document at the
    current version is returned unchanged, no step applied. The numeric
    reading of version components is any function that reads the
    components of the step versions, "0", "1" and "2", as 0, 1 and 2. *)
Theorem migrate_idempotent :
  (forall (t1 t2 : Z) (data : option RawDoc.t),
      migrate t2 (migrate t1 data) = migrate t1 data) /\
  (forall (t : Z) (data : RawDoc.t),
      RawDoc.version data = Some Migration.currentVersion ->
      migrate t (Some data) = Some data /\
      Migration.needsMigration numberOr0 (Some data) = false).
Proof.
  split.
  - intros t1 t2 [data|]; [|reflexivity].
    set (dataVersion := orString (RawDoc.version data) "0.0.0").
    destruct (Z.ltb_spec (compareVersions dataVersion "2.0.0") 0) as [H2|H2].
    + rewrite (migrate_unfold t1). cbv zeta. fold dataVersion.
      replace (compareVersions dataVersion "2.0.0" <? 0) with true
        by (symmetry; now apply Z.ltb_lt).
      apply migrate_noop. cbn [RawDoc.version RawDoc.set_version orString].
      rewrite (proj2 compare_2_0_0). lia.
    + rewrite (migrate_noop t1 data H2). now apply migrate_noop.
  - intros t data Hversion. split.
    + apply migrate_noop. rewrite Hversion.
      change (orString (Some Migration.currentVersion) "0.0.0")
        with Migration.currentVersion.
      rewrite (proj2 compare_current). lia.
    + unfold Migration.needsMigration. rewrite Hversion. cbn.
      now rewrite number_0, number_1, number_2.
Qed.

End MigrationProperties.

(** Version comparison is numeric by component. *)
Example compareVersions_numeric :
  Migration.compareVersions decimalOr0 "2.10.0" "2.9.0" = 1 /\
  Migration.compareVersions decimalOr0 "1.0" "1.0.0" = 0 /\
  Migration.compareVersions decimalOr0 "0.9.9" "1.0.0" = -1.
Proof. repeat split. Qed.


Lemma migrate_idempotent_witness :
  let migrate := Migration.migrate decimalOr0 Scenario.originOf in
  migrate 86400000 (migrate 0 (Some Scenario.legacyDocument)) = migrate 0 (Some Scenario.legacyDocument) /\
  option_map RawDoc.version (migrate 0 (Some Scenario.legacyDocument)) = Some (Some "2.0.0") /\
  migrate 0 (Some (RawDoc.set_version (Some "2.1.0") Scenario.legacyDocument))
  = Some (RawDoc.set_version (Some "2.1.0") Scenario.legacyDocument).
Proof.
  intros migrate.
  pose proof (migrate_idempotent decimalOr0 Scenario.originOf eq_refl eq_refl eq_refl) as [Hidem Hcur].
  split; [apply Hidem|].
  split; [reflexivity|].
  apply (Hcur 0 (RawDoc.set_version (Some "2.1.0") Scenario.legacyDocument)).
  reflexivity.
Defined.

(** * Further properties of the storage service *)

Lemma modifyFirst_split {A : Type} (p : A -> bool) (f : A -> A) (l : list A) (x : A) :
  find p l = Some x ->
  exists l1 l2,
    l = l1 ++ x :: l2 /\
    modifyFirst p f l = l1 ++ f x :: l2 /\
    forall y, In y l1 -> p y = false.
Proof.
  induction l as [|y r IH]; cbn; intros Hfind; [discriminate|].
  destruct (p y) eqn:Hy.
  - injection Hfind as ->. exists [], r. repeat split. intros y [].
  - destruct (IH Hfind) as (l1 & l2 & -> & Hmod & Hl1).
    exists (y :: l1), l2. cbn. rewrite Hmod. repeat split.
    intros z [<-|Hz]; auto.
Qed.

Lemma removeFirst_split {A : Type} (p : A -> bool) (l : list A) (x : A) :
  find p l = Some x ->
  exists l1 l2,
    l = l1 ++ x :: l2 /\
    removeFirst p l = l1 ++ l2 /\
    forall y, In y l1 -> p y = false.
Proof.
  induction l as [|y r IH]; cbn; intros Hfind; [discriminate|].
  destruct (p y) eqn:Hy.
  - injection Hfind as ->. exists [], r. repeat split. intros y [].
  - destruct (IH Hfind) as (l1 & l2 & -> & Hrem & Hl1).
    exists (y :: l1), l2. cbn. rewrite Hrem. repeat split.
    intros z [<-|Hz]; auto.
Qed.

Lemma find_app_l {A : Type} (p : A -> bool) (l1 l2 : list A) (x : A) :
  find p l1 = Some x -> find p (l1 ++ l2) = Some x.
Proof.
  induction l1 as [|y r IH]; cbn; [discriminate|].
  destruct (p y); auto.
Qed.

Lemma find_app_r {A : Type} (p : A -> bool) (l1 l2 : list A) :
  find p l1 = None -> find p (l1 ++ l2) = find p l2.
Proof.
  induction l1 as [|y r IH]; cbn; [reflexivity|].
  destruct (p y); [discriminate | auto].
Qed.

(** X1. [resetCredential] on a credential it finds returns [true] and
    clears [checkedInOn] of that credential; the credential's history and
    the analytics counters of the document are left as they were. *)
Theorem resetCredential_clears_only_checkedInOn
        (siteId credentialId : string) (state : State.t) (c : Credential.t) :
  Storage.getCredential siteId credentialId (Some state) = Some c ->
  exists state' c',
    Storage.resetCredential siteId credentialId (Some state) = (true, Some state') /\
    Storage.getCredential siteId credentialId (Some state') = Some c' /\
    Credential.checkedInOn c' = None /\
    Credential.checkInHistory c' = Credential.checkInHistory c /\
    State.analytics state' = State.analytics state /\
    State.lastReset state' = State.lastReset state /\
    map Site.id (State.sites state') = map Site.id (State.sites state).
Proof.
  unfold Storage.getCredential, Storage.resetCredential. cbn [Storage.getState].
  intros Hc.
  destruct (find (Storage.hasSiteId siteId) (State.sites state)) as [site|] eqn:Hs;
    [|discriminate].
  rewrite Hc.
  eexists. exists (Credential.set_checkedInOn None c).
  split; [reflexivity|].
  unfold Storage.setState, Storage.mutateCredential.
  cbn [State.sites State.set_sites State.analytics State.lastReset].
  split.
  - erewrite find_modifyFirst; [| exact Hs |].
    + cbn [Site.credentials Site.set_credentials].
      apply find_modifyFirst; [exact Hc|].
      apply find_some in Hc. exact (proj2 Hc).
    + apply find_some in Hs. exact (proj2 Hs).
  - repeat split.
    destruct (modifyFirst_split (Storage.hasSiteId siteId)
                (fun site0 =>
                   Site.set_credentials
                     (modifyFirst (Storage.hasCredentialId credentialId)
                                  (Credential.set_checkedInOn None)
                                  (Site.credentials site0)) site0)
                _ _ Hs) as (l1 & l2 & Hl & -> & _).
    rewrite Hl, !map_app. reflexivity.
Qed.

Lemma resetCredential_clears_only_checkedInOn_witness :
  let state :=
    Scenario.document 0
      [Scenario.site "s1"
         [Credential.mk "c1" "main" "a@b.c" "pw" "" (Some 86400000)
                        (Some [HistoryEntry.mk 86400000 "laptop"]) "unknown" false]]
      (Analytics.mk 1 0 0 0 1 0 (Some 86400000)) in
  exists state' c',
    Storage.resetCredential "s1" "c1" (Some state) = (true, Some state') /\
    Storage.getCredential "s1" "c1" (Some state') = Some c' /\
    Credential.checkedInOn c' = None /\
    Credential.checkInHistory c' = Some [HistoryEntry.mk 86400000 "laptop"] /\
    Analytics.totalCheckIns (State.analytics state') = 1.
Proof.
  intros state.
  destruct (resetCredential_clears_only_checkedInOn "s1" "c1" state _ eq_refl)
    as (state' & c' & Hrun & Hget & Hnull & Hhist & Ha & _).
  exists state', c'. rewrite Ha. repeat split; assumption.
Defined.

(** X2. [resetAllCredentials] clears [checkedInOn] of every credential of
    every site and sets [lastReset] to the date of its clock read; the
    histories of the credentials, the identifiers and the analytics
    counters are left as they were. *)
Theorem resetAllCredentials_keeps_history (now : Z) (state : State.t) :
  exists state',
    Storage.resetAllCredentials now (Some state) = (true, Some state') /\
    (forall site c,
        In site (State.sites state') -> In c (Site.credentials site) ->
        Credential.checkedInOn c = None) /\
    map (fun site => map Credential.checkInHistory (Site.credentials site))
        (State.sites state')
    = map (fun site => map Credential.checkInHistory (Site.credentials site))
          (State.sites state) /\
    map (fun site => (Site.id site, map Credential.id (Site.credentials site)))
        (State.sites state')
    = map (fun site => (Site.id site, map Credential.id (Site.credentials site)))
          (State.sites state) /\
    State.analytics state' = State.analytics state /\
    State.lastReset state' = Clock.isoDate now.
Proof.
  eexists. split; [reflexivity|]. cbn.
  split; [intros site c; apply resetAll_credentials_null|].
  rewrite !map_map. cbn.
  split; [|split; [|split; reflexivity]].
  - apply map_ext. intros site. now rewrite map_map.
  - apply map_ext. intros site. now rewrite map_map.
Qed.

Lemma resetAllCredentials_keeps_history_witness :
  exists state',
    Storage.resetAllCredentials 5 (Some Scenario.streakDocument) = (true, Some state') /\
    (forall site c,
        In site (State.sites state') -> In c (Site.credentials site) ->
        Credential.checkedInOn c = None).
Proof.
  destruct (resetAllCredentials_keeps_history 5 Scenario.streakDocument)
    as (state' & Hrun & Hnull & _).
  exists state'. split; assumption.
Defined.

(** X3. [deleteSite] removes the first site with the identifier and no
    other: the list is the former one without that element, and
    [sitesArchived] is one higher; when no site has the identifier it
    returns [false] and writes nothing. *)
Theorem deleteSite_removes_first_match (id : string) (state : State.t) :
  (forall site,
      find (Storage.hasSiteId id) (State.sites state) = Some site ->
      exists state' before after,
        Storage.deleteSite id (Some state) = (true, Some state') /\
        State.sites state = before ++ site :: after /\
        State.sites state' = before ++ after /\
        (forall s, In s before -> Site.id s <> id) /\
        Analytics.sitesArchived (State.analytics state')
        = Analytics.sitesArchived (State.analytics state) + 1) /\
  (find (Storage.hasSiteId id) (State.sites state) = None ->
   Storage.deleteSite id (Some state) = (false, Some state)).
Proof.
  unfold Storage.deleteSite. cbn [Storage.getState]. split.
  - intros site Hs. rewrite Hs.
    destruct (removeFirst_split _ _ _ Hs) as (l1 & l2 & Hl & Hrem & Hl1).
    eexists. exists l1, l2. split; [reflexivity|]. cbn.
    repeat split; auto.
    intros s Hin. specialize (Hl1 s Hin).
    unfold Storage.hasSiteId in Hl1. now apply String.eqb_neq.
  - now intros ->.
Qed.

Lemma deleteSite_removes_first_match_witness :
  let state :=
    Scenario.document 0
      [Scenario.site "a" []; Scenario.site "b" [Scenario.credential "c" None];
       Scenario.site "b" []]
      (Analytics.mk 0 0 0 0 3 0 None) in
  (exists state',
      Storage.deleteSite "b" (Some state) = (true, Some state') /\
      State.sites state' = [Scenario.site "a" []; Scenario.site "b" []]) /\
  Storage.deleteSite "z" (Some state) = (false, Some state).
Proof.
  intros state. split.
  - destruct (proj1 (deleteSite_removes_first_match "b" state) _ eq_refl)
      as (state' & before & after & Hrun & _).
    exists state'. split; [exact Hrun|].
    vm_compute in Hrun. injection Hrun as <-. reflexivity.
  - apply (proj2 (deleteSite_removes_first_match "z" state)). reflexivity.
Defined.

(** X4. Lookup after insertion: [getSite] of an identifier that found a
    site before [addSite] finds the same site after it, and [getSite] of
    the new site's identifier finds the new site when no site had that
    identifier; a site added under an identifier already in use is never
    found by [getSite]. *)
Theorem getSite_after_addSite
        (newId : string) (tCreated tUpdated : Z) (siteData : SiteData.t)
        (state : State.t) :
  exists newSite state',
    Storage.addSite newId tCreated tUpdated siteData (Some state)
    = (Some newSite, Some state') /\
    (forall id site,
        Storage.getSite id (Some state) = Some site ->
        Storage.getSite id (Some state') = Some site) /\
    (Storage.getSite (Site.id newSite) (Some state) = None ->
     Storage.getSite (Site.id newSite) (Some state') = Some newSite).
Proof.
  unfold Storage.addSite, Storage.getSite, Storage.getSites. cbn [Storage.getState].
  eexists. eexists. split; [reflexivity|]. cbn [State.sites State.set_sites State.set_analytics].
  split.
  - intros id site. apply find_app_l.
  - intros Hnone. rewrite find_app_r by exact Hnone.
    cbn. unfold Storage.hasSiteId. cbn. now rewrite String.eqb_refl.
Qed.

Lemma getSite_after_addSite_witness :
  let fresh := SiteData.mk None "New" "https://new.example" "" None None 0 "" "" [] None None in
  let clash := SiteData.mk (Some "s1") "New" "https://new.example" "" None None 0 "" "" []
                           None None in
  (exists newSite state',
      Storage.addSite "n1" 1 1 fresh (Some Scenario.streakDocument)
      = (Some newSite, Some state') /\
      Storage.getSite "n1" (Some state') = Some newSite) /\
  (exists newSite state',
      Storage.addSite "n1" 1 1 clash (Some Scenario.streakDocument)
      = (Some newSite, Some state') /\
      Site.name newSite = "New" /\
      option_map Site.name (Storage.getSite "s1" (Some state')) = Some "Example").
Proof.
  intros fresh clash. split.
  - destruct (getSite_after_addSite "n1" 1 1 fresh Scenario.streakDocument)
      as (newSite & state' & Hrun & _ & Hnew).
    exists newSite, state'. split; [exact Hrun|].
    vm_compute in Hrun. injection Hrun as <- <-.
    exact (Hnew eq_refl).
  - destruct (getSite_after_addSite "n1" 1 1 clash Scenario.streakDocument)
      as (newSite & state' & Hrun & Hold & _).
    exists newSite, state'. split; [exact Hrun|].
    rewrite (Hold "s1" _ eq_refl).
    vm_compute in Hrun. injection Hrun as <- <-.
    split; reflexivity.
Defined.

(** X5. [updateSite] on an identifier it finds changes the first site with
    that identifier and no other and keeps the place of every site. Each
    property of the site becomes the one [updates] holds, or stays as it
    was when [updates] has none, but [updatedAt], which is the clock read
    whatever [updates] holds; the rest of the document is kept. When no
    site has the identifier it returns [false] and writes nothing. *)
Theorem updateSite_changes_first_match
        (now : Z) (id : string) (updates : SiteUpdates.t) (state : State.t) :
  (forall site,
      find (Storage.hasSiteId id) (State.sites state) = Some site ->
      exists state' before after updated,
        Storage.updateSite now id updates (Some state) = (true, Some state') /\
        State.sites state = before ++ site :: after /\
        State.sites state' = before ++ updated :: after /\
        (forall s, In s before -> Site.id s <> id) /\
        Site.updatedAt updated = now /\
        Site.id updated = orElse (SiteUpdates.id updates) (Site.id site) /\
        Site.name updated = orElse (SiteUpdates.name updates) (Site.name site) /\
        Site.url updated = orElse (SiteUpdates.url updates) (Site.url site) /\
        Site.favicon updated = orElse (SiteUpdates.favicon updates) (Site.favicon site) /\
        Site.category updated
          = orElse (SiteUpdates.category updates) (Site.category site) /\
        Site.tags updated = orElse (SiteUpdates.tags updates) (Site.tags site) /\
        Site.priority updated
          = orElse (SiteUpdates.priority updates) (Site.priority site) /\
        Site.color updated = orElse (SiteUpdates.color updates) (Site.color site) /\
        Site.notes updated = orElse (SiteUpdates.notes updates) (Site.notes site) /\
        Site.credentials updated
          = orElse (SiteUpdates.credentials updates) (Site.credentials site) /\
        Site.createdAt updated
          = orElse (SiteUpdates.createdAt updates) (Site.createdAt site) /\
        State.version state' = State.version state /\
        State.lastReset state' = State.lastReset state /\
        State.settings state' = State.settings state /\
        State.categories state' = State.categories state /\
        State.analytics state' = State.analytics state) /\
  (find (Storage.hasSiteId id) (State.sites state) = None ->
   Storage.updateSite now id updates (Some state) = (false, Some state)).
Proof.
  unfold Storage.updateSite. cbn [Storage.getState]. split.
  - intros site Hs. rewrite Hs.
    destruct (modifyFirst_split _ (Storage.applyUpdates now updates) _ _ Hs)
      as (l1 & l2 & Hl & Hmod & Hl1).
    eexists. exists l1, l2, (Storage.applyUpdates now updates site).
    split; [reflexivity|]. cbn.
    repeat split; auto.
    intros s Hin. specialize (Hl1 s Hin).
    unfold Storage.hasSiteId in Hl1. now apply String.eqb_neq.
  - now intros ->.
Qed.

Lemma updateSite_changes_first_match_witness :
  let rename := SiteUpdates.mk None (Some "Renamed") None None None None None None None None None in
  (exists state',
      Storage.updateSite 77 "s1" rename (Some Scenario.streakDocument) = (true, Some state') /\
      map (fun s => (Site.name s, Site.updatedAt s, List.length (Site.credentials s)))
          (State.sites state') = [("Renamed", 77, 1%nat)]) /\
  Storage.updateSite 77 "zz" rename (Some Scenario.streakDocument)
  = (false, Some Scenario.streakDocument).
Proof.
  intros rename. split.
  - destruct (proj1 (updateSite_changes_first_match 77 "s1" rename Scenario.streakDocument)
                    _ eq_refl)
      as (state' & before & after & updated & Hrun & _).
    exists state'. split; [exact Hrun|].
    vm_compute in Hrun. injection Hrun as <-. reflexivity.
  - apply (proj2 (updateSite_changes_first_match 77 "zz" rename Scenario.streakDocument)).
    reflexivity.
Defined.

(** X6. [importData] merges: with an array under [sites] the stored sites
    become the former ones followed by the imported ones, without regard to
    identifiers already present, so that importing the same data twice
    stores its sites twice; [categories] are replaced only when the data
    carries them; version, date of last reset, settings and analytics are
    kept. Data that did not parse, data without an array under [sites] and
    an empty store give [false] and write nothing. *)
Theorem importData_appends (data : ImportDoc.t) (state : State.t) :
  (forall imported,
      ImportDoc.sites data = Some imported ->
      exists state',
        Storage.importData (Some data) (Some state) = (true, Some state') /\
        State.sites state' = State.sites state ++ imported /\
        State.categories state'
        = orElse (ImportDoc.categories data) (State.categories state) /\
        State.analytics state' = State.analytics state /\
        State.settings state' = State.settings state /\
        State.version state' = State.version state /\
        State.lastReset state' = State.lastReset state /\
        exists state'',
          Storage.importData (Some data) (Some state') = (true, Some state'') /\
          State.sites state'' = State.sites state ++ imported ++ imported) /\
  (ImportDoc.sites data = None ->
   Storage.importData (Some data) (Some state) = (false, Some state)) /\
  Storage.importData None (Some state) = (false, Some state) /\
  Storage.importData (Some data) None = (false, None).
Proof.
  unfold Storage.importData. cbn [Storage.getState].
  split; [|split; [|split]].
  - intros imported ->. eexists. split; [reflexivity|]. cbn.
    repeat split. eexists. split; [reflexivity|]. cbn.
    now rewrite app_assoc.
  - now intros ->.
  - reflexivity.
  - now destruct (ImportDoc.sites data).
Qed.

Lemma importData_appends_witness :
  let data := ImportDoc.mk (Some [Scenario.site "s2" []]) None in
  exists state' state'',
    Storage.importData (Some data) (Some Scenario.streakDocument) = (true, Some state') /\
    map Site.id (State.sites state') = ["s1"; "s2"] /\
    Storage.importData (Some data) (Some state') = (true, Some state'') /\
    map Site.id (State.sites state'') = ["s1"; "s2"; "s2"].
Proof.
  intros data.
  destruct (proj1 (importData_appends data Scenario.streakDocument) _ eq_refl)
    as (state' & Hrun & Hsites & _ & _ & _ & _ & _ & state'' & Hrun2 & Hsites2).
  exists state', state''.
  rewrite Hsites, Hsites2. repeat split; assumption.
Defined.

(** X7. The object that [exportData] serializes carries the current version
    of the application, whatever version the stored document has, and the
    sites of the document in their order; without [includeHistory] every
    credential of it has an empty history and is otherwise the stored
    credential. *)
Theorem exportObject_strips_history
        (now : Z) (includeHistory : bool) (state : State.t) :
  let data := Storage.exportObject now includeHistory state in
  State.version (Storage.exportState data) = CONFIG.app_version /\
  Storage.exportedAt data = now /\
  (includeHistory = true ->
   State.sites (Storage.exportState data) = State.sites state) /\
  (includeHistory = false ->
   State.sites (Storage.exportState data)
   = map (fun site =>
            Site.set_credentials
              (map (Credential.set_checkInHistory (Some [])) (Site.credentials site))
              site)
         (State.sites state) /\
   forall site c,
     In site (State.sites (Storage.exportState data)) ->
     In c (Site.credentials site) ->
     Credential.checkInHistory c = Some []) /\
  map (fun site => (Site.id site, map Credential.id (Site.credentials site)))
      (State.sites (Storage.exportState data))
  = map (fun site => (Site.id site, map Credential.id (Site.credentials site)))
        (State.sites state).
Proof.
  cbv zeta. unfold Storage.exportObject.
  destruct includeHistory; cbn.
  - repeat split; intros; discriminate.
  - repeat split; try (intros; discriminate).
    + intros site c Hsite Hc.
      apply in_map_iff in Hsite as (site0 & <- & _).
      cbn in Hc. apply in_map_iff in Hc as (c0 & <- & _). reflexivity.
    + rewrite map_map. apply map_ext. intros site. cbn. now rewrite map_map.
Qed.

Lemma exportObject_strips_history_witness :
  let state :=
    Scenario.document 0
      [Scenario.site "s1"
         [Credential.mk "c1" "main" "a@b.c" "pw" "" None
                        (Some [HistoryEntry.mk 5 "laptop"]) "unknown" false]]
      (Analytics.mk 1 0 0 0 1 0 (Some 5)) in
  State.sites (Storage.exportState (Storage.exportObject 9 true state)) = State.sites state /\
  forall site c,
    In site (State.sites (Storage.exportState (Storage.exportObject 9 false state))) ->
    In c (Site.credentials site) ->
    Credential.checkInHistory c = Some [].
Proof.
  intros state. split.
  - apply (proj1 (proj2 (proj2 (exportObject_strips_history 9 true state)))). reflexivity.
  - apply (proj1 (proj2 (proj2 (proj2 (exportObject_strips_history 9 false state))))).
    reflexivity.
Defined.

(** X9. A category added without an [order] of its own gets the number of
    categories before it as its order and goes to the end of the list:
    where every category stands at the index its [order] names, as in the
    default document, this still holds after the addition. *)
Theorem addCategory_order_is_index
        (newId : string) (categoryData : CategoryData.t) (state : State.t) :
  CategoryData.order categoryData = None ->
  exists category state',
    Storage.addCategory newId categoryData (Some state) = (Some category, Some state') /\
    State.categories state' = State.categories state ++ [category] /\
    Category.order category = Z.of_nat (List.length (State.categories state)) /\
    (map Category.order (State.categories state)
     = map Z.of_nat (seq 0 (List.length (State.categories state))) ->
     map Category.order (State.categories state')
     = map Z.of_nat (seq 0 (List.length (State.categories state')))).
Proof.
  intros Horder. unfold Storage.addCategory. cbn [Storage.getState].
  eexists. eexists. split; [reflexivity|]. cbn. rewrite Horder. cbn.
  repeat split.
  intros Hidx. rewrite length_app, Nat.add_comm. cbn [List.length Nat.add].
  rewrite seq_S, !map_app, Hidx. reflexivity.
Qed.

Lemma addCategory_order_is_index_witness :
  let data := CategoryData.mk None "Travel" "#000000" "plane" None in
  exists category state',
    Storage.addCategory "k7" data (Storage.bootstrap 0 (fun _ => "k")) 
    = (Some category, Some state') /\
    Category.order category = 6 /\
    map Category.order (State.categories state') = [0; 1; 2; 3; 4; 5; 6].
Proof.
  intros data.
  destruct (addCategory_order_is_index "k7" data
              (fst (Storage.initializeDefaultState 0 (fun _ => "k") None)) eq_refl)
    as (category & state' & Hrun & _ & Horder & Hidx).
  exists category, state'. split; [exact Hrun|]. split; [exact Horder|].
  rewrite (Hidx eq_refl).
  vm_compute in Hrun. injection Hrun as <- <-. reflexivity.
Defined.

(** ** Generated identifiers *)

Lemma toString16_nibble (v : N) :
  (v < 16)%N -> JS.toString16 v = String (JS.hexDigit v) EmptyString.
Proof.
  intros Hv.
  assert (H : (v = 0 \/ v = 1 \/ v = 2 \/ v = 3 \/ v = 4 \/ v = 5 \/ v = 6 \/ v = 7 \/
               v = 8 \/ v = 9 \/ v = 10 \/ v = 11 \/ v = 12 \/ v = 13 \/ v = 14 \/
               v = 15)%N) by lia.
  repeat (destruct H as [-> | H]; [reflexivity|]). now subst.
Qed.

Lemma variant_nibble (r : N) :
  (r < 16)%N ->
  (N.lor (N.land r 3) 8 < 16)%N /\
  In (JS.hexDigit (N.lor (N.land r 3) 8)) ["8"; "9"; "a"; "b"]%char.
Proof.
  intros Hr.
  assert (H : (r = 0 \/ r = 1 \/ r = 2 \/ r = 3 \/ r = 4 \/ r = 5 \/ r = 6 \/ r = 7 \/
               r = 8 \/ r = 9 \/ r = 10 \/ r = 11 \/ r = 12 \/ r = 13 \/ r = 14 \/
               r = 15)%N) by lia.
  repeat (destruct H as [-> | H]; [split; [reflexivity | cbn; tauto]|]).
  subst. split; [reflexivity | cbn; tauto].
Qed.

(** X10. Whatever the random draws (each at most 15, as [Math.random() * 16 | 0]
    is), a generated identifier has 36 characters, hyphens at the positions
    8, 13, 18 and 23, the version digit 4 at position 14 and one of 8, 9, a,
    b at position 19. *)
Theorem generateId_shape (draws : nat -> N) :
  (forall k, (draws k < 16)%N) ->
  let id := Storage.generateId draws in
  String.length id = 36%nat /\
  String.get 8 id = Some "-"%char /\
  String.get 13 id = Some "-"%char /\
  String.get 18 id = Some "-"%char /\
  String.get 23 id = Some "-"%char /\
  String.get 14 id = Some "4"%char /\
  (exists c, String.get 19 id = Some c /\ In c ["8"; "9"; "a"; "b"]%char) /\
  Shared.generateUUID draws = id.
Proof.
  intros Hdraws. cbv zeta.
  destruct (variant_nibble (draws 15%nat) (Hdraws _)) as [Hv Hin].
  unfold Storage.generateId, Shared.generateUUID.
  cbn -[JS.toString16 N.lor N.land].
  rewrite !toString16_nibble by (exact Hv || apply Hdraws).
  cbn -[JS.hexDigit N.lor N.land In].
  repeat split.
  eexists. split; [reflexivity | exact Hin].
Qed.

Lemma generateId_shape_witness :
  let id := Storage.generateId (fun k => N.of_nat (k mod 16)) in
  String.length id = 36%nat /\ String.get 14 id = Some "4"%char.
Proof.
  destruct (generateId_shape (fun k => N.of_nat (k mod 16))) as (Hlen & _ & _ & _ & _ & H4 & _).
  - intros k. pose proof (Nat.mod_upper_bound k 16). lia.
  - split; assumption.
Defined.

(** * Further properties of the crypto service *)

Lemma taggedCrypto_laws : @Crypto.WebCryptoLaws ExamplePlatform.taggedCrypto.
Proof.
  constructor; cbn.
  - exact string_of_list_byte_of_string.
  - intros _ key data.
    assert (Hlen : (List.length (rev data ++ key) - List.length key
                    = List.length (rev data))%nat)
      by (rewrite length_app; lia).
    unfold ExamplePlatform.endsWith. rewrite Hlen.
    rewrite skipn_app, skipn_all, Nat.sub_diag, firstn_app, firstn_all, Nat.sub_diag.
    cbn [skipn firstn app]. rewrite app_nil_r, rev_involutive.
    destruct (list_eq_dec Byte.byte_eq_dec key key) as [_|Hne]; [|congruence].
    replace (List.length key <=? List.length (rev data ++ key))%nat with true;
      [reflexivity|].
    symmetry. apply Nat.leb_le. rewrite length_app. lia.
  - intros l Hl.
    replace (forallb (fun c => (c <? 256)%N) l) with true; [eauto|].
    symmetry. apply forallb_forall. intros c Hc. apply N.ltb_lt.
    revert c Hc. now apply Forall_forall.
  - intros l s. destruct (forallb _ l) eqn:Hl; [|discriminate].
    intros [= <-]. rewrite list_ascii_of_string_of_list_ascii, map_map.
    f_equal. rewrite <- (map_id l) at 2. apply map_ext_in.
    intros c Hc. apply N_ascii_embedding.
    apply N.ltb_lt. revert c Hc. now apply forallb_forall.
Qed.

Lemma jsonField_laws : @Crypto.JSONLaws Crypto.FieldPayload.t ExamplePlatform.jsonField.
Proof. constructor. now intros [value]. Qed.

Section CryptoFurther.

Context {W : Crypto.WebCrypto}.

(** X11. What [decrypt] does with an envelope it cannot open. It returns
    a payload exactly when the three fields of the envelope are base64
    text, AES-GCM accepts the ciphertext under the key derived from the
    password and the envelope's salt, and the plaintext parses as JSON,
    and then the payload is the parsed value. When a field is not base64
    text, when AES-GCM rejects the ciphertext, or when the plaintext is
    not JSON, it throws, always with the same message; [decryptField] on
    such an envelope, and on no envelope, returns the empty string. *)
Theorem decrypt_failure_is_reported
        {A : Type} {J : Crypto.JSON A} {JF : Crypto.JSON Crypto.FieldPayload.t}
        (envelope : Envelope.t) (password : string) :
  let failure :=
    @Throw A "Failed to decrypt data - incorrect password or corrupted data" in
  ((exists payload, @Crypto.decrypt W A J envelope password = Return payload) \/
   @Crypto.decrypt W A J envelope password = failure) /\
  (forall payload,
      @Crypto.decrypt W A J envelope password = Return payload <->
      exists salt iv data plain,
        Crypto.base64ToArrayBuffer (Envelope.salt envelope) = Some salt /\
        Crypto.base64ToArrayBuffer (Envelope.iv envelope) = Some iv /\
        Crypto.base64ToArrayBuffer (Envelope.data envelope) = Some data /\
        Crypto.subtle_decrypt iv (Crypto.deriveKey password salt) data = Some plain /\
        @Crypto.JSON_parse A J (Crypto.TextDecoder_decode plain) = Some payload) /\
  (Crypto.base64ToArrayBuffer (Envelope.salt envelope) = None \/
   Crypto.base64ToArrayBuffer (Envelope.iv envelope) = None \/
   Crypto.base64ToArrayBuffer (Envelope.data envelope) = None ->
   @Crypto.decrypt W A J envelope password = failure /\
   @Crypto.decryptField W JF (Some envelope) password = "") /\
  (forall salt iv data,
      Crypto.base64ToArrayBuffer (Envelope.salt envelope) = Some salt ->
      Crypto.base64ToArrayBuffer (Envelope.iv envelope) = Some iv ->
      Crypto.base64ToArrayBuffer (Envelope.data envelope) = Some data ->
      Crypto.subtle_decrypt iv (Crypto.deriveKey password salt) data = None ->
      @Crypto.decrypt W A J envelope password = failure /\
      @Crypto.decryptField W JF (Some envelope) password = "") /\
  (forall salt iv data plain,
      Crypto.base64ToArrayBuffer (Envelope.salt envelope) = Some salt ->
      Crypto.base64ToArrayBuffer (Envelope.iv envelope) = Some iv ->
      Crypto.base64ToArrayBuffer (Envelope.data envelope) = Some data ->
      Crypto.subtle_decrypt iv (Crypto.deriveKey password salt) data = Some plain ->
      (@Crypto.JSON_parse A J (Crypto.TextDecoder_decode plain) = None ->
       @Crypto.decrypt W A J envelope password = failure) /\
      (@Crypto.JSON_parse Crypto.FieldPayload.t JF (Crypto.TextDecoder_decode plain)
       = None ->
       @Crypto.decryptField W JF (Some envelope) password = "")) /\
  @Crypto.decryptField W JF None password = "".
Proof.
  cbv zeta. unfold Crypto.decryptField, Crypto.decrypt.
  split; [|split; [|split; [|split; [|split; [|reflexivity]]]]].
  - destruct (Crypto.base64ToArrayBuffer (Envelope.salt envelope)) as [salt|]; [|now right].
    destruct (Crypto.base64ToArrayBuffer (Envelope.iv envelope)) as [iv|]; [|now right].
    destruct (Crypto.base64ToArrayBuffer (Envelope.data envelope)) as [data|]; [|now right].
    destruct (Crypto.subtle_decrypt iv _ data) as [plain|]; [|now right].
    destruct (Crypto.JSON_parse _) as [payload|]; [left; eexists; reflexivity | now right].
  - intros payload. split.
    + destruct (Crypto.base64ToArrayBuffer (Envelope.salt envelope)) as [salt|];
        [|discriminate].
      destruct (Crypto.base64ToArrayBuffer (Envelope.iv envelope)) as [iv|];
        [|discriminate].
      destruct (Crypto.base64ToArrayBuffer (Envelope.data envelope)) as [data|];
        [|discriminate].
      destruct (Crypto.subtle_decrypt iv _ data) as [plain|] eqn:Hplain;
        [|discriminate].
      destruct (Crypto.JSON_parse _) as [value|] eqn:Hparse; [|discriminate].
      intros [= <-]. exists salt, iv, data, plain. auto.
    + intros (salt & iv & data & plain & -> & -> & -> & -> & ->). reflexivity.
  - intros [-> | [-> | ->]]; [split; reflexivity | |].
    + now destruct (Crypto.base64ToArrayBuffer (Envelope.salt envelope)).
    + destruct (Crypto.base64ToArrayBuffer (Envelope.salt envelope)); [|split; reflexivity].
      now destruct (Crypto.base64ToArrayBuffer (Envelope.iv envelope)).
  - intros salt iv data -> -> -> ->. split; reflexivity.
  - intros salt iv data plain -> -> -> ->. split; intros ->; reflexivity.
Qed.

Context {L : Crypto.WebCryptoLaws}.

Context {JF : Crypto.JSON Crypto.FieldPayload.t}.
Context {JFL : Crypto.JSONLaws Crypto.FieldPayload.t}.

(** X12. Field round trip: [encryptField] returns for every value, the
    empty string for the empty value and an envelope otherwise, and
    [decryptField] of its result with the same password is the value. *)
Theorem decryptField_encryptField (salt iv : list byte) (value password : string) :
  exists encrypted,
    Crypto.encryptField salt iv value password = Return encrypted /\
    (encrypted = None <-> value = "") /\
    Crypto.decryptField encrypted password = value.
Proof.
  unfold Crypto.encryptField, Crypto.decryptField.
  destruct value as [|c rest].
  - exists None. repeat split; auto.
  - destruct (encrypt_returns salt iv (Crypto.FieldPayload.mk (String c rest)) password)
      as (salt64 & iv64 & data64 & Henc & Hsalt & Hiv & Hdata).
    rewrite Henc. eexists. split; [reflexivity|].
    split; [split; discriminate|].
    unfold Crypto.decrypt. cbn [Envelope.salt Envelope.iv Envelope.data].
    rewrite Hsalt, Hiv, Hdata.
    rewrite Crypto.decrypt_encrypt, Crypto.decode_encode, Crypto.parse_stringify.
    reflexivity.
Qed.

End CryptoFurther.

Lemma decrypt_failure_is_reported_witness :
  let envelope := Envelope.mk "salt" "iv" "tampered" "AES-GCM" 100000 in
  @Crypto.decrypt ExamplePlatform.taggedCrypto string ExamplePlatform.jsonString
                  envelope "pw"
  = Throw "Failed to decrypt data - incorrect password or corrupted data" /\
  @Crypto.decryptField ExamplePlatform.taggedCrypto ExamplePlatform.jsonField
                       (Some envelope) "pw" = "".
Proof.
  intros envelope.
  destruct (@decrypt_failure_is_reported ExamplePlatform.taggedCrypto
              string ExamplePlatform.jsonString ExamplePlatform.jsonField
              envelope "pw") as (_ & _ & _ & Hrejected & _).
  apply (Hrejected (list_byte_of_string "salt") (list_byte_of_string "iv")
                   (list_byte_of_string "tampered"));
    vm_compute; reflexivity.
Defined.

Lemma decryptField_encryptField_witness :
  (exists encrypted,
      @Crypto.encryptField ExamplePlatform.taggedCrypto ExamplePlatform.jsonField
                           [x01] [x02] "user@example.com" "pw" = Return encrypted /\
      @Crypto.decryptField ExamplePlatform.taggedCrypto ExamplePlatform.jsonField
                           encrypted "pw" = "user@example.com") /\
  @Crypto.encryptField ExamplePlatform.taggedCrypto ExamplePlatform.jsonField
                       [x01] [x02] "" "pw" = Return None.
Proof.
  split.
  - destruct (@decryptField_encryptField ExamplePlatform.taggedCrypto taggedCrypto_laws
                ExamplePlatform.jsonField jsonField_laws [x01] [x02]
                "user@example.com" "pw") as (encrypted & Henc & _ & Hdec).
    exists encrypted. split; assumption.
  - destruct (@decryptField_encryptField ExamplePlatform.taggedCrypto taggedCrypto_laws
                ExamplePlatform.jsonField jsonField_laws [x01] [x02] "" "pw")
      as (encrypted & Henc & Hiff & _).
    rewrite Henc. f_equal. now apply Hiff.
Defined.

(** ** Password generation *)

Lemma get_in_list (i : nat) (s : string) (c : ascii) :
  String.get i s = Some c -> In c (list_ascii_of_string s).
Proof.
  revert i. induction s as [|d rest IH]; intros i; cbn; [discriminate|].
  destruct i as [|i].
  - intros [= ->]. now left.
  - intros Hget. right. eapply IH; eauto.
Qed.

Lemma get_some (i : nat) (s : string) :
  (i < String.length s)%nat -> exists c, String.get i s = Some c.
Proof.
  revert i. induction s as [|d rest IH]; intros i; cbn; [lia|].
  destruct i as [|i]; [eauto|]. intros Hi. apply IH. lia.
Qed.

Lemma charsetFor_nonempty (options : Crypto.PasswordOptions.t) :
  (0 < String.length (Crypto.charsetFor options))%nat.
Proof.
  unfold Crypto.charsetFor.
  destruct (orElse (Crypto.PasswordOptions.lowercase options) true),
           (orElse (Crypto.PasswordOptions.uppercase options) true),
           (orElse (Crypto.PasswordOptions.numbers options) true),
           (orElse (Crypto.PasswordOptions.symbols options) true);
    cbn; lia.
Qed.

Lemma list_ascii_app (s1 s2 : string) :
  list_ascii_of_string (s1 ++ s2) = list_ascii_of_string s1 ++ list_ascii_of_string s2.
Proof. induction s1 as [|c s1 IH]; cbn; [reflexivity | now rewrite IH]. Qed.

Lemma string_length_app (s1 s2 : string) :
  String.length (s1 ++ s2) = (String.length s1 + String.length s2)%nat.
Proof. induction s1 as [|c s1 IH]; cbn; [reflexivity | now rewrite IH]. Qed.

(** The loop of [generatePassword] appends one character of the charset in
    each round. *)
Lemma generatePassword_loop (charset : string) (randomValues : nat -> N)
      (indices : list nat) (password : string) :
  (0 < String.length charset)%nat ->
  let result :=
    fold_left
      (fun password i =>
         (password
            ++ Crypto.charAt (N.to_nat (randomValues i mod N.of_nat (String.length charset)))
                             charset)%string)
      indices password in
  String.length result = (String.length password + List.length indices)%nat /\
  forall c, In c (list_ascii_of_string result) ->
            In c (list_ascii_of_string password) \/ In c (list_ascii_of_string charset).
Proof.
  intros Hne. cbv zeta. revert password.
  induction indices as [|i indices IH]; intros password; cbn [fold_left List.length].
  - split; [lia | auto].
  - destruct (get_some (N.to_nat (randomValues i mod N.of_nat (String.length charset)))
                       charset) as (c & Hc).
    { pose proof (N.mod_upper_bound (randomValues i) (N.of_nat (String.length charset))).
      lia. }
    destruct (IH (password
                    ++ Crypto.charAt
                         (N.to_nat (randomValues i mod N.of_nat (String.length charset)))
                         charset)%string) as [Hlen Hin].
    unfold Crypto.charAt in *. rewrite Hc in *.
    rewrite Hlen, string_length_app. cbn. split; [lia|].
    intros d Hd. destruct (Hin d Hd) as [H|H]; [|now right].
    rewrite list_ascii_app in H. apply in_app_or in H as [H|H]; [now left|].
    cbn in H. destruct H as [<-|[]]. right. eapply get_in_list; eauto.
Qed.

(** The character at each place of the result of the loop. *)
Lemma generatePassword_places (charset : string) (randomValues : nat -> N)
      (count start : nat) (password : string) :
  (0 < String.length charset)%nat ->
  String.length password = start ->
  let result :=
    fold_left
      (fun password i =>
         (password
            ++ Crypto.charAt (N.to_nat (randomValues i mod N.of_nat (String.length charset)))
                             charset)%string)
      (seq start count) password in
  (forall i, (i < start)%nat -> String.get i result = String.get i password) /\
  (forall i, (start <= i < start + count)%nat ->
             String.get i result =
             String.get (N.to_nat (randomValues i mod N.of_nat (String.length charset)))
                        charset).
Proof.
  intros Hne. cbv zeta. revert start password.
  induction count as [|count IH]; intros start password Hlen; cbn [seq fold_left].
  - split; [auto | intros i Hi; lia].
  - destruct (get_some (N.to_nat (randomValues start mod N.of_nat (String.length charset)))
                       charset) as (c & Hc).
    { pose proof (N.mod_upper_bound (randomValues start)
                                    (N.of_nat (String.length charset))).
      lia. }
    destruct (IH (S start)
                 (password
                    ++ Crypto.charAt
                         (N.to_nat (randomValues start
                                    mod N.of_nat (String.length charset)))
                         charset)%string) as [Hold Hnew].
    { rewrite string_length_app. unfold Crypto.charAt. rewrite Hc. cbn. lia. }
    unfold Crypto.charAt in *. rewrite Hc in *.
    split.
    + intros i Hi. rewrite Hold by lia.
      symmetry. apply append_correct1. lia.
    + intros i Hi. destruct (Nat.eq_dec i start) as [->|Hne'].
      * rewrite Hold by lia. rewrite Hc.
        rewrite <- Hlen.
        pose proof (append_correct2 password (String c EmptyString) 0) as Hget.
        cbn [Nat.add] in Hget. rewrite <- Hget. reflexivity.
      * apply Hnew. lia.
Qed.

(** X13. For a length of at most 16384, what [crypto.getRandomValues]
    fills, [generatePassword] returns a password of the requested length
    made of characters of the chosen charset only: the character at each
    place is the one the random value of that place selects; with
    [symbols] off every character is a letter or a digit, and with all four
    classes off the charset falls back to the lowercase letters. For a
    longer length it throws and returns no password. *)
Theorem generatePassword_in_charset
        (length : nat) (options : Crypto.PasswordOptions.t) (randomValues : nat -> N) :
  ((N.of_nat length <= 16384)%N ->
   exists password,
     Crypto.generatePassword length options randomValues = Return password /\
     String.length password = length /\
     (forall i, (i < length)%nat ->
                String.get i password =
                String.get (N.to_nat (randomValues i
                                      mod N.of_nat (String.length (Crypto.charsetFor options))))
                           (Crypto.charsetFor options)) /\
     (forall c, In c (list_ascii_of_string password) ->
                In c (list_ascii_of_string (Crypto.charsetFor options))) /\
     (Crypto.PasswordOptions.symbols options = Some false ->
      forall c, In c (list_ascii_of_string password) ->
                Shared.isLower c || Shared.isUpper c || Shared.isDigit c = true) /\
     (options
      = Crypto.PasswordOptions.mk (Some false) (Some false) (Some false) (Some false) ->
      forall c, In c (list_ascii_of_string password) -> Shared.isLower c = true)) /\
  ((16384 < N.of_nat length)%N ->
   exists message,
     Crypto.generatePassword length options randomValues = Throw message).
Proof.
  unfold Crypto.generatePassword, Crypto.getRandomValuesQuota. split.
  2:{ intros Hlong. apply N.ltb_lt in Hlong. rewrite Hlong. eexists. reflexivity. }
  intros Hshort.
  replace (16384 <? N.of_nat length)%N with false
    by (symmetry; apply N.ltb_ge; exact Hshort).
  eexists. split; [reflexivity|].
  destruct (generatePassword_loop (Crypto.charsetFor options) randomValues
              (seq 0 length) "" (charsetFor_nonempty options)) as [Hlen Hin].
  rewrite length_seq in Hlen. cbn in Hlen.
  assert (Hmem : forall c,
             In c (list_ascii_of_string
                     (fold_left
                        (fun password i =>
                           (password
                              ++ Crypto.charAt
                                   (N.to_nat
                                      (randomValues i
                                       mod N.of_nat (String.length (Crypto.charsetFor options))))
                                   (Crypto.charsetFor options))%string)
                        (seq 0 length) "")) ->
             In c (list_ascii_of_string (Crypto.charsetFor options))).
  { intros c Hc. destruct (Hin c Hc) as [[]|H]; exact H. }
  split; [exact Hlen|].
  split.
  { intros i Hi.
    apply (proj2 (generatePassword_places (Crypto.charsetFor options) randomValues
                    length 0 "" (charsetFor_nonempty options) eq_refl)).
    lia. }
  split; [exact Hmem|]. split.
  - intros Hsym c Hc. apply Hmem in Hc. revert c Hc.
    apply (proj1 (forallb_forall
                    (fun c => Shared.isLower c || Shared.isUpper c || Shared.isDigit c) _)).
    unfold Crypto.charsetFor. rewrite Hsym.
    destruct (orElse (Crypto.PasswordOptions.lowercase options) true),
             (orElse (Crypto.PasswordOptions.uppercase options) true),
             (orElse (Crypto.PasswordOptions.numbers options) true);
      vm_compute; reflexivity.
  - intros -> c Hc. apply Hmem in Hc. revert c Hc.
    apply (proj1 (forallb_forall Shared.isLower _)). vm_compute. reflexivity.
Qed.

Lemma generatePassword_in_charset_witness :
  let options := Crypto.PasswordOptions.mk None (Some false) None (Some false) in
  (exists password,
      Crypto.generatePassword 12 options (fun i => N.of_nat (7 * i + 3)) = Return password /\
      String.length password = 12%nat /\
      forall c, In c (list_ascii_of_string password) ->
                Shared.isLower c || Shared.isUpper c || Shared.isDigit c = true) /\
  (exists message,
      Crypto.generatePassword (128 * 129) options (fun i => N.of_nat (7 * i + 3))
      = Throw message).
Proof.
  intros options. split.
  - destruct (proj1 (generatePassword_in_charset 12 options (fun i => N.of_nat (7 * i + 3))))
      as (password & Hrun & Hlen & _ & _ & Hsym & _); [vm_compute; discriminate|].
    exists password. split; [exact Hrun|]. split; [exact Hlen|].
    apply Hsym. reflexivity.
  - apply (proj2 (generatePassword_in_charset (128 * 129) options
                    (fun i => N.of_nat (7 * i + 3)))).
    vm_compute. reflexivity.
Defined.

(** * Further properties of the migration service *)

Section VersionOrder.

Variable numberOr0 : string -> Z.

Let compareVersions := Migration.compareVersions numberOr0.

Lemma compareFrom_antisym (fuel i : nat) (parts1 parts2 : list Z) :
  Migration.compareFrom fuel i parts1 parts2
  = - Migration.compareFrom fuel i parts2 parts1.
Proof.
  revert i. induction fuel as [|fuel IH]; intros i; cbn; [reflexivity|].
  destruct (Z.ltb_spec (nth i parts1 0) (nth i parts2 0)),
           (Z.gtb_spec (nth i parts1 0) (nth i parts2 0)),
           (Z.ltb_spec (nth i parts2 0) (nth i parts1 0)),
           (Z.gtb_spec (nth i parts2 0) (nth i parts1 0));
    try lia; auto.
Qed.

Lemma compareFrom_range (fuel i : nat) (parts1 parts2 : list Z) :
  In (Migration.compareFrom fuel i parts1 parts2) [-1; 0; 1].
Proof.
  revert i. induction fuel as [|fuel IH]; intros i; cbn; [tauto|].
  destruct (_ <? _); [tauto|]. destruct (_ >? _); [tauto|]. apply IH.
Qed.

Lemma compareFrom_same (fuel i : nat) (parts1 parts2 : list Z) :
  (forall k, nth k parts1 0 = nth k parts2 0) ->
  Migration.compareFrom fuel i parts1 parts2 = 0.
Proof.
  intros Hsame. revert i. induction fuel as [|fuel IH]; intros i; cbn; [reflexivity|].
  rewrite Hsame, Z.ltb_irrefl.
  replace (nth i parts2 0 >? nth i parts2 0) with false
    by (symmetry; rewrite Z.gtb_ltb; apply Z.ltb_irrefl).
  apply IH.
Qed.

Lemma compareVersions_flip (v1 v2 : string) :
  compareVersions v1 v2 = - compareVersions v2 v1.
Proof.
  unfold compareVersions, Migration.compareVersions.
  rewrite Nat.max_comm. apply compareFrom_antisym.
Qed.

Lemma compareVersions_refl (v : string) : compareVersions v v = 0.
Proof.
  unfold compareVersions, Migration.compareVersions. now apply compareFrom_same.
Qed.

(** X14. [compareVersions] answers -1, 0 or 1; exchanging its arguments
    negates the answer; a version compared with itself gives 0. *)
Theorem compareVersions_antisymmetric (v1 v2 : string) :
  compareVersions v1 v2 = - compareVersions v2 v1 /\
  In (compareVersions v1 v2) [-1; 0; 1] /\
  compareVersions v1 v1 = 0.
Proof.
  unfold compareVersions, Migration.compareVersions. split; [|split].
  - rewrite Nat.max_comm. apply compareFrom_antisym.
  - apply compareFrom_range.
  - now apply compareFrom_same.
Qed.

Lemma split_app_sep (sep : ascii) (s t : string) :
  split sep (s ++ String sep t) = split sep s ++ split sep t.
Proof.
  induction s as [|c s IH]; cbn.
  - now rewrite Ascii.eqb_refl.
  - destruct (Ascii.eqb c sep); [now rewrite IH|].
    rewrite IH. destruct (split sep s) as [|h tl] eqn:Hs; [|reflexivity].
    now apply split_nonempty in Hs.
Qed.

(** X15. The comparison is numeric by component and reads a missing
    component as 0: where the leading components differ as numbers they
    decide the answer, and a version compares equal to itself followed by
    ".0". *)
Theorem compareVersions_numeric_padded (v1 v2 : string) :
  let first v := nth 0 (map numberOr0 (split "." v)) 0 in
  (first v1 < first v2 -> compareVersions v1 v2 = -1) /\
  (first v1 > first v2 -> compareVersions v1 v2 = 1) /\
  (numberOr0 "0" = 0 ->
   compareVersions v1 (v1 ++ ".0") = 0 /\ compareVersions (v1 ++ ".0") v1 = 0).
Proof.
  cbv zeta. unfold compareVersions, Migration.compareVersions.
  assert (Hfuel : forall a b : string,
             exists fuel,
               Nat.max (List.length (map numberOr0 (split "." a)))
                       (List.length (map numberOr0 (split "." b))) = S fuel).
  { intros a b. destruct (split "." a) as [|h tl] eqn:Ha.
    - now apply split_nonempty in Ha.
    - cbn [map List.length]. destruct (List.length (map numberOr0 (split "." b)));
        eexists; cbn; reflexivity. }
  split; [|split].
  - intros Hlt. destruct (Hfuel v1 v2) as (fuel & ->). cbn.
    now replace (_ <? _) with true by (symmetry; apply Z.ltb_lt; exact Hlt).
  - intros Hgt. destruct (Hfuel v1 v2) as (fuel & ->). cbn.
    replace (_ <? _) with false by (symmetry; apply Z.ltb_ge; lia).
    now replace (_ >? _) with true by (symmetry; apply Z.gtb_lt; lia).
  - intros H0.
    assert (Hsame : forall k,
               nth k (map numberOr0 (split "." v1)) 0
               = nth k (map numberOr0 (split "." (v1 ++ ".0"))) 0).
    { intros k. change (v1 ++ ".0")%string with (v1 ++ String "." "0")%string.
      rewrite split_app_sep, map_app.
      change (map numberOr0 (split "." "0")) with [numberOr0 "0"]. rewrite H0.
      destruct (Nat.lt_ge_cases k (List.length (map numberOr0 (split "." v1))))
        as [Hk|Hk].
      - now rewrite app_nth1.
      - rewrite app_nth2 by exact Hk. rewrite (nth_overflow _ _ Hk).
        destruct (k - _)%nat as [|[|n]]; reflexivity. }
    split; apply compareFrom_same; intros k; [|symmetry]; apply Hsame.
Qed.

End VersionOrder.

Lemma compareVersions_numeric_padded_witness :
  Migration.compareVersions decimalOr0 "2.10.0" "3.2" = -1 /\
  Migration.compareVersions decimalOr0 "10.0" "9.9.9" = 1 /\
  Migration.compareVersions decimalOr0 "2.1" "2.1.0" = 0.
Proof.
  pose proof (compareVersions_numeric_padded decimalOr0) as H. cbv zeta in H.
  split; [|split].
  - apply (proj1 (H "2.10.0" "3.2")). reflexivity.
  - apply (proj1 (proj2 (H "10.0" "9.9.9"))). reflexivity.
  - apply (proj1 (proj2 (proj2 (H "2.1" "2.1.0")) eq_refl)).
Defined.

Section MigrationFurther.

Variable numberOr0 : string -> Z.
Variable urlOrigin : string -> option string.

Hypothesis number_0 : numberOr0 "0" = 0.
Hypothesis number_1 : numberOr0 "1" = 1.
Hypothesis number_2 : numberOr0 "2" = 2.

Let compareVersions := Migration.compareVersions numberOr0.
Let migrate := Migration.migrate numberOr0 urlOrigin.
Let needsMigration := Migration.needsMigration numberOr0.

(** A version below 2.0.0 is below the current version 2.1.0. *)
Lemma below_2_below_current (v : string) :
  compareVersions v "2.0.0" < 0 -> compareVersions v Migration.currentVersion < 0.
Proof.
  unfold compareVersions, Migration.compareVersions.
  change (map numberOr0 (split "." Migration.currentVersion))
    with [numberOr0 "2"; numberOr0 "1"; numberOr0 "0"].
  change (map numberOr0 (split "." "2.0.0"))
    with [numberOr0 "2"; numberOr0 "0"; numberOr0 "0"].
  rewrite number_0, number_1, number_2.
  set (parts := map numberOr0 (split "." v)).
  cbn [List.length].
  destruct (Nat.max_spec (List.length parts) 3) as [[_ ->]|[Hlen ->]];
    [|destruct (List.length parts) as [|[|[|n]]]; try lia];
    cbn [Migration.compareFrom nth];
    repeat match goal with
           | |- context [?a <? ?b] => destruct (Z.ltb_spec a b)
           | |- context [?a >? ?b] => destruct (Z.gtb_spec a b)
           end; lia.
Qed.

Lemma current_above_2 : compareVersions "2.0.0" Migration.currentVersion = -1.
Proof.
  unfold compareVersions, Migration.compareVersions. cbn.
  now rewrite number_0, number_1, number_2.
Qed.

(** X16. [migrate] does not change what [needsMigration] answers: its
    steps end at 2.0.0, below the current version 2.1.0, so a document
    that needed migration before [migrate] still needs it afterwards. *)
Theorem migrate_keeps_needsMigration (now : Z) (data : RawDoc.t) :
  needsMigration (migrate now (Some data)) = needsMigration (Some data) /\
  (needsMigration (Some data) = true ->
   needsMigration (migrate now (Some data)) = true).
Proof.
  assert (Heq : needsMigration (migrate now (Some data)) = needsMigration (Some data)).
  { set (dataVersion := orString (RawDoc.version data) "0.0.0").
    destruct (Z.ltb_spec (compareVersions dataVersion "2.0.0") 0) as [H2|H2].
    - unfold migrate. rewrite (migrate_unfold numberOr0 urlOrigin now data).
      cbv zeta. fold compareVersions. fold dataVersion.
      replace (compareVersions dataVersion "2.0.0" <? 0) with true
        by (symmetry; now apply Z.ltb_lt).
      unfold needsMigration, Migration.needsMigration.
      cbn [RawDoc.version RawDoc.set_version].
      fold compareVersions. rewrite current_above_2. cbn.
      destruct (RawDoc.version data) as [[|c v]|] eqn:Hv; try reflexivity.
      symmetry. apply Z.ltb_lt. apply below_2_below_current.
      exact H2.
    - unfold migrate.
      now rewrite (migrate_noop numberOr0 urlOrigin number_0 number_1 number_2
                     now data H2). }
  split; [exact Heq|]. now rewrite Heq.
Qed.

Lemma keepsCredential_refl (cred : RawCredential.t) :
  Migration.keepsCredential cred cred.
Proof. unfold Migration.keepsCredential. repeat split; auto. Qed.

Lemma keepsSite_refl (site : RawSite.t) : Migration.keepsSite site site.
Proof.
  unfold Migration.keepsSite. repeat split; auto.
  induction (orElse (RawSite.credentials site) []) as [|cred creds IH];
    constructor; [apply keepsCredential_refl | exact IH].
Qed.

Lemma keepsSites_refl (sites : list RawSite.t) :
  Forall2 Migration.keepsSite sites sites.
Proof.
  induction sites as [|site sites IH]; constructor; [apply keepsSite_refl | exact IH].
Qed.

(** The step to 2.0.0 keeps the sites and their credentials. *)
Lemma migrateTo2_0_0_keeps_sites (data : RawDoc.t) :
  Forall2 Migration.keepsSite
          (orElse (RawDoc.sites data) [])
          (orElse (RawDoc.sites (Migration.migrateTo2_0_0 urlOrigin data)) []).
Proof.
  unfold Migration.migrateTo2_0_0. cbn [RawDoc.sites].
  destruct (RawDoc.sites data) as [sites|]; [|constructor].
  cbn [orElse].
  induction sites as [|site sites IH]; cbn [map]; constructor; [|exact IH].
  unfold Migration.keepsSite.
  cbn [RawSite.others RawSite.url RawSite.createdAt RawSite.favicon RawSite.priority
       RawSite.color RawSite.metadata RawSite.credentials orElse].
  split; [reflexivity|]. split; [reflexivity|]. split; [reflexivity|].
  split.
  { intros favicon -> Hne. destruct favicon; [contradiction | reflexivity]. }
  split; [intros priority ->; reflexivity|].
  split.
  { intros color -> Hne. destruct color; [contradiction | reflexivity]. }
  split; [intros metadata ->; reflexivity|].
  induction (orElse (RawSite.credentials site) []) as [|cred creds IHc];
    cbn [map]; constructor; [|exact IHc].
  unfold Migration.keepsCredential.
  cbn [RawCredential.others RawCredential.passwordExpiry RawCredential.customFields
       RawCredential.checkInHistory RawCredential.lastPasswordChange
       RawCredential.strength RawCredential.breached].
  split; [reflexivity|]. split; [reflexivity|].
  split; [intros fields ->; reflexivity|].
  split; [intros history ->; reflexivity|].
  split; [intros changed ->; reflexivity|].
  split; [|intros breached ->; reflexivity].
  intros strength -> Hne. destruct strength; [contradiction | reflexivity].
Qed.

(** X17. [migrate] keeps every site and every credential of the
    document, one for one and in their order, with every property they
    have (the steps only supply values for properties that are missing
    or falsy), and never lowers the version: the version of the result
    does not compare below the version it read. *)
Theorem migrate_keeps_sites (now : Z) (data : RawDoc.t) :
  exists migrated,
    migrate now (Some data) = Some migrated /\
    Forall2 Migration.keepsSite
            (orElse (RawDoc.sites data) [])
            (orElse (RawDoc.sites migrated) []) /\
    List.length (orElse (RawDoc.sites migrated) [])
    = List.length (orElse (RawDoc.sites data) []) /\
    0 <= compareVersions (orString (RawDoc.version migrated) "0.0.0")
                         (orString (RawDoc.version data) "0.0.0").
Proof.
  unfold migrate. rewrite (migrate_unfold numberOr0 urlOrigin now data). cbv zeta.
  fold compareVersions.
  set (dataVersion := orString (RawDoc.version data) "0.0.0").
  eexists. split; [reflexivity|].
  assert (Hlen : forall kept : list RawSite.t,
             Forall2 Migration.keepsSite (orElse (RawDoc.sites data) []) kept ->
             List.length kept = List.length (orElse (RawDoc.sites data) [])).
  { intros kept H. symmetry. exact (Forall2_length H). }
  pose proof (compareVersions_flip numberOr0 "2.0.0" dataVersion) as Hflip.
  pose proof (compareVersions_refl numberOr0 dataVersion) as Hrefl.
  fold compareVersions in Hflip, Hrefl.
  destruct (Z.ltb_spec (compareVersions dataVersion "1.0.0") 0) as [H1|H1];
    destruct (Z.ltb_spec (compareVersions dataVersion "2.0.0") 0) as [H2|H2];
    cbn [RawDoc.sites RawDoc.version RawDoc.set_version].
  - assert (Hkeep :
      Forall2 Migration.keepsSite
        (orElse (RawDoc.sites data) [])
        (orElse (RawDoc.sites
                   (Migration.migrateTo2_0_0 urlOrigin
                      (RawDoc.set_version (Some "1.0.0")
                         (Migration.migrateTo1_0_0 now data)))) [])).
    { exact (migrateTo2_0_0_keeps_sites
               (RawDoc.set_version (Some "1.0.0") (Migration.migrateTo1_0_0 now data))). }
    split; [exact Hkeep|]. split; [exact (Hlen _ Hkeep)|].
    change (orString (Some "2.0.0") "0.0.0") with "2.0.0". lia.
  - apply (below_1_below_2 numberOr0 number_0 number_1 number_2) in H1.
    fold compareVersions in H1. lia.
  - pose proof (migrateTo2_0_0_keeps_sites data) as Hkeep.
    split; [exact Hkeep|]. split; [exact (Hlen _ Hkeep)|].
    change (orString (Some "2.0.0") "0.0.0") with "2.0.0". lia.
  - fold dataVersion. split; [apply keepsSites_refl|]. split; [reflexivity | lia].
Qed.

(** X19. A document below 1.0.0 (or without a version) comes out of
    [migrate] at 2.0.0 with fresh analytics, whatever counters it had:
    all zero but [sitesAdded], which is the number of its sites; its
    properties other than settings, categories and sites are dropped and
    [lastReset] is the day of the migration. *)
Theorem migrate_below_1_resets_analytics (now : Z) (data : RawDoc.t) :
  compareVersions (orString (RawDoc.version data) "0.0.0") "1.0.0" < 0 ->
  exists migrated,
    migrate now (Some data) = Some migrated /\
    RawDoc.version migrated = Some "2.0.0" /\
    RawDoc.analytics migrated
    = Some (Analytics.mk 0 0 0 0
              (Z.of_nat (List.length (orElse (RawDoc.sites data) []))) 0 None) /\
    RawDoc.others migrated = [] /\
    RawDoc.lastReset migrated = Some (Clock.isoDate now) /\
    RawDoc.categories migrated = Some (orElse (RawDoc.categories data) []).
Proof.
  intros H1.
  pose proof (below_1_below_2 numberOr0 number_0 number_1 number_2 _ H1) as H2.
  unfold migrate. rewrite (migrate_unfold numberOr0 urlOrigin now data). cbv zeta.
  fold compareVersions in H2 |- *.
  replace (compareVersions (orString (RawDoc.version data) "0.0.0") "1.0.0" <? 0)
    with true by (symmetry; now apply Z.ltb_lt).
  replace (compareVersions (orString (RawDoc.version data) "0.0.0") "2.0.0" <? 0)
    with true by (symmetry; now apply Z.ltb_lt).
  eexists. split; [reflexivity|]. cbn. repeat split.
Qed.

End MigrationFurther.

Lemma migrate_keeps_needsMigration_witness :
  let old := RawDoc.set_version (Some "1.4.0") Scenario.legacyDocument in
  Migration.needsMigration decimalOr0 (Some old) = true /\
  Migration.needsMigration decimalOr0
    (Migration.migrate decimalOr0 Scenario.originOf 0 (Some old)) = true.
Proof.
  intros old. split; [reflexivity|].
  apply (proj2 (migrate_keeps_needsMigration decimalOr0 Scenario.originOf
                  eq_refl eq_refl eq_refl 0 old)).
  reflexivity.
Defined.

Lemma migrate_keeps_sites_witness :
  exists migrated,
    Migration.migrate decimalOr0 Scenario.originOf 0 (Some Scenario.legacyDocument)
    = Some migrated /\
    List.length (orElse (RawDoc.sites migrated) []) = 1%nat /\
    map (fun site => map RawCredential.others (orElse (RawSite.credentials site) []))
        (orElse (RawDoc.sites migrated) [])
    = [[[("email", "user@example.com")]]].
Proof.
  destruct (migrate_keeps_sites decimalOr0 Scenario.originOf eq_refl eq_refl eq_refl 0
              Scenario.legacyDocument) as (migrated & Hrun & Hkeep & Hlen & _).
  exists migrated. split; [exact Hrun|]. split; [exact Hlen|].
  change (orElse (RawDoc.sites Scenario.legacyDocument) [])
    with [RawSite.mk (Some "https://example.com") None None None None
                     (Some [RawCredential.mk None None None None None None
                                             [("email", "user@example.com")]])
                     (Some 1000) [("name", "Example")]] in Hkeep.
  inversion Hkeep as [|site kept sites keptSites Hsite Hrest Heq1 Heq2].
  inversion Hrest. subst.
  destruct Hsite as (_ & _ & _ & _ & _ & _ & _ & Hcreds).
  cbn [RawSite.credentials orElse] in Hcreds.
  inversion Hcreds as [|cred keptCred creds keptCreds Hcred Hrest' Heq1' Heq2'].
  inversion Hrest'. subst.
  destruct Hcred as (Hothers & _).
  cbn [map]. rewrite <- Heq2'. cbn [map]. rewrite Hothers. reflexivity.
Defined.

Lemma migrate_below_1_resets_analytics_witness :
  let counted :=
    RawDoc.mk (Some "0.9") None None None (RawDoc.sites Scenario.legacyDocument)
              (Some (Analytics.mk 50 4 9 0 1 0 (Some 1000))) [("theme", "dark")] in
  exists migrated,
    Migration.migrate decimalOr0 Scenario.originOf 0 (Some counted) = Some migrated /\
    RawDoc.analytics migrated = Some (Analytics.mk 0 0 0 0 1 0 None) /\
    RawDoc.others migrated = [].
Proof.
  intros counted.
  destruct (migrate_below_1_resets_analytics decimalOr0 Scenario.originOf
              eq_refl eq_refl eq_refl 0 counted)
    as (migrated & Hrun & _ & Ha & Ho & _).
  - vm_compute. reflexivity.
  - exists migrated. repeat split; assumption.
Defined.

Lemma orString_idem (a : option string) (c : ascii) (rest : string) :
  orString (Some (orString a (String c rest))) (String c rest)
  = orString a (String c rest).
Proof. destruct a as [[|d s]|]; reflexivity. Qed.

(** X18. The step to 2.0.0 is idempotent: applied to its own result it
    changes nothing, so the defaults it fills in are stable and no value
    already present is overwritten by a second pass. *)
Theorem migrateTo2_0_0_idempotent
        (urlOrigin : string -> option string) (data : RawDoc.t) :
  Migration.migrateTo2_0_0 urlOrigin (Migration.migrateTo2_0_0 urlOrigin data)
  = Migration.migrateTo2_0_0 urlOrigin data.
Proof.
  destruct data as [version lastReset settings categories sites analytics others].
  unfold Migration.migrateTo2_0_0.
  cbn [RawDoc.version RawDoc.lastReset RawDoc.settings RawDoc.categories RawDoc.sites
       RawDoc.analytics RawDoc.others orElse
       RawSettings.theme RawSettings.viewMode RawSettings.autoReset
       RawSettings.resetTime RawSettings.notifications RawSettings.security
       RawSettings.display].
  f_equal.
  - rewrite !orString_idem. do 3 f_equal.
    now destruct (RawSettings.autoReset _) as [[|]|].
  - destruct sites as [sites|]; [|reflexivity].
    f_equal. rewrite map_map. apply map_ext. intros site.
    cbn [RawSite.url RawSite.favicon RawSite.priority RawSite.color RawSite.metadata
         RawSite.credentials RawSite.createdAt RawSite.others orElse].
    rewrite orString_idem. f_equal.
    + destruct (Migration.truthyString (RawSite.favicon site)) as [favicon|] eqn:Hf.
      * destruct (RawSite.favicon site) as [[|c s]|]; cbn in Hf; try discriminate.
        now injection Hf as <-.
      * unfold Migration.getFaviconFromUrl.
        destruct (RawSite.url site) as [url|]; [|reflexivity].
        destruct (urlOrigin url) as [[|c domain]|]; reflexivity.
    + f_equal. rewrite map_map. apply map_ext. intros cred.
      cbn [RawCredential.customFields RawCredential.checkInHistory
           RawCredential.lastPasswordChange RawCredential.passwordExpiry
           RawCredential.strength RawCredential.breached RawCredential.others orElse].
      rewrite orString_idem. f_equal.
      destruct (RawCredential.lastPasswordChange cred); [reflexivity|].
      now destruct (RawSite.createdAt site).
Qed.

(** ** Backups *)

(** X20. [createBackup] puts the backup at the head of the stored list and
    keeps the five most recent: afterwards [restoreBackup(0)] returns the
    document just saved, the backup formerly at index [i] is at [i + 1] as
    long as that is below 5, and at most five are stored whatever was
    stored before. On a text that does not parse [createBackup] returns
    [false] and writes nothing, and [restoreBackup] returns null; an index
    past the end gives null. *)
Theorem createBackup_keeps_five_most_recent
        (now : Z) (data : RawDoc.t) (item : BackupItem) :
  (item <> Corrupt ->
   exists item',
     Migration.createBackup now data item = (true, item') /\
     Migration.restoreBackup 0 item' = Some data /\
     (forall i, (S i < 5)%nat ->
                Migration.restoreBackup (S i) item' = Migration.restoreBackup i item) /\
     List.length (Migration.getBackups item')
     = Nat.min 5 (S (List.length (Migration.getBackups item))) /\
     (forall i, (5 <= i)%nat -> Migration.restoreBackup i item' = None)) /\
  Migration.createBackup now data Corrupt = (false, Corrupt) /\
  (forall i, Migration.restoreBackup i Corrupt = None) /\
  (forall i, (List.length (Migration.getBackups item) <= i)%nat ->
             Migration.restoreBackup i item = None).
Proof.
  split; [|split; [|split]]; try reflexivity.
  - intros Hok.
    assert (Hparse : exists backups,
               Migration.parseBackups item = Some backups /\
               Migration.getBackups item = backups /\
               forall i, Migration.restoreBackup i item
                         = option_map Backup.data (nth_error backups i)).
    { destruct item as [| |backups]; [exists [] | congruence | exists backups];
        repeat split; intros i; unfold Migration.restoreBackup; cbn;
        destruct (nth_error _ i); reflexivity. }
    destruct Hparse as (backups & Hp & Hget & Hrestore).
    unfold Migration.createBackup. rewrite Hp, Hget.
    set (backup := Backup.mk data now (orString (RawDoc.version data) "unknown")).
    assert (Hcut : (if (5 <? List.length (backup :: backups))%nat
                    then firstn 5 (backup :: backups) else backup :: backups)
                   = firstn 5 (backup :: backups)).
    { destruct (Nat.ltb_spec 5 (List.length (backup :: backups))); [reflexivity|].
      symmetry. now apply firstn_all2. }
    rewrite Hcut. eexists. split; [reflexivity|].
    split; [reflexivity|]. split; [|split].
    + intros i Hi. rewrite Hrestore.
      unfold Migration.restoreBackup. cbn [Migration.parseBackups].
      rewrite nth_error_firstn.
      replace (S i <? 5)%nat with true by (symmetry; apply Nat.ltb_lt; lia).
      cbn [nth_error]. now destruct (nth_error backups i).
    + unfold Migration.getBackups. cbn [Migration.parseBackups].
      rewrite length_firstn. cbn [List.length]. reflexivity.
    + intros i Hi. unfold Migration.restoreBackup. cbn [Migration.parseBackups].
      replace (nth_error (firstn 5 (backup :: backups)) i) with (@None Backup.t);
        [reflexivity|].
      symmetry. apply nth_error_None. rewrite length_firstn. lia.
  - intros i Hi. unfold Migration.restoreBackup, Migration.getBackups in *.
    destruct (Migration.parseBackups item) as [backups|]; [|reflexivity].
    now apply nth_error_None in Hi as ->.
Qed.

Lemma createBackup_keeps_five_most_recent_witness :
  let doc v := RawDoc.set_version (Some v) Scenario.legacyDocument in
  let backup v := Backup.mk (doc v) 0 v in
  let full := Stored [backup "5"; backup "4"; backup "3"; backup "2"; backup "1"] in
  exists item',
    Migration.createBackup 9 (doc "6") full = (true, item') /\
    Migration.restoreBackup 0 item' = Some (doc "6") /\
    Migration.restoreBackup 4 item' = Some (doc "2") /\
    List.length (Migration.getBackups item') = 5%nat.
Proof.
  intros doc backup full.
  destruct (proj1 (createBackup_keeps_five_most_recent 9 (doc "6") full))
    as (item' & Hrun & Hhead & Hshift & Hlen & _).
  - discriminate.
  - exists item'. split; [exact Hrun|]. split; [exact Hhead|].
    split; [rewrite Hshift by lia; reflexivity | exact Hlen].
Defined.

(** ** Validation and repair *)







Lemma sitesErrors_complete (index : nat) (sites : list (option LooseSite.t)) :
  (forall s, In s sites -> s <> None) ->
  exists errors,
    Migration.sitesErrors index sites = Some errors /\
    (errors = [] <->
     forall site,
       In (Some site) sites ->
       present (LooseSite.id site) = true /\
       present (LooseSite.name site) = true /\
       present (LooseSite.url site) = true /\
       exists credentials, LooseSite.credentials site = IsArray credentials).
Proof.
  revert index. induction sites as [|[site|] sites IH]; intros index Hsome.
  - exists []. split; [reflexivity|]. split; [intros _ site [] | reflexivity].
  - destruct (IH (S index)) as (errors & Herr & Hiff).
    { intros s Hs. apply Hsome. now right. }
    cbn [Migration.sitesErrors]. rewrite Herr. eexists. split; [reflexivity|].
    unfold Migration.siteErrors. split.
    + intros Hnil. apply app_eq_nil in Hnil as [Hsite Hrest].
      apply app_eq_nil in Hsite as [Hid Hsite].
      apply app_eq_nil in Hsite as [Hname Hsite].
      apply app_eq_nil in Hsite as [Hurl Hcred].
      intros site0 [[= <-]|Hin]; [|now apply Hiff].
      destruct (present (LooseSite.id site)); [|discriminate].
      destruct (present (LooseSite.name site)); [|discriminate].
      destruct (present (LooseSite.url site)); [|discriminate].
      destruct (LooseSite.credentials site); try discriminate. eauto.
    + intros Hall.
      destruct (Hall site (or_introl eq_refl)) as (-> & -> & -> & credentials & ->).
      cbn. apply Hiff. intros site0 Hin. apply Hall. now right.
  - exfalso. now apply (Hsome None (or_introl eq_refl)).
Qed.

(** X22. What [validateData] answers: null data are invalid with one
    error; a document whose [sites] is missing is invalid; where [sites]
    holds a value that is neither missing nor an array, or an array with a
    null element, the function throws; otherwise it returns, and the
    document is valid exactly when no error was collected, which is exactly
    when [categories] is an array and every site has an identifier, a name,
    a URL and an array of credentials. *)
Theorem validateData_valid_iff (data : LooseDoc.t) :
  Migration.validateData None
  = Return (Migration.Validation.mk false ["Data is null or undefined"]) /\
  (LooseDoc.sites data = Missing ->
   exists result,
     Migration.validateData (Some data) = Return result /\
     Migration.Validation.valid result = false /\
     In "Sites must be an array" (Migration.Validation.errors result)) /\
  (LooseDoc.sites data = NotArray ->
   Migration.validateData (Some data) = Throw "TypeError") /\
  (forall sites,
      LooseDoc.sites data = IsArray sites ->
      (In None sites -> Migration.validateData (Some data) = Throw "TypeError") /\
      (~ In None sites ->
       exists result,
         Migration.validateData (Some data) = Return result /\
         (Migration.Validation.valid result = true
          <-> Migration.Validation.errors result = []) /\
         (Migration.Validation.valid result = true <->
          (exists categories, LooseDoc.categories data = IsArray categories) /\
          forall site,
            In (Some site) sites ->
            present (LooseSite.id site) = true /\
            present (LooseSite.name site) = true /\
            present (LooseSite.url site) = true /\
            exists credentials, LooseSite.credentials site = IsArray credentials))).
Proof.
  unfold Migration.validateData.
  split; [reflexivity|]. split; [|split].
  - intros ->. eexists. split; [reflexivity|]. cbn. split; [reflexivity | now left].
  - now intros ->.
  - intros sites ->. split.
    + intros Hnull.
      replace (Migration.sitesErrors 0 sites) with (@None (list string)); [reflexivity|].
      symmetry. generalize 0%nat.
      induction sites as [|[site|] sites IH]; intros index; [destruct Hnull| |reflexivity].
      cbn. destruct Hnull as [Hn|Hn]; [discriminate|]. now rewrite (IH Hn).
    + intros Hsome.
      destruct (sitesErrors_complete 0 sites) as (errors & -> & Hiff).
      { intros s Hs ->. now apply Hsome. }
      eexists. split; [reflexivity|].
      cbn [Migration.Validation.valid Migration.Validation.errors].
      split.
      * split; [intros Hv; apply Nat.eqb_eq in Hv; now apply length_zero_iff_nil|].
        now intros ->.
      * rewrite <- Hiff.
        destruct (LooseDoc.categories data) as [| |categories]; cbn.
        -- split; [discriminate | intros [(c & Hc) _]; discriminate].
        -- split; [discriminate | intros [(c & Hc) _]; discriminate].
        -- split.
           ++ intros Hv. apply Nat.eqb_eq in Hv. split; [eauto|].
              now apply length_zero_iff_nil.
           ++ now intros [_ ->].
Qed.

Lemma validateData_valid_iff_witness :
  (exists result,
      Migration.validateData
        (Some (LooseDoc.mk None Missing (IsArray []) None None [])) = Return result /\
      Migration.Validation.valid result = false) /\
  Migration.validateData (Some Sample.damagedDocument) = Throw "TypeError".
Proof.
  split.
  - destruct (proj1 (proj2 (validateData_valid_iff
                              (LooseDoc.mk None Missing (IsArray []) None None [])))
                    eq_refl) as (result & Hrun & Hvalid & _).
    exists result. split; assumption.
  - refine (proj1 (proj2 (proj2 (proj2 (validateData_valid_iff Sample.damagedDocument)))
                         _ eq_refl) _).
    cbn. tauto.
Defined.

(** * Site status across the services *)

Lemma filter_length_all {A : Type} (p : A -> bool) (l : list A) :
  List.length (filter p l) = List.length l <-> forallb p l = true.
Proof.
  induction l as [|x r IH]; cbn; [tauto|].
  pose proof (filter_length_le p r) as Hle.
  destruct (p x); cbn.
  - rewrite <- IH. lia.
  - split; [lia | discriminate].
Qed.

Lemma filter_length_none {A : Type} (p : A -> bool) (l : list A) :
  List.length (filter p l) = 0%nat <-> existsb p l = false.
Proof.
  induction l as [|x r IH]; cbn; [tauto|].
  destruct (p x); cbn; [split; [lia | discriminate] | exact IH].
Qed.

Lemma forallb_existsb_negb {A : Type} (p : A -> bool) (l : list A) :
  forallb p l = negb (existsb (fun x => negb (p x)) l).
Proof.
  induction l as [|x r IH]; cbn; [reflexivity|].
  rewrite IH. now destruct (p x).
Qed.

Lemma checkedOn_checkedToday (now : Z) (cred : Credential.t) :
  QuickFilters.checkedOn (Clock.isoDate now) cred = SitesService.checkedToday now cred.
Proof.
  unfold QuickFilters.checkedOn, SitesService.checkedToday, SitesService.isToday.
  destruct (Credential.checkedInOn cred); [apply Z.eqb_sym | reflexivity].
Qed.

Lemma manager_checkedToday (now : Z) (cred : Credential.t) :
  StateManager.checkedToday now cred = SitesService.checkedToday now cred.
Proof. reflexivity. Qed.

(** The four answers of [getSiteStatus] in terms of the credentials. *)
Lemma getSiteStatus_cases (now : Z) (site : Site.t) :
  let credentials := Site.credentials site in
  let checked := SitesService.checkedToday now in
  (credentials = [] /\ SitesService.getSiteStatus now site = "empty") \/
  (credentials <> [] /\ existsb checked credentials = false /\
   forallb checked credentials = false /\
   SitesService.getSiteStatus now site = "pending") \/
  (credentials <> [] /\ existsb checked credentials = true /\
   forallb checked credentials = true /\
   SitesService.getSiteStatus now site = "done") \/
  (credentials <> [] /\ existsb checked credentials = true /\
   forallb checked credentials = false /\
   SitesService.getSiteStatus now site = "partial").
Proof.
  cbv zeta. unfold SitesService.getSiteStatus.
  destruct (Site.credentials site) as [|c r] eqn:Hcreds; [left; auto|].
  right. rewrite <- Hcreds.
  assert (Hne : Site.credentials site <> []) by (rewrite Hcreds; discriminate).
  pose proof (filter_length_all (SitesService.checkedToday now) (Site.credentials site))
    as Hall.
  pose proof (filter_length_none (SitesService.checkedToday now) (Site.credentials site))
    as Hnone.
  destruct (Nat.eqb_spec
              (List.length (filter (SitesService.checkedToday now) (Site.credentials site)))
              0) as [H0|H0].
  - left. repeat split; [exact Hne | tauto | ].
    apply not_true_is_false. intros Hf.
    apply Hall in Hf. rewrite Hf in H0. rewrite Hcreds in H0. discriminate.
  - right.
    assert (He : existsb (SitesService.checkedToday now) (Site.credentials site) = true).
    { apply not_false_is_true. intros He. apply Hnone in He. contradiction. }
    destruct (Nat.eqb_spec
                (List.length (filter (SitesService.checkedToday now) (Site.credentials site)))
                (List.length (Site.credentials site))) as [H1|H1].
    + left. repeat split; [exact Hne | exact He | tauto].
    + right. repeat split; [exact Hne | exact He |].
      apply not_true_is_false. intros Hf. apply Hall in Hf. contradiction.
Qed.

(** X23. The services agree on a complete site and differ on a pending
    one. [getSiteStatus] answers "done" exactly for the sites
    [isSiteCompleteToday] accepts, and the quick filter "completed" lists
    the sites [getCompletedSites] lists; the quick filter "partial" lists
    the sites of status "partial". A site of status "partial" is listed
    by the quick filter "pending" and by the manager's status filter
    "done"; a site without credentials is listed by the manager's status
    filter "pending" and by no quick filter of the three. *)
Theorem site_status_across_services (now : Z) (state : State.t) (site : Site.t) :
  let sites := State.sites state in
  let status := SitesService.getSiteStatus now site in
  let managerFilter s :=
    StateManager.getFilteredSites now (StateManager.mkFilters "" s None []) (Some state) in
  (status = "done" <-> SitesService.isSiteCompleteToday now site = true) /\
  QuickFilters.applyFilterType now sites "completed" =
    SitesService.getCompletedSites now sites /\
  (In site (QuickFilters.applyFilterType now sites "completed") <->
   In site sites /\ status = "done") /\
  (In site (QuickFilters.applyFilterType now sites "partial") <->
   In site sites /\ status = "partial") /\
  (In site (QuickFilters.applyFilterType now sites "pending") <->
   In site sites /\ (status = "pending" \/ status = "partial")) /\
  (In site (managerFilter "done") <->
   In site sites /\ (status = "done" \/ status = "partial")) /\
  (In site (managerFilter "pending") <->
   In site sites /\ (status = "pending" \/ status = "empty")).
Proof.
  cbv zeta.
  assert (Hq : forall l,
    filter (QuickFilters.checkedOn (Clock.isoDate now)) l =
    filter (SitesService.checkedToday now) l).
  { intros l. apply filter_ext. intros c. apply checkedOn_checkedToday. }
  assert (Hqa : forall l,
    forallb (QuickFilters.checkedOn (Clock.isoDate now)) l =
    forallb (SitesService.checkedToday now) l).
  { induction l as [|c r IH]; cbn; [reflexivity|].
    now rewrite IH, checkedOn_checkedToday. }
  assert (Hqe : forall l,
    existsb (fun c => negb (QuickFilters.checkedOn (Clock.isoDate now) c)) l =
    negb (forallb (SitesService.checkedToday now) l)).
  { intros l. rewrite forallb_existsb_negb, negb_involutive.
    induction l as [|c r IH]; cbn; [reflexivity|].
    now rewrite IH, checkedOn_checkedToday. }
  assert (Hcomplete : forall s,
    ((0 <? List.length (Site.credentials s))%nat
     && forallb (QuickFilters.checkedOn (Clock.isoDate now)) (Site.credentials s)) =
    SitesService.isSiteCompleteToday now s).
  { intros s. unfold SitesService.isSiteCompleteToday. rewrite Hqa.
    now destruct (Site.credentials s). }
  assert (Hpartial :
    ((0 <? List.length (filter (QuickFilters.checkedOn (Clock.isoDate now))
                               (Site.credentials site)))%nat
     && (List.length (filter (QuickFilters.checkedOn (Clock.isoDate now))
                             (Site.credentials site))
         <? List.length (Site.credentials site))%nat) =
    existsb (SitesService.checkedToday now) (Site.credentials site)
    && negb (forallb (SitesService.checkedToday now) (Site.credentials site))).
  { rewrite Hq.
    pose proof (filter_length_all (SitesService.checkedToday now) (Site.credentials site))
      as Hall.
    pose proof (filter_length_none (SitesService.checkedToday now) (Site.credentials site))
      as Hnone.
    pose proof (filter_length_le (SitesService.checkedToday now) (Site.credentials site))
      as Hle.
    destruct (existsb (SitesService.checkedToday now) (Site.credentials site)).
    - destruct (forallb (SitesService.checkedToday now) (Site.credentials site)).
      + rewrite (proj2 Hall eq_refl), Nat.ltb_irrefl. apply andb_false_r.
      + apply andb_true_intro. split; apply Nat.ltb_lt.
        * destruct (List.length (filter (SitesService.checkedToday now)
                                        (Site.credentials site))); [|lia].
          now pose proof (proj1 Hnone eq_refl).
        * destruct (Nat.eq_dec
                      (List.length (filter (SitesService.checkedToday now)
                                           (Site.credentials site)))
                      (List.length (Site.credentials site))) as [Hl|Hl]; [|lia].
          now pose proof (proj1 Hall Hl).
    - now rewrite (proj2 Hnone eq_refl). }
  assert (Hdone :
    SitesService.isSiteCompleteToday now site =
    forallb (SitesService.checkedToday now) (Site.credentials site)
    && existsb (SitesService.checkedToday now) (Site.credentials site)).
  { unfold SitesService.isSiteCompleteToday.
    destruct (Site.credentials site) as [|c r]; [reflexivity|].
    cbn [forallb existsb]. now destruct (SitesService.checkedToday now c), (forallb _ r). }
  unfold QuickFilters.applyFilterType, SitesService.getCompletedSites,
    StateManager.getFilteredSites.
  cbn [String.eqb Ascii.eqb Bool.eqb StateManager.search StateManager.status
       StateManager.category StateManager.tags StateManager.nonEmpty negb
       List.length StateManager.getSites].
  change (0 <? 0)%nat with false. cbv iota.
  rewrite !filter_In, Hcomplete, Hpartial, Hqe, Hdone.
  change (StateManager.checkedToday now) with (SitesService.checkedToday now).
  split; [|split; [apply filter_ext; exact Hcomplete |]].
  all: destruct (getSiteStatus_cases now site)
    as [(He & ->)|[(_ & -> & -> & ->)|[(_ & -> & -> & ->)|(_ & -> & -> & ->)]]];
    try rewrite He.
  all: try (cbn [andb negb forallb existsb]; repeat split; intros;
            repeat match goal with
                   | H : _ /\ _ |- _ => destruct H
                   | H : _ \/ _ |- _ => destruct H
                   end;
            try discriminate; auto).
Qed.

Lemma site_status_across_services_witness :
  let site := Scenario.partialSite 32400000 in
  let state := Scenario.document 0 [site] (Analytics.mk 1 1 1 0 1 0 None) in
  SitesService.getSiteStatus 32400000 site = "partial" /\
  In site (StateManager.getFilteredSites 32400000
             (StateManager.mkFilters "" "done" None []) (Some state)) /\
  In site (QuickFilters.applyFilterType 32400000 (State.sites state) "pending").
Proof.
  intros site state.
  destruct (site_status_across_services 32400000 state site)
    as (_ & _ & _ & _ & Hpending & Hdone & _).
  assert (Hstatus : SitesService.getSiteStatus 32400000 site = "partial")
    by (vm_compute; reflexivity).
  assert (Hin : In site (State.sites state)) by (left; reflexivity).
  split; [exact Hstatus|]. split.
  - apply Hdone. split; [exact Hin | right; exact Hstatus].
  - apply Hpending. split; [exact Hin | right; exact Hstatus].
Defined.

(** * The site filter and the tags of the state manager *)

Lemma stage_filter {A : Type} (b : bool) (p : A -> bool) (l : list A) :
  (if b then filter p l else l) = filter (fun x => if b then p x else true) l.
Proof.
  destruct b; [reflexivity|].
  induction l as [|x r IH]; cbn; [reflexivity | now rewrite <- IH].
Qed.

Lemma filter_filter {A : Type} (p q : A -> bool) (l : list A) :
  filter q (filter p l) = filter (fun x => p x && q x) l.
Proof.
  induction l as [|x r IH]; cbn; [reflexivity|].
  destruct (p x); cbn; [destruct (q x)|]; now rewrite IH.
Qed.

Lemma In_stage {A : Type} (b : bool) (p : A -> bool) (l : list A) (x : A) :
  In x (if b then filter p l else l) <-> In x l /\ (b = true -> p x = true).
Proof.
  destruct b; [rewrite filter_In|]; intuition discriminate.
Qed.

(** The filter as one test applied to each site. *)
Lemma getFilteredSites_filter (now : Z) (filters : StateManager.Filters) :
  exists keep : Site.t -> bool,
    (forall state,
       StateManager.getFilteredSites now filters state =
       filter keep (StateManager.getSites state)) /\
    (StateManager.search filters = "" ->
     StateManager.status filters = "all" ->
     (StateManager.category filters = None \/ StateManager.category filters = Some "") ->
     StateManager.tags filters = [] ->
     forall site, keep site = true).
Proof.
  unfold StateManager.getFilteredSites.
  eexists. split.
  - intros state.
    rewrite (stage_filter (StateManager.nonEmpty (StateManager.search filters))).
    rewrite (stage_filter (negb (StateManager.status filters =? "all")%string)).
    assert (Hcat : forall l : list Site.t,
      match StateManager.category filters with
      | Some wanted =>
          if StateManager.nonEmpty wanted
          then filter (fun site => match Site.category site with
                                   | Some c => String.eqb c wanted
                                   | None => false
                                   end) l
          else l
      | None => l
      end =
      filter (fun site =>
                match StateManager.category filters with
                | Some wanted =>
                    if StateManager.nonEmpty wanted
                    then match Site.category site with
                         | Some c => String.eqb c wanted
                         | None => false
                         end
                    else true
                | None => true
                end) l).
    { intros l. destruct (StateManager.category filters) as [wanted|].
      - apply stage_filter.
      - apply (stage_filter false (fun _ => true)). }
    rewrite Hcat.
    rewrite (stage_filter (0 <? List.length (StateManager.tags filters))%nat).
    rewrite !filter_filter. reflexivity.
  - intros Hsearch Hstatus Hcategory Htags site. cbv beta.
    rewrite Hsearch, Hstatus, Htags.
    destruct Hcategory as [-> | ->]; reflexivity.
Qed.

(** X24. The site filter selects: its result is the cached list with the
    sites that fail one test removed, in the order of the cache, and the
    test looks at one site at a time. With the filters of [clearFilters]
    nothing is removed, and a site listed under some filters is listed
    when any one of the four filters is taken off. *)
Theorem getFilteredSites_selects (now : Z) (filters : StateManager.Filters)
        (state : option State.t) :
  let listed f := StateManager.getFilteredSites now f state in
  let without u := StateManager.setFilters u filters in
  (exists keep : Site.t -> bool,
     forall state', StateManager.getFilteredSites now filters state' =
                    filter keep (StateManager.getSites state')) /\
  listed StateManager.clearFilters = StateManager.getSites state /\
  forall site, In site (listed filters) ->
    In site (StateManager.getSites state) /\
    In site (listed (without (StateManager.mkFilterUpdates (Some "") None None None))) /\
    In site (listed (without (StateManager.mkFilterUpdates None (Some "all") None None))) /\
    In site (listed (without (StateManager.mkFilterUpdates None None (Some None) None))) /\
    In site (listed (without (StateManager.mkFilterUpdates None None None (Some [])))).
Proof.
  cbv zeta. split; [|split].
  - destruct (getFilteredSites_filter now filters) as (keep & Hkeep & _).
    now exists keep.
  - destruct (getFilteredSites_filter now StateManager.clearFilters) as (keep & Hkeep & Hall).
    rewrite Hkeep.
    assert (Hk : forall site, keep site = true)
      by (apply Hall; cbn; auto).
    clear Hkeep Hall. induction (StateManager.getSites state) as [|x r IH]; cbn;
      [reflexivity | now rewrite Hk, IH].
  - intros site. unfold StateManager.getFilteredSites, StateManager.setFilters.
    cbn [StateManager.search StateManager.status StateManager.category
         StateManager.tags StateManager.newSearch StateManager.newStatus
         StateManager.newCategory StateManager.newTags orElse
         StateManager.nonEmpty String.eqb Ascii.eqb Bool.eqb negb List.length].
    change (0 <? 0)%nat with false. cbv iota.
    destruct (StateManager.category filters) as [wanted|];
      rewrite !In_stage; tauto.
Qed.

Lemma getFilteredSites_selects_witness :
  let filters := StateManager.mkFilters "MAIL" "done" (Some "work") ["bank"; "work"] in
  let state := Some Sample.taggedDocument in
  map Site.id (StateManager.getFilteredSites 32400000 filters state) = ["s1"] /\
  forall site,
    In site (StateManager.getFilteredSites 32400000 filters state) ->
    In site (StateManager.getFilteredSites 32400000
               (StateManager.mkFilters "MAIL" "all" (Some "work") ["bank"; "work"])
               state).
Proof.
  intros filters state. split; [vm_compute; reflexivity|].
  intros site Hin.
  destruct (getFilteredSites_selects 32400000 filters state) as (_ & _ & Hnarrow).
  exact (proj1 (proj2 (proj2 (Hnarrow site Hin)))).
Defined.

(** ** [getAllTags] *)

Lemma insertSorted_perm (x : string) (l : list string) :
  Permutation (StateManager.insertSorted x l) (x :: l).
Proof.
  induction l as [|y r IH]; cbn; [reflexivity|].
  destruct (JS.stringLeb x y); [reflexivity|].
  rewrite IH. apply perm_swap.
Qed.

Lemma leUnits_total (a b : list N) : JS.leUnits a b = true \/ JS.leUnits b a = true.
Proof.
  revert b. induction a as [|x a IH]; intros [|y b]; cbn; auto.
  destruct (N.ltb_spec x y), (N.ltb_spec y x); auto; lia.
Qed.

Lemma leUnits_trans (a b c : list N) :
  JS.leUnits a b = true -> JS.leUnits b c = true -> JS.leUnits a c = true.
Proof.
  revert b c. induction a as [|x a IH]; intros [|y b] [|z c]; cbn; auto;
    try discriminate.
  destruct (N.ltb_spec x y), (N.ltb_spec y x), (N.ltb_spec y z), (N.ltb_spec z y),
           (N.ltb_spec x z), (N.ltb_spec z x);
    try discriminate; try lia; auto.
  apply IH.
Qed.

Lemma stringLeb_total (a b : string) :
  JS.stringLeb a b = true \/ JS.stringLeb b a = true.
Proof. apply leUnits_total. Qed.

Lemma insertSorted_sorted (x : string) (l : list string) :
  Sorted (fun a b => JS.stringLeb a b = true) l ->
  Sorted (fun a b => JS.stringLeb a b = true) (StateManager.insertSorted x l).
Proof.
  induction l as [|y r IH]; cbn; intros Hs.
  - repeat constructor.
  - destruct (JS.stringLeb x y) eqn:Hxy.
    + constructor; [exact Hs | constructor; exact Hxy].
    + apply Sorted_inv in Hs. destruct Hs as [Hr Hhd].
      constructor; [apply IH; exact Hr|].
      assert (Hyx : JS.stringLeb y x = true).
      { destruct (stringLeb_total x y) as [H|H]; [congruence | exact H]. }
      destruct r as [|z r']; cbn.
      * constructor. exact Hyx.
      * destruct (JS.stringLeb x z); constructor; [exact Hyx|].
        now apply HdRel_inv in Hhd.
Qed.

Lemma sort_perm (l acc : list string) :
  Permutation (fold_left (fun sorted x => StateManager.insertSorted x sorted) l acc)
              (l ++ acc).
Proof.
  revert acc. induction l as [|x r IH]; intros acc; cbn; [reflexivity|].
  rewrite IH, insertSorted_perm. symmetry. apply Permutation_middle.
Qed.

Lemma sort_sorted (l acc : list string) :
  Sorted (fun a b => JS.stringLeb a b = true) acc ->
  Sorted (fun a b => JS.stringLeb a b = true)
         (fold_left (fun sorted x => StateManager.insertSorted x sorted) l acc).
Proof.
  revert acc. induction l as [|x r IH]; intros acc Hs; cbn; [exact Hs|].
  apply IH, insertSorted_sorted, Hs.
Qed.

Lemma addTag_spec (set : list string) (tag : string) :
  (NoDup set -> NoDup (StateManager.addTag set tag)) /\
  (forall t, In t (StateManager.addTag set tag) <-> In t set \/ t = tag).
Proof.
  unfold StateManager.addTag.
  destruct (existsb (String.eqb tag) set) eqn:He.
  - split; [auto|]. intros t. split; [auto|]. intros [H| ->]; [exact H|].
    apply existsb_exists in He. destruct He as (t' & Hin & Heq).
    apply String.eqb_eq in Heq. now subst.
  - split.
    + intros Hnd. apply NoDup_app; [exact Hnd | repeat constructor; intros [] |].
      intros t Hin [<-|[]].
      assert (existsb (String.eqb tag) set = true); [|congruence].
      apply existsb_exists. exists tag. split; [exact Hin | apply String.eqb_refl].
    + intros t. rewrite in_app_iff. cbn. intuition.
Qed.

Lemma addTags_spec (tags set : list string) :
  (NoDup set -> NoDup (fold_left StateManager.addTag tags set)) /\
  (forall t, In t (fold_left StateManager.addTag tags set) <-> In t set \/ In t tags).
Proof.
  revert set. induction tags as [|tag r IH]; intros set; cbn.
  - split; [auto|]. intuition.
  - destruct (IH (StateManager.addTag set tag)) as [Hnd Hin].
    destruct (addTag_spec set tag) as [Hnd1 Hin1].
    split; [auto|]. intros t. rewrite Hin, Hin1. intuition.
Qed.

Lemma tagsSet_spec (sites : list Site.t) (set : list string) :
  let tagsSet :=
    fold_left
      (fun tagsSet site =>
         match Site.tags site with
         | Some siteTags => fold_left StateManager.addTag siteTags tagsSet
         | None => tagsSet
         end) sites set in
  (NoDup set -> NoDup tagsSet) /\
  (forall t, In t tagsSet <->
             In t set \/
             exists site siteTags,
               In site sites /\ Site.tags site = Some siteTags /\ In t siteTags).
Proof.
  cbv zeta. revert set. induction sites as [|site r IH]; intros set; cbn [fold_left].
  - split; [auto|]. intros t. split; [auto|].
    intros [H|(site & siteTags & [] & _)]. exact H.
  - destruct (Site.tags site) as [siteTags|] eqn:Htags.
    + destruct (IH (fold_left StateManager.addTag siteTags set)) as [Hnd Hin].
      destruct (addTags_spec siteTags set) as [Hnd1 Hin1].
      split; [auto|]. intros t. rewrite Hin, Hin1. split.
      * intros [[H|H]|(s & ts & Hs & Hts & Ht)]; [auto | |].
        -- right. exists site, siteTags. cbn. auto.
        -- right. exists s, ts. cbn. auto.
      * intros [H|(s & ts & [<-|Hs] & Hts & Ht)]; [auto | |].
        -- left. right. congruence.
        -- right. exists s, ts. auto.
    + destruct (IH set) as [Hnd Hin].
      split; [auto|]. intros t. rewrite Hin. split.
      * intros [H|(s & ts & Hs & Hts & Ht)]; [auto|].
        right. exists s, ts. cbn. auto.
      * intros [H|(s & ts & [<-|Hs] & Hts & Ht)]; [auto | congruence |].
        right. exists s, ts. auto.
Qed.

(** X25. [getAllTags] returns every tag carried by a cached site and
    nothing else, each tag once, in ascending order of the strings as the
    language compares them, by UTF-16 code units: every tag of the result
    is at most every tag after it. *)
Theorem getAllTags_sorted_distinct (state : option State.t) :
  let allTags := StateManager.getAllTags state in
  (forall tag, In tag allTags <->
               exists site siteTags,
                 In site (StateManager.getSites state) /\
                 Site.tags site = Some siteTags /\ In tag siteTags) /\
  NoDup allTags /\
  StronglySorted (fun a b => JS.leUnits (JS.codeUnits a) (JS.codeUnits b) = true) allTags.
Proof.
  cbv zeta. unfold StateManager.getAllTags, StateManager.sort.
  destruct (tagsSet_spec (StateManager.getSites state) []) as [Hnd Hin].
  cbv zeta in Hnd, Hin.
  set (tagsSet := fold_left _ (StateManager.getSites state) []) in *.
  pose proof (sort_perm tagsSet []) as Hperm. rewrite app_nil_r in Hperm.
  split; [|split].
  - intros tag. split.
    + intros H. apply (Permutation_in _ Hperm) in H. apply Hin in H.
      destruct H as [[]|H]. exact H.
    + intros H. apply (Permutation_in _ (Permutation_sym Hperm)).
      apply Hin. now right.
  - apply (Permutation_NoDup (Permutation_sym Hperm)). apply Hnd. constructor.
  - apply Sorted_StronglySorted.
    + intros a b c. apply leUnits_trans.
    + apply (sort_sorted tagsSet []). constructor.
Qed.

Lemma getAllTags_sorted_distinct_witness :
  StateManager.getAllTags (Some Sample.taggedDocument) = ["bank"; "mail"; "work"] /\
  NoDup (StateManager.getAllTags (Some Sample.taggedDocument)) /\
  In "bank" (StateManager.getAllTags (Some Sample.taggedDocument)) /\
  StateManager.getAllTags (Some Sample.unicodeTagsDocument)
  = ["work"; Sample.astralTag; Sample.wideTag] /\
  String.leb Sample.wideTag Sample.astralTag = true.
Proof.
  destruct (getAllTags_sorted_distinct (Some Sample.taggedDocument))
    as (Hin & Hnd & _).
  split; [vm_compute; reflexivity|]. split; [exact Hnd|].
  split; [|split; vm_compute; reflexivity].
  apply Hin.
  exists (Site.mk "s2" "Bank" "https://bank.example.com" "" None
                  (Some ["mail"; "bank"]) 0 "#3b82f6" "" [] 0 0),
         ["mail"; "bank"].
  split; [right; left; reflexivity|]. split; [reflexivity | right; left; reflexivity].
Defined.

(** * The credentials service *)

Lemma getCredential_storage (siteId credentialId : string) (st : Storage.Store) :
  CredentialsService.getCredential siteId credentialId st =
  Storage.getCredential siteId credentialId st.
Proof. now destruct st. Qed.

Lemma getCredential_mutateCredential
      (siteId credentialId : string) (f : Credential.t -> Credential.t)
      (state : State.t) (c : Credential.t) :
  (forall c0, Credential.id (f c0) = Credential.id c0) ->
  Storage.getCredential siteId credentialId (Some state) = Some c ->
  Storage.getCredential siteId credentialId
    (Some (Storage.mutateCredential siteId credentialId f state)) = Some (f c).
Proof.
  intros Hid Hc.
  unfold Storage.getCredential, Storage.getState, Storage.mutateCredential in *.
  cbn [State.sites State.set_sites].
  destruct (find (Storage.hasSiteId siteId) (State.sites state)) as [site|] eqn:Hs;
    [|discriminate].
  erewrite find_modifyFirst; [| exact Hs |].
  - cbn [Site.credentials Site.set_credentials].
    apply find_modifyFirst; [exact Hc|].
    unfold Storage.hasCredentialId. rewrite Hid.
    apply find_some in Hc. exact (proj2 Hc).
  - apply find_some in Hs. exact (proj2 Hs).
Qed.

Lemma updateStreak_totalCheckIns (tToday tNow : Z) (state : State.t) :
  Analytics.totalCheckIns (State.analytics (Storage.updateStreak tToday tNow state)) =
  Analytics.totalCheckIns (State.analytics state).
Proof.
  unfold Storage.updateStreak.
  destruct (Analytics.lastCheckIn (State.analytics state)); cbn;
    repeat match goal with
           | |- context [if ?b then _ else _] => destruct b; cbn
           end; reflexivity.
Qed.

(** X26. [deleteCredential] on a site it finds answers [true] whether or
    not a credential has the identifier; afterwards the site has its
    former credentials without all those of that identifier, in their
    former order, so that [getCredential] finds none, and its [updatedAt]
    is the time of the call. *)
Theorem deleteCredential_removes_every_match
        (now : Z) (siteId credentialId : string) (state : State.t) (site : Site.t) :
  Storage.getSite siteId (Some state) = Some site ->
  exists state' site',
    CredentialsService.deleteCredential now siteId credentialId (Some state) =
      (true, Some state') /\
    Storage.getSite siteId (Some state') = Some site' /\
    Site.credentials site' =
      filter (fun c => negb (Storage.hasCredentialId credentialId c))
             (Site.credentials site) /\
    (forall c, In c (Site.credentials site') <->
               In c (Site.credentials site) /\ Credential.id c <> credentialId) /\
    CredentialsService.getCredential siteId credentialId (Some state') = None /\
    Site.updatedAt site' = now /\
    Site.name site' = Site.name site /\
    map Site.id (State.sites state') = map Site.id (State.sites state).
Proof.
  intros Hsite.
  unfold CredentialsService.deleteCredential. rewrite Hsite.
  unfold Storage.getSite, Storage.getSites, Storage.updateSite in *.
  cbn [Storage.getState] in *. rewrite Hsite.
  eexists. eexists. split; [reflexivity|].
  unfold Storage.setState. cbn [State.sites State.set_sites].
  assert (Hfound :
    find (Storage.hasSiteId siteId)
         (modifyFirst (Storage.hasSiteId siteId)
            (Storage.applyUpdates now
               (SiteUpdates.mk None None None None None None None None None
                  (Some (filter (fun c => negb (Credential.id c =? credentialId)%string)
                                (Site.credentials site))) None))
            (State.sites state)) =
    Some (Storage.applyUpdates now
            (SiteUpdates.mk None None None None None None None None None
               (Some (filter (fun c => negb (Credential.id c =? credentialId)%string)
                             (Site.credentials site))) None) site)).
  { apply find_modifyFirst; [exact Hsite|].
    apply find_some in Hsite. exact (proj2 Hsite). }
  split; [exact Hfound|].
  cbn [Storage.applyUpdates Site.credentials Site.updatedAt Site.name
       SiteUpdates.credentials SiteUpdates.name orElse].
  split; [reflexivity|]. split; [|split; [|split; [reflexivity|split; [reflexivity|]]]].
  - intros c. rewrite filter_In. apply and_iff_compat_l.
    rewrite negb_true_iff. split.
    + intros Hne Heq. apply String.eqb_eq in Heq. congruence.
    + intros Hne. apply not_true_is_false. intros Heq.
      apply String.eqb_eq in Heq. contradiction.
  - unfold CredentialsService.getCredential, Storage.getSite, Storage.getSites.
    cbn [Storage.getState State.sites State.set_sites]. rewrite Hfound.
    cbn [Storage.applyUpdates Site.credentials SiteUpdates.credentials orElse].
    apply find_none_iff. intros c Hin. apply filter_In in Hin.
    destruct Hin as [_ Hne]. apply negb_true_iff in Hne. exact Hne.
  - destruct (modifyFirst_split (Storage.hasSiteId siteId)
                (Storage.applyUpdates now
                   (SiteUpdates.mk None None None None None None None None None
                      (Some (filter (fun c => negb (Credential.id c =? credentialId)%string)
                                    (Site.credentials site))) None))
                (State.sites state) site Hsite) as (l1 & l2 & Hl & Hm & _).
    rewrite Hm, Hl, !map_app. reflexivity.
Qed.

Lemma deleteCredential_removes_every_match_witness :
  exists state' site',
    CredentialsService.deleteCredential 1000 "s1" "c1" (Some Sample.sharedIdDocument) =
      (true, Some state') /\
    Storage.getSite "s1" (Some state') = Some site' /\
    Site.credentials site' = [Scenario.credential "c2" None].
Proof.
  destruct (deleteCredential_removes_every_match
              1000 "s1" "c1" Sample.sharedIdDocument
              (Scenario.site "s1"
                 [ Scenario.credential "c1" None;
                   Scenario.credential "c2" None;
                   Scenario.credential "c1" (Some 5) ])
              eq_refl)
    as (state' & site' & Hrun & Hsite & Hcreds & _).
  exists state', site'. split; [exact Hrun|]. split; [exact Hsite|].
  rewrite Hcreds. reflexivity.
Defined.

(** X27. [toggleCheckIn] on a credential it finds answers [true] and flips
    whether the credential is checked in today. Taking a check-in back
    clears [checkedInOn] and leaves the history of the credential and the
    analytics of the document as the check-in left them; checking in
    writes the time of the call and counts one more check-in. *)
Theorem toggleCheckIn_flips
        (tIs now tToday tNow : Z) (device siteId credentialId : string)
        (state : State.t) (c : Credential.t) :
  Clock.isoDate now = Clock.isoDate tIs ->
  CredentialsService.getCredential siteId credentialId (Some state) = Some c ->
  exists state' c',
    CredentialsService.toggleCheckIn tIs now tToday tNow device siteId credentialId
      (Some state) = (true, Some state') /\
    CredentialsService.getCredential siteId credentialId (Some state') = Some c' /\
    StateManager.checkedToday tIs c' = negb (StateManager.checkedToday tIs c) /\
    (StateManager.checkedToday tIs c = true ->
     Credential.checkedInOn c' = None /\
     Credential.checkInHistory c' = Credential.checkInHistory c /\
     State.analytics state' = State.analytics state) /\
    (StateManager.checkedToday tIs c = false ->
     Credential.checkedInOn c' = Some now /\
     Analytics.totalCheckIns (State.analytics state') =
       Analytics.totalCheckIns (State.analytics state) + 1).
Proof.
  intros Hday Hc.
  unfold CredentialsService.toggleCheckIn. rewrite Hc.
  rewrite getCredential_storage in Hc.
  change (match Credential.checkedInOn c with
          | Some checkedInOn => CredentialsService.isToday tIs checkedInOn
          | None => false
          end) with (StateManager.checkedToday tIs c).
  destruct (StateManager.checkedToday tIs c) eqn:Hchecked.
  - exists (Storage.mutateCredential siteId credentialId
              (Credential.set_checkedInOn None) state),
           (Credential.set_checkedInOn None c).
    split.
    { unfold Storage.resetCredential, Storage.getCredential in *.
      cbn [Storage.getState] in *.
      destruct (find (Storage.hasSiteId siteId) (State.sites state)); [|discriminate].
      now rewrite Hc. }
    split.
    { rewrite getCredential_storage.
      now apply getCredential_mutateCredential. }
    repeat split; discriminate.
  - pose proof (checkIn_success now tToday tNow device siteId credentialId state c Hc)
      as Hrun.
    pose proof (getCredential_checkIn now tToday tNow device siteId credentialId state c Hc)
      as Hget.
    rewrite Hrun in Hget. cbn [snd] in Hget.
    eexists. exists (Storage.checkInMutation now device c).
    split; [exact Hrun|].
    split; [rewrite getCredential_storage; exact Hget|].
    assert (Hon : Credential.checkedInOn (Storage.checkInMutation now device c) = Some now).
    { unfold Storage.checkInMutation.
      now destruct CONFIG.features_checkInHistory. }
    split.
    { unfold StateManager.checkedToday, StateManager.isToday. rewrite Hon.
      cbn [negb]. apply Z.eqb_eq. now symmetry. }
    split; [discriminate|]. intros _. split; [exact Hon|].
    rewrite updateStreak_totalCheckIns. reflexivity.
Qed.

Lemma toggleCheckIn_flips_witness :
  exists state' c',
    CredentialsService.toggleCheckIn 1000 1000 1000 1000 "laptop" "s1" "c2"
      (Some Sample.sharedIdDocument) = (true, Some state') /\
    CredentialsService.getCredential "s1" "c2" (Some state') = Some c' /\
    StateManager.checkedToday 1000 c' = true.
Proof.
  destruct (toggleCheckIn_flips 1000 1000 1000 1000 "laptop" "s1" "c2"
              Sample.sharedIdDocument (Scenario.credential "c2" None)
              eq_refl eq_refl)
    as (state' & c' & Hrun & Hget & Hflip & _).
  exists state', c'. split; [exact Hrun|]. split; [exact Hget|].
  rewrite Hflip. reflexivity.
Defined.

(** X28. The answer of [getCredentialStatus] for a credential checked in
    at [t], read at [now]: "today" on the calendar day of [t];
    "yesterday" when [t] lies between 24 and 48 hours back; "this-week"
    on another calendar day less than 24 hours back, in the future
    included, or between two and eight days back; "this-month" up to 31
    days back, and "stale" from there. *)
Theorem getCredentialStatus_ranges (now t : Z) (c : Credential.t) :
  Credential.checkedInOn c = Some t ->
  let status := CredentialsService.getCredentialStatus now now c in
  let day := 86400000 in
  (status = "today" <-> Clock.isoDate t = Clock.isoDate now) /\
  (status = "yesterday" <-> day <= now - t < 2 * day) /\
  (status = "this-week" <->
   Clock.isoDate t <> Clock.isoDate now /\
   (now - t < day \/ 2 * day <= now - t < 8 * day)) /\
  (status = "this-month" <-> 8 * day <= now - t < 31 * day) /\
  (status = "stale" <-> 31 * day <= now - t).
Proof.
  intros Hc. cbv zeta.
  unfold CredentialsService.getCredentialStatus, CredentialsService.isToday,
    CredentialsService.getDaysAgo, Clock.isoDate, Clock.msPerDay.
  rewrite Hc.
  change (1000 * 60 * 60 * 24) with 86400000.
  destruct (Z.eqb_spec (now / 86400000) (t / 86400000)) as [Hd|Hd];
    [|destruct (Z.eqb_spec ((now - t) / 86400000) 1) as [H1|H1];
      [|destruct (Z.leb_spec ((now - t) / 86400000) 7) as [H7|H7];
        [|destruct (Z.leb_spec ((now - t) / 86400000) 30) as [H30|H30]]]].
  all: repeat split; intros; try discriminate; try reflexivity;
    repeat match goal with H : _ /\ _ |- _ => destruct H end;
    Z.div_mod_to_equations; first [lia | exfalso; lia].
Qed.

Lemma getCredentialStatus_ranges_witness :
  CredentialsService.getCredentialStatus 86400001 86400001
    (Scenario.credential "c1" (Some 86399999)) = "this-week".
Proof.
  destruct (getCredentialStatus_ranges 86400001 86399999
              (Scenario.credential "c1" (Some 86399999)) eq_refl)
    as (_ & _ & Hweek & _).
  apply Hweek. split; [vm_compute; discriminate | left; vm_compute; reflexivity].
Defined.

(** * Copies of a site and the bulk check-in *)

Lemma nth_error_indexed {A B : Type} (f : nat * A -> B) (l : list A) (start i : nat) (x : A) :
  nth_error l i = Some x ->
  nth_error (map f (combine (seq start (List.length l)) l)) i = Some (f (start + i, x))%nat.
Proof.
  revert start i. induction l as [|y r IH]; intros start [|i]; cbn; try discriminate.
  - intros [= ->]. now rewrite Nat.add_0_r.
  - intros H. rewrite (IH (S start) i H). do 3 f_equal. lia.
Qed.

(** X29. [duplicateSite] on a site it finds appends one site to the
    document and leaves the others, the original included, as they were.
    The copy carries the identifier and the two dates that [duplicateSite]
    generated, not those [addSite] generates, the name of the original
    followed by " (Copy)", and one credential for each credential of the
    original, in the same order: same label, email and password, a new
    identifier, no check-in and an empty history. *)
Theorem duplicateSite_copy
        (newId : string) (credentialIds : nat -> string) (tCreated tUpdated : Z)
        (addId : string) (tAdd1 tAdd2 : Z) (id : string)
        (state : State.t) (original : Site.t) :
  Storage.getSite id (Some state) = Some original ->
  exists copy state',
    SitesService.duplicateSite newId credentialIds tCreated tUpdated addId tAdd1 tAdd2
      id (Some state) = (Some copy, Some state') /\
    State.sites state' = State.sites state ++ [copy] /\
    Storage.getSite id (Some state') = Some original /\
    Site.id copy = newId /\
    Site.name copy = (Site.name original ++ " (Copy)")%string /\
    Site.url copy = Site.url original /\
    Site.createdAt copy = tCreated /\
    Site.updatedAt copy = tUpdated /\
    List.length (Site.credentials copy) = List.length (Site.credentials original) /\
    forall i cred,
      nth_error (Site.credentials original) i = Some cred ->
      exists cred',
        nth_error (Site.credentials copy) i = Some cred' /\
        Credential.id cred' = credentialIds i /\
        Credential.checkedInOn cred' = None /\
        Credential.checkInHistory cred' = Some [] /\
        Credential.label cred' = Credential.label cred /\
        Credential.email cred' = Credential.email cred /\
        Credential.password cred' = Credential.password cred.
Proof.
  intros Horiginal.
  unfold SitesService.duplicateSite. rewrite Horiginal.
  unfold Storage.addSite, Storage.setState. cbn [Storage.getState].
  eexists. eexists. split; [reflexivity|].
  cbn [State.sites State.set_sites State.set_analytics SiteData.id SiteData.name
       SiteData.url SiteData.createdAt SiteData.updatedAt SiteData.credentials
       orElse Site.id Site.name Site.url Site.createdAt Site.updatedAt
       Site.credentials].
  split; [reflexivity|].
  split.
  { unfold Storage.getSite, Storage.getSites in *. cbn [Storage.getState] in *.
    cbn [State.sites State.set_sites State.set_analytics].
    apply find_app_l. exact Horiginal. }
  repeat (split; [reflexivity|]).
  split.
  { rewrite length_map, length_combine, length_seq. apply Nat.min_id. }
  intros i cred Hnth.
  eexists. split.
  { apply (nth_error_indexed _ _ 0 i cred Hnth). }
  cbn. repeat split; reflexivity.
Qed.

Lemma duplicateSite_copy_witness :
  exists copy state',
    SitesService.duplicateSite "new" (fun i => if Nat.eqb i 0 then "n0" else "n1")
      50 60 "other" 70 80 "s1" (Some (Scenario.document 0 [Scenario.partialSite 3600000]
                                        (Analytics.mk 0 0 0 0 1 0 None)))
      = (Some copy, Some state') /\
    Site.id copy = "new" /\
    map Credential.id (Site.credentials copy) = ["n0"; "n1"] /\
    map Credential.checkedInOn (Site.credentials copy) = [None; None].
Proof.
  destruct (duplicateSite_copy "new" (fun i => if Nat.eqb i 0 then "n0" else "n1")
              50 60 "other" 70 80 "s1"
              (Scenario.document 0 [Scenario.partialSite 3600000]
                                 (Analytics.mk 0 0 0 0 1 0 None))
              (Scenario.partialSite 3600000) eq_refl)
    as (copy & state' & Hrun & _).
  exists copy, state'. split; [exact Hrun|].
  vm_compute in Hrun. injection Hrun as <- _.
  repeat split; reflexivity.
Defined.

(** ** [markAllDone] *)

Lemma find_at {A : Type} (p : A -> bool) (l1 : list A) (x : A) (l2 : list A) :
  (forall y, In y l1 -> p y = false) -> p x = true ->
  find p (l1 ++ x :: l2) = Some x.
Proof.
  intros Hl1 Hx. rewrite find_app_r; [cbn; now rewrite Hx|].
  apply find_none_iff. exact Hl1.
Qed.

Lemma modifyFirst_at {A : Type} (p : A -> bool) (f : A -> A)
      (l1 : list A) (x : A) (l2 : list A) :
  (forall y, In y l1 -> p y = false) -> p x = true ->
  modifyFirst p f (l1 ++ x :: l2) = l1 ++ f x :: l2.
Proof.
  intros Hl1 Hx. induction l1 as [|y r IH]; cbn.
  - now rewrite Hx.
  - rewrite (Hl1 y) by now left. f_equal. apply IH.
    intros z Hz. apply Hl1. now right.
Qed.

Lemma set_credentials_same (s : Site.t) :
  Site.set_credentials (Site.credentials s) s = s.
Proof. now destruct s. Qed.

Lemma eqb_neq_false (a b : string) : a <> b -> String.eqb a b = false.
Proof. intros H. now apply String.eqb_neq. Qed.

Section MarkAllDone.

Variables (now : Z) (device : string).

Let checkCredential (c : Credential.t) : Credential.t :=
if StateManager.checkedToday now c then c else Storage.checkInMutation now device c.

Let checkSite (s : Site.t) : Site.t :=
Site.set_credentials (map checkCredential (Site.credentials s)) s.

Let unchecked (credentials : list Credential.t) : Z :=
Z.of_nat (List.length (filter (fun c => negb (StateManager.checkedToday now c))
                              credentials)).

Let total (state : State.t) : Z := Analytics.totalCheckIns (State.analytics state).

Lemma checkCredential_id (c : Credential.t) :
Credential.id (checkCredential c) = Credential.id c.
Proof.
unfold checkCredential. destruct (StateManager.checkedToday now c); [reflexivity|].
apply checkInMutation_id.
Qed.

(** A check-in of the credential at a known place of the document. *)
Lemma checkIn_at (state : State.t) (pre : list Site.t) (s : Site.t) (post : list Site.t)
    (done : list Credential.t) (c : Credential.t) (rest : list Credential.t) :
State.sites state = pre ++ s :: post ->
(forall x, In x pre -> Site.id x <> Site.id s) ->
Site.credentials s = done ++ c :: rest ->
(forall x, In x done -> Credential.id x <> Credential.id c) ->
exists state',
  Storage.checkInCredential now now now device (Site.id s) (Credential.id c)
                            (Some state) = (true, Some state') /\
  State.sites state' =
    pre ++ Site.set_credentials (done ++ Storage.checkInMutation now device c :: rest) s
        :: post /\
  total state' = total state + 1.
Proof.
intros Hsites Hpre Hcreds Hdone.
assert (Hpre' : forall x, In x pre -> Storage.hasSiteId (Site.id s) x = false).
{ intros x Hx. apply eqb_neq_false. now apply Hpre. }
assert (Hdone' : forall x, In x done ->
                           Storage.hasCredentialId (Credential.id c) x = false).
{ intros x Hx. apply eqb_neq_false. now apply Hdone. }
assert (Hs : Storage.hasSiteId (Site.id s) s = true) by apply String.eqb_refl.
assert (Hcid : Storage.hasCredentialId (Credential.id c) c = true)
  by apply String.eqb_refl.
assert (Hc : Storage.getCredential (Site.id s) (Credential.id c) (Some state) = Some c).
{ unfold Storage.getCredential. cbn [Storage.getState].
  rewrite Hsites, (find_at _ pre s post Hpre' Hs), Hcreds.
  now apply find_at. }
eexists. split; [exact (checkIn_success now now now device _ _ state c Hc)|].
split.
- rewrite updateStreak_sites. unfold Storage.mutateCredential.
  cbn [State.sites State.set_sites State.set_analytics].
  rewrite Hsites, (modifyFirst_at _ _ pre s post Hpre' Hs), Hcreds.
  now rewrite (modifyFirst_at _ _ done c rest Hdone' Hcid).
- unfold total. rewrite updateStreak_totalCheckIns. reflexivity.
Qed.

(** The loop over the credentials of one cached site. *)
Lemma markAllDone_site (s : Site.t) (todo : list Credential.t) :
forall (done : list Credential.t) (state : State.t) (pre post : list Site.t),
  State.sites state =
    pre ++ Site.set_credentials (map checkCredential done ++ todo) s :: post ->
  (forall x, In x pre -> Site.id x <> Site.id s) ->
  NoDup (map Credential.id (done ++ todo)) ->
  exists state',
    fold_left
      (fun manager credential =>
         if negb (StateManager.checkedToday now credential)
         then snd (StateManager.checkInCredential now device (Site.id s)
                     (Credential.id credential) manager)
         else manager)
      todo (Some state, Some state) = (Some state', Some state') /\
    State.sites state' =
      pre ++ Site.set_credentials (map checkCredential (done ++ todo)) s :: post /\
    total state' = total state + unchecked todo.
Proof.
induction todo as [|c r IH]; intros done state pre post Hsites Hpre Hnd.
- exists state. cbn [fold_left]. rewrite app_nil_r in *.
  split; [reflexivity|]. split; [exact Hsites|].
  unfold unchecked. cbn. lia.
- cbn [fold_left].
  assert (Hnd' : NoDup (map Credential.id ((done ++ [c]) ++ r)))
    by now rewrite <- app_assoc.
  destruct (StateManager.checkedToday now c) eqn:Hchecked; cbn [negb].
  + destruct (IH (done ++ [c]) state pre post) as (state' & Hrun & Hs' & Ht');
      [| exact Hpre | exact Hnd' |].
    * rewrite Hsites, map_app, <- app_assoc. cbn [map app].
      replace (checkCredential c) with c; [reflexivity|].
      unfold checkCredential. now rewrite Hchecked.
    * exists state'. split; [exact Hrun|]. rewrite <- app_assoc in Hs'.
      split; [exact Hs'|]. rewrite Ht'. unfold unchecked. cbn [filter].
      now rewrite Hchecked.
  + destruct (checkIn_at state pre
                (Site.set_credentials (map checkCredential done ++ c :: r) s) post
                (map checkCredential done) c r Hsites)
      as (state1 & Hrun1 & Hs1 & Ht1); [exact Hpre | reflexivity | |].
    { intros x Hx. apply in_map_iff in Hx. destruct Hx as (y & <- & Hy).
      rewrite checkCredential_id. intros Heq.
      rewrite map_app in Hnd. apply NoDup_remove_2 in Hnd. apply Hnd.
      apply in_or_app. left. rewrite <- Heq. now apply in_map. }
    unfold StateManager.checkInCredential.
    change (Site.id (Site.set_credentials (map checkCredential done ++ c :: r) s))
      with (Site.id s) in Hrun1.
    rewrite Hrun1. cbn [snd Storage.getState].
    destruct (IH (done ++ [c]) state1 pre post) as (state' & Hrun & Hs' & Ht');
      [| exact Hpre | exact Hnd' |].
    * rewrite Hs1, map_app, <- app_assoc. cbn [map app].
      replace (checkCredential c) with (Storage.checkInMutation now device c);
        [reflexivity|].
      unfold checkCredential. now rewrite Hchecked.
    * exists state'. split; [exact Hrun|]. rewrite <- app_assoc in Hs'.
      split; [exact Hs'|]. rewrite Ht', Ht1. unfold unchecked. cbn [filter].
      rewrite Hchecked. cbn [negb List.length]. lia.
Qed.

(** The loop over the cached sites. *)
Lemma markAllDone_sites (todo : list Site.t) :
forall (done : list Site.t) (state : State.t),
  State.sites state = map checkSite done ++ todo ->
  NoDup (map Site.id (done ++ todo)) ->
  (forall site, In site todo -> NoDup (map Credential.id (Site.credentials site))) ->
  exists state',
    fold_left
      (fun manager site =>
         fold_left
           (fun manager credential =>
              if negb (StateManager.checkedToday now credential)
              then snd (StateManager.checkInCredential now device (Site.id site)
                          (Credential.id credential) manager)
              else manager)
           (Site.credentials site) manager)
      todo (Some state, Some state) = (Some state', Some state') /\
    State.sites state' = map checkSite (done ++ todo) /\
    total state' = total state + unchecked (flat_map Site.credentials todo).
Proof.
induction todo as [|s r IH]; intros done state Hsites Hnd Hcreds.
- exists state. cbn [fold_left]. rewrite app_nil_r in *.
  split; [reflexivity|]. split; [exact Hsites|].
  unfold unchecked. cbn. lia.
- cbn [fold_left].
  destruct (markAllDone_site s (Site.credentials s) [] state (map checkSite done) r)
    as (state1 & Hrun1 & Hs1 & Ht1).
  + cbn [map app]. now rewrite set_credentials_same.
  + intros x Hx. apply in_map_iff in Hx. destruct Hx as (y & <- & Hy).
    change (Site.id (checkSite y)) with (Site.id y). intros Heq.
    rewrite map_app in Hnd. apply NoDup_remove_2 in Hnd. apply Hnd.
    apply in_or_app. left. rewrite <- Heq. now apply in_map.
  + apply Hcreds. now left.
  + rewrite Hrun1.
    destruct (IH (done ++ [s]) state1) as (state' & Hrun & Hs' & Ht').
    * rewrite Hs1, (map_app checkSite), <- app_assoc. reflexivity.
    * now rewrite <- app_assoc.
    * intros site Hin. apply Hcreds. now right.
    * exists state'. split; [exact Hrun|]. rewrite <- app_assoc in Hs'.
      split; [exact Hs'|]. rewrite Ht', Ht1. unfold unchecked.
      cbn [flat_map]. rewrite filter_app, length_app. lia.
Qed.

(** X30. [markAllDone] on a manager whose cache is the stored document,
  where no two sites share an identifier and no two credentials of a
  site do: afterwards every credential of every site is checked in
  today. The credentials that were checked in today are left as they
  were, each of the others went through one check-in, and the check-in
  counter grew by their number; cache and store hold the same
  document. *)
Theorem markAllDone_checks_every_credential (state : State.t) :
NoDup (map Site.id (State.sites state)) ->
(forall site, In site (State.sites state) ->
              NoDup (map Credential.id (Site.credentials site))) ->
exists state',
  StateManager.markAllDone now device (Some state, Some state) =
    (Some state', Some state') /\
  State.sites state' =
    map (fun site =>
           Site.set_credentials
             (map (fun c => if StateManager.checkedToday now c then c
                            else Storage.checkInMutation now device c)
                  (Site.credentials site))
             site)
        (State.sites state) /\
  (forall site c, In site (State.sites state') -> In c (Site.credentials site) ->
                  StateManager.checkedToday now c = true) /\
  Analytics.totalCheckIns (State.analytics state') =
    Analytics.totalCheckIns (State.analytics state)
    + Z.of_nat (List.length
                  (filter (fun c => negb (StateManager.checkedToday now c))
                          (flat_map Site.credentials (State.sites state)))).
Proof.
intros Hnd Hcreds.
destruct (markAllDone_sites (State.sites state) [] state eq_refl Hnd Hcreds)
  as (state' & Hrun & Hsites & Htotal).
exists state'. split; [exact Hrun|]. split; [exact Hsites|]. split; [|exact Htotal].
intros site c Hsite Hc. rewrite Hsites in Hsite. cbn [app] in Hsite.
apply in_map_iff in Hsite. destruct Hsite as (s & <- & _).
cbn [checkSite Site.credentials Site.set_credentials] in Hc.
apply in_map_iff in Hc. destruct Hc as (c0 & <- & _).
unfold checkCredential.
destruct (StateManager.checkedToday now c0) eqn:Hchecked; [exact Hchecked|].
unfold StateManager.checkedToday, Storage.checkInMutation, StateManager.isToday.
destruct CONFIG.features_checkInHistory; cbn; apply Z.eqb_refl.
Qed.

End MarkAllDone.

Lemma markAllDone_checks_every_credential_witness :
  exists state',
    StateManager.markAllDone 3600000 "laptop"
      (Some (Scenario.document 0 [Scenario.partialSite 3600000; Scenario.site "s2" []]
                               (Analytics.mk 4 0 0 0 2 0 None)),
       Some (Scenario.document 0 [Scenario.partialSite 3600000; Scenario.site "s2" []]
                               (Analytics.mk 4 0 0 0 2 0 None)))
    = (Some state', Some state') /\
    Analytics.totalCheckIns (State.analytics state') = 5 /\
    map (fun site => map Credential.checkedInOn (Site.credentials site))
        (State.sites state') = [[Some 0; Some 3600000]; []].
Proof.
  destruct (markAllDone_checks_every_credential 3600000 "laptop"
              (Scenario.document 0 [Scenario.partialSite 3600000; Scenario.site "s2" []]
                                 (Analytics.mk 4 0 0 0 2 0 None)))
    as (state' & Hrun & Hsites & _ & Htotal).
  - vm_compute. repeat constructor; cbn; intuition discriminate.
  - intros site [<-|[<-|[]]]; vm_compute; repeat constructor; cbn; intuition discriminate.
  - exists state'. split; [exact Hrun|]. split; [exact Htotal|].
    rewrite Hsites. vm_compute. reflexivity.
Defined.

(** * The CSV text *)

Lemma split_length (sep : ascii) (s : string) :
  List.length (split sep s) = S (JS.count sep s).
Proof.
  induction s as [|c rest IH]; cbn; [reflexivity|].
  destruct (Ascii.eqb c sep); cbn; [now rewrite IH|].
  destruct (split sep rest) as [|head tail] eqn:Hs; [now apply split_nonempty in Hs|].
  exact IH.
Qed.

Lemma split_plain (sep : ascii) (s : string) :
  JS.count sep s = 0%nat -> split sep s = [s].
Proof.
  induction s as [|c rest IH]; cbn; [reflexivity|].
  destruct (Ascii.eqb c sep); [discriminate|].
  intros H. now rewrite (IH H).
Qed.

Lemma count_app (c : ascii) (s t : string) :
  JS.count c (s ++ t) = (JS.count c s + JS.count c t)%nat.
Proof.
  induction s as [|d s IH]; cbn; [reflexivity|].
  destruct (Ascii.eqb d c); cbn; now rewrite IH.
Qed.

(** The lines joined by a separator, split at the separator, are the lines,
    when no line holds the separator. *)
Lemma split_concat (sep : ascii) (line : string) (lines : list string) :
  (forall l, In l (line :: lines) -> JS.count sep l = 0%nat) ->
  split sep (String.concat (String sep EmptyString) (line :: lines)) = line :: lines.
Proof.
  revert line. induction lines as [|next lines IH]; intros line Hplain.
  - cbn. apply split_plain. apply Hplain. now left.
  - change (String.concat (String sep EmptyString) (line :: next :: lines))
      with (line ++ String sep (String.concat (String sep EmptyString) (next :: lines)))%string.
    rewrite split_app_sep, IH, split_plain.
    + reflexivity.
    + apply Hplain. now left.
    + intros l Hl. apply Hplain. now right.
Qed.

Lemma count_concat_sep (sep : ascii) (line : string) (lines : list string) :
  JS.count sep (String.concat (String sep EmptyString) (line :: lines))
  = (List.length lines + list_sum (map (JS.count sep) (line :: lines)))%nat.
Proof.
  revert line. induction lines as [|next lines IH]; intros line.
  - cbn. lia.
  - change (String.concat (String sep EmptyString) (line :: next :: lines))
      with (line ++ String sep (String.concat (String sep EmptyString) (next :: lines)))%string.
    rewrite count_app. cbn [JS.count]. rewrite Ascii.eqb_refl, IH.
    cbn [map list_sum fold_right List.length]. lia.
Qed.

Lemma count_concat_other (c : ascii) (sep : string) (cells : list string) :
  JS.count c sep = 0%nat ->
  JS.count c (String.concat sep cells) = list_sum (map (JS.count c) cells).
Proof.
  intros Hsep. induction cells as [|cell cells IH]; [reflexivity|].
  destruct cells as [|next cells]; [cbn; lia|].
  change (String.concat sep (cell :: next :: cells))
    with (cell ++ sep ++ String.concat sep (next :: cells))%string.
  rewrite !count_app, Hsep, IH. cbn [map list_sum fold_right]. lia.
Qed.

Lemma count_csvLine (row : list string) :
  JS.count "010"%char (Storage.csvLine row)
  = list_sum (map (JS.count "010"%char) row).
Proof.
  unfold Storage.csvLine. rewrite count_concat_other by reflexivity.
  rewrite map_map. f_equal. apply map_ext. intros cell.
  rewrite !count_app. cbn. lia.
Qed.

(** X8. The CSV text read back line by line. Its first line is the header.
    It is not escaped: the number of its lines is one for the header, one
    for each pair of a site and one of its credentials, and one more for
    every line feed inside a cell. Where no cell holds a line feed the
    lines are the header and one line per pair of a site and a credential
    of it, in the order of the document, each with the six cells of the
    pair between double quotes and joined by commas; a site without
    credentials has no line. The line of a pair holds twelve double quotes
    and five commas beside those of its cells. *)
Theorem convertToCSV_rows (data : Storage.ExportDoc) :
  let lines := split "010"%char (Storage.convertToCSV data) in
  let sites := State.sites (Storage.exportState data) in
  let cellsOf site cred :=
    [ Site.name site; Site.url site; orElse (Site.category site) "";
      Credential.email cred; Credential.label cred;
      String.concat ";" (orElse (Site.tags site) []) ] in
  let rows := flat_map (fun site => map (cellsOf site) (Site.credentials site)) sites in
  let quoted row :=
    String.concat ","
      (map (fun cell => (Storage.dquote ++ cell ++ Storage.dquote)%string) row) in
  hd_error lines
  = Some (quoted ["Site Name"; "URL"; "Category"; "Email"; "Label"; "Tags"]) /\
  List.length rows
  = list_sum (map (fun site => List.length (Site.credentials site)) sites) /\
  List.length lines
  = (1 + List.length rows
     + list_sum (map (fun row => list_sum (map (JS.count "010"%char) row)) rows))%nat /\
  ((forall row cell, In row rows -> In cell row -> JS.count "010"%char cell = 0%nat) ->
   tl lines = map quoted rows /\
   List.length lines = S (List.length rows)) /\
  (forall row, In row rows ->
     List.length row = 6%nat /\
     JS.count "034"%char (quoted row)
     = (12 + list_sum (map (JS.count "034"%char) row))%nat /\
     JS.count ","%char (quoted row)
     = (5 + list_sum (map (JS.count ","%char) row))%nat).
Proof.
  cbv zeta.
  set (sites := State.sites (Storage.exportState data)).
  set (rows := flat_map _ sites).
  assert (Htext : Storage.convertToCSV data
                  = String.concat Storage.newline
                      (Storage.csvLine
                         ["Site Name"; "URL"; "Category"; "Email"; "Label"; "Tags"]
                       :: map Storage.csvLine rows)) by reflexivity.
  change (fun row : list string =>
            String.concat ","
              (map (fun cell => (Storage.dquote ++ cell ++ Storage.dquote)%string) row))
    with Storage.csvLine.
  rewrite Htext. unfold Storage.newline.
  change (ascii_of_nat 10) with "010"%char.
  assert (Hheader :
    JS.count "010"%char
      (Storage.csvLine ["Site Name"; "URL"; "Category"; "Email"; "Label"; "Tags"])
    = 0%nat) by reflexivity.
  split; [|split; [|split; [|split]]].
  - destruct (map Storage.csvLine rows) as [|line lines'].
    + cbn [String.concat]. now rewrite (split_plain _ _ Hheader).
    + change (String.concat (String "010"%char EmptyString)
                (Storage.csvLine
                   ["Site Name"; "URL"; "Category"; "Email"; "Label"; "Tags"]
                 :: line :: lines'))
        with (Storage.csvLine
                ["Site Name"; "URL"; "Category"; "Email"; "Label"; "Tags"]
              ++ String "010"%char
                   (String.concat (String "010"%char EmptyString) (line :: lines')))%string.
      rewrite split_app_sep, (split_plain _ _ Hheader). reflexivity.
  - unfold rows. clear. induction sites as [|site sites' IH]; [reflexivity|].
    cbn [flat_map map list_sum fold_right]. rewrite length_app, length_map, IH.
    reflexivity.
  - rewrite split_length, count_concat_sep.
    cbn [map list_sum fold_right]. rewrite Hheader, length_map, map_map.
    rewrite (map_ext _ _ count_csvLine). unfold list_sum. lia.
  - intros Hplain.
    rewrite split_concat.
    + cbn [tl List.length]. now rewrite length_map.
    + intros l [<-|Hl]; [exact Hheader|].
      apply in_map_iff in Hl. destruct Hl as (row & <- & Hrow).
      rewrite count_csvLine.
      assert (Hcells : forall cell, In cell row -> JS.count "010"%char cell = 0%nat)
        by (intros cell; apply Hplain; exact Hrow).
      clear Hrow. induction row as [|cell row IH]; [reflexivity|].
      cbn [map list_sum fold_right]. rewrite (Hcells cell) by now left.
      apply IH. intros c Hc. apply Hcells. now right.
  - intros row Hrow. unfold rows in Hrow.
    apply in_flat_map in Hrow. destruct Hrow as (site & _ & Hrow).
    apply in_map_iff in Hrow. destruct Hrow as (cred & <- & _).
    split; [reflexivity|].
    unfold Storage.csvLine, Storage.dquote.
    cbn [map String.concat list_sum fold_right].
    rewrite !count_app. change (ascii_of_nat 34) with "034"%char.
    cbn [JS.count Ascii.eqb Bool.eqb].
    split; lia.
Qed.

Lemma convertToCSV_rows_witness :
  let data name :=
    Storage.mkExportDoc
      (Scenario.document 0
         [ Site.mk "s1" name "https://mail.example.com" "" (Some "work")
                   (Some ["work"; "mail"]) 0 "#3b82f6" ""
                   [ Scenario.credential "c1" None; Scenario.credential "c2" None ] 0 0 ]
         (Analytics.mk 0 0 0 0 1 0 None))
      0 in
  List.length (split "010"%char (Storage.convertToCSV (data "Mail"))) = 3%nat /\
  List.length (split "010"%char
                 (Storage.convertToCSV (data ("Mail" ++ Storage.newline ++ "box")%string)))
  = 5%nat.
Proof.
  intros data. split.
  - apply (proj1 (proj2 (proj2 (proj2 (convertToCSV_rows (data "Mail")))))).
    intros row cell Hrow Hcell.
    destruct Hrow as [<-|[<-|[]]];
      repeat (destruct Hcell as [<-|Hcell]; [reflexivity|]); destruct Hcell.
  - rewrite (proj1 (proj2 (proj2 (convertToCSV_rows
                                    (data ("Mail" ++ Storage.newline ++ "box")%string))))).
    reflexivity.
Defined.
